(** * Job-Scraper: a shallow embedding of the crawl pipeline

    The development follows the three source files of the repository:
    - [scraper/Timejobs_scraper.py]  (module [Timejobs_scraper]),
    - [scraper/Talent_scraper.py]    (module [Talent_scraper]),
    - [main.py]                      (module [Main] for [parse_jobs_file],
                                      module [MainRun] for the handler of
                                      the combined run).

    Python strings are modelled as [string]; a character stands for a code
    point below 256.  A parsed document (a BeautifulSoup object) is a forest
    of [Node]s, and the text of a tag leaves out what bs4 leaves out (the
    strings of [script], [style] and [template]).  The browser is an oracle answering each [driver.get]; its
    answers, the exceptions they may carry and the session's release are
    threaded through a small state-and-exception monad. *)

From Stdlib Require Import String Ascii List ZArith Lia Bool Arith.
From Stdlib Require Import DecimalString.
Import ListNotations.

Local Open Scope string_scope.
Local Open Scope list_scope.
Local Open Scope nat_scope.

(* ------------------------------------------------------------------ *)
(** ** Python string operations *)

Module PyStr.

(** [str.isspace] on one code point below 256. *)
Definition isspace_c (c : ascii) : bool :=
  let n := nat_of_ascii c in
  ((9 <=? n) && (n <=? 13)) || ((28 <=? n) && (n <=? 32))
  || (n =? 133) || (n =? 160).

(** [str.lower] on one code point below 256. *)
Definition lower_c (c : ascii) : ascii :=
  let n := nat_of_ascii c in
  if ((65 <=? n) && (n <=? 90))
     || ((192 <=? n) && (n <=? 222) && negb (n =? 215))
  then ascii_of_nat (n + 32) else c.

(** The decimal digits [0-9]. *)
Definition decimal_c (c : ascii) : bool :=
  let n := nat_of_ascii c in (48 <=? n) && (n <=? 57).

(** [str.isdigit] on one code point below 256: the decimal digits and the
    superscripts one, two and three. *)
Definition isdigit_c (c : ascii) : bool :=
  let n := nat_of_ascii c in
  decimal_c c || (n =? 178) || (n =? 179) || (n =? 185).

Fixpoint forall_c (p : ascii -> bool) (s : string) : bool :=
  match s with
  | EmptyString => true
  | String c s' => p c && forall_c p s'
  end.

Fixpoint map_c (f : ascii -> ascii) (s : string) : string :=
  match s with
  | EmptyString => EmptyString
  | String c s' => String (f c) (map_c f s')
  end.

Definition lower (s : string) : string := map_c lower_c s.

Definition nonempty (s : string) : bool :=
  match s with EmptyString => false | _ => true end.

(** [s.isdigit()]: at least one character, all of them digits. *)
Definition isdigit (s : string) : bool := nonempty s && forall_c isdigit_c s.

Definition startswith (s p : string) : bool := String.prefix p s.

(** [sub in s]. *)
Fixpoint contains (sub s : string) : bool :=
  if String.prefix sub s then true
  else match s with
       | EmptyString => false
       | String _ s' => contains sub s'
       end.

Fixpoint lstrip_by (p : ascii -> bool) (s : string) : string :=
  match s with
  | EmptyString => EmptyString
  | String c s' => if p c then lstrip_by p s' else s
  end.

Fixpoint rstrip_by (p : ascii -> bool) (s : string) : string :=
  match s with
  | EmptyString => EmptyString
  | String c s' =>
      match rstrip_by p s' with
      | EmptyString => if p c then EmptyString else String c EmptyString
      | r => String c r
      end
  end.

(** [s.strip()]. *)
Definition strip (s : string) : string :=
  rstrip_by isspace_c (lstrip_by isspace_c s).

Definition newline : ascii := ascii_of_nat 10.

(** [s.rstrip("\n")]. *)
Definition rstrip_newline (s : string) : string :=
  rstrip_by (Ascii.eqb newline) s.

Fixpoint drop (n : nat) (s : string) : string :=
  match n, s with
  | O, _ => s
  | S _, EmptyString => EmptyString
  | S n', String _ s' => drop n' s'
  end.

(** [s.split(sep, 1)] for a non-empty [sep], as the pair (before, after) of
    the first occurrence of [sep], or [None] when [sep] does not occur. *)
Fixpoint partition_once (sep s : string) : option (string * string) :=
  if String.prefix sep s then Some (EmptyString, drop (String.length sep) s)
  else match s with
       | EmptyString => None
       | String c s' =>
           match partition_once sep s' with
           | Some (a, b) => Some (String c a, b)
           | None => None
           end
       end.

Definition split_once (s sep : string) : list string :=
  match partition_once sep s with
  | Some (a, b) => [a; b]
  | None => [s]
  end.

(** Splitting on runs of whitespace, as bs4 does for the [class] attribute. *)
Fixpoint split_ws_aux (cur : string) (s : string) : list string :=
  match s with
  | EmptyString => if nonempty cur then [cur] else []
  | String c s' =>
      if isspace_c c
      then (if nonempty cur then [cur] else []) ++ split_ws_aux EmptyString s'
      else split_ws_aux (cur ++ String c EmptyString)%string s'
  end.

Definition split_ws (s : string) : list string := split_ws_aux EmptyString s.

(** [sep.join(parts)]. *)
Definition join (sep : string) (parts : list string) : string :=
  String.concat sep parts.

(** [str(n)] for an integer. *)
Definition str_of_Z (z : Z) : string := NilZero.string_of_int (Z.to_int z).

(** The value of a string of decimal digits, most significant first. *)
Fixpoint decimal_value (acc : Z) (s : string) : Z :=
  match s with
  | EmptyString => acc
  | String c s' =>
      decimal_value (10 * acc + Z.of_nat (nat_of_ascii c - 48)) s'
  end.

End PyStr.

(* ------------------------------------------------------------------ *)
(** ** Exceptions *)

(** The exception classes that the modelled operations raise; all of them
    derive from Python's [Exception]. *)
Inductive Exc : Type :=
| IndexError
| ValueError
| WebDriverException
| OSError.

Inductive result (A : Type) : Type :=
| Ok (a : A)
| Raise (e : Exc).

Arguments Ok {A} a.
Arguments Raise {A} e.

Definition rbind {A B} (r : result A) (k : A -> result B) : result B :=
  match r with
  | Ok a => k a
  | Raise e => Raise e
  end.

Declare Scope result_scope.
Delimit Scope result_scope with result.
Notation "x <- r ;; k" := (rbind r (fun x => k))
  (at level 61, r at next level, right associativity) : result_scope.

(** [try: body  except Exception: handler]. *)
Definition try_except {A} (body : result A) (handler : Exc -> result A)
  : result A :=
  match body with
  | Ok a => Ok a
  | Raise e => handler e
  end.

(** [l[i]] on a Python list. *)
Definition index {A} (l : list A) (i : nat) : result A :=
  match nth_error l i with
  | Some a => Ok a
  | None => Raise IndexError
  end.

(** [sys.get_int_max_str_digits()]: the longest decimal string that
    [int] converts; CPython's default. *)
Definition int_max_str_digits : nat := 4300.

(** [int(s)] on a string without sign, blanks or underscores: defined on
    strings of decimal digits only, and of at most [int_max_str_digits]
    digits (leading zeros count); [int] raises [ValueError] on a longer
    one as on a character that is no decimal digit. *)
Definition py_int (s : string) : result Z :=
  if PyStr.nonempty s && PyStr.forall_c PyStr.decimal_c s
     && (String.length s <=? int_max_str_digits)%nat
  then Ok (PyStr.decimal_value 0%Z s)
  else Raise ValueError.

(* ------------------------------------------------------------------ *)
(** ** Parsed documents (bs4) *)

Module Bs4.

(** A node of the parse tree: a string of the document ([Text]), a CDATA
    section ([CData]) or a [Tag] with its name, its attribute dictionary
    and its contents.  The class bs4 gives to a [Text] ([NavigableString],
    [Script], ...) follows from the tags around it, see [string_container].
    Comments, declarations, doctypes and processing instructions are left
    out of the tree: no [get_text] returns them and no search used here
    finds them. *)
#[warnings="-register-all"]
Inductive Node : Type :=
| Text (s : string)
| CData (s : string)
| Tag (name : string) (attrs : list (string * string)) (contents : list Node).

(** A [BeautifulSoup] object: the top-level contents of the document. *)
Definition Soup : Type := list Node.

(** A node seen in its place: its following siblings and its ancestors,
    nearest first, each ancestor with its own following siblings. *)
Record Loc : Type := mkLoc {
  here : Node;
  next_siblings : list Node;
  parents : list (Node * list Node)
}.

Definition is_tag (n : Node) : bool :=
  match n with Tag _ _ _ => true | Text _ | CData _ => false end.

Definition name_of (n : Node) : option string :=
  match n with Tag nm _ _ => Some nm | Text _ | CData _ => None end.

Definition contents_of (n : Node) : list Node :=
  match n with Tag _ _ cs => cs | Text _ | CData _ => [] end.

Fixpoint assoc (k : string) (d : list (string * string)) : option string :=
  match d with
  | [] => None
  | (k', v) :: d' => if String.eqb k k' then Some v else assoc k d'
  end.

(** [tag.get(attr)]. *)
Definition get_attr (a : string) (n : Node) : option string :=
  match n with Tag _ at_ _ => assoc a at_ | Text _ | CData _ => None end.

(** All nodes below [n] (and [n] itself) in document order, each with its
    following siblings and ancestors. *)
Fixpoint locs_node (up : list (Node * list Node)) (after : list Node)
  (n : Node) : list Loc :=
  mkLoc n after up ::
  match n with
  | Text _ | CData _ => []
  | Tag _ _ cs =>
      (fix go (l : list Node) : list Loc :=
         match l with
         | [] => []
         | c :: r => locs_node ((n, after) :: up) r c ++ go r
         end) cs
  end.

Fixpoint locs_forest (up : list (Node * list Node)) (l : list Node)
  : list Loc :=
  match l with
  | [] => []
  | c :: r => locs_node up r c ++ locs_forest up r
  end.

(** The descendants of a document, in document order. *)
Definition soup_descendants (soup : Soup) : list Loc := locs_forest [] soup.

(** The descendants of a located tag, in document order. *)
Definition descendants (l : Loc) : list Loc :=
  locs_forest ((here l, next_siblings l) :: parents l) (contents_of (here l)).

(** The classes of strings that bs4 tells apart when it collects text. *)
Inductive StringClass : Type :=
| NavigableString
| CDataSection
| Script
| Stylesheet
| TemplateString
| RubyTextString
| RubyParenthesisString.

Definition StringClass_eqb (a b : StringClass) : bool :=
  match a, b with
  | NavigableString, NavigableString
  | CDataSection, CDataSection
  | Script, Script
  | Stylesheet, Stylesheet
  | TemplateString, TemplateString
  | RubyTextString, RubyTextString
  | RubyParenthesisString, RubyParenthesisString => true
  | _, _ => false
  end.

(** [HTMLTreeBuilder.DEFAULT_STRING_CONTAINERS]: the tags whose strings get
    a class of their own. *)
Definition string_containers (nm : string) : option StringClass :=
  if String.eqb nm "rt" then Some RubyTextString
  else if String.eqb nm "rp" then Some RubyParenthesisString
  else if String.eqb nm "style" then Some Stylesheet
  else if String.eqb nm "script" then Some Script
  else if String.eqb nm "template" then Some TemplateString
  else None.

(** [BeautifulSoup.string_container]: the class of a string met below a tag
    named [nm], when [inside] is the class of a string met beside that tag.
    The innermost open container tag decides. *)
Definition string_container (inside : StringClass) (nm : string)
  : StringClass :=
  match string_containers nm with
  | Some c => c
  | None => inside
  end.

(** The class of a string whose ancestors are [up], nearest first. *)
Fixpoint enclosing_container (up : list (Node * list Node)) : StringClass :=
  match up with
  | [] => NavigableString
  | (p, _) :: up' =>
      match name_of p with
      | Some nm =>
          match string_containers nm with
          | Some c => c
          | None => enclosing_container up'
          end
      | None => enclosing_container up'
      end
  end.

(** [Tag.interesting_string_types]: the classes of strings that a tag's
    [get_text] collects.  A container tag collects the strings of its own
    class, any other tag (and the document) plain strings and CDATA. *)
Definition DEFAULT_INTERESTING_STRING_TYPES : list StringClass :=
  [NavigableString; CDataSection].

Definition interesting_string_types (n : Node) : list StringClass :=
  match name_of n with
  | Some nm =>
      match string_containers nm with
      | Some c => [c]
      | None => DEFAULT_INTERESTING_STRING_TYPES
      end
  | None => DEFAULT_INTERESTING_STRING_TYPES
  end.

(** [Tag._all_strings]: the strings below a node, in document order, whose
    class is among [types]; [inside] is the class that the tags above the
    node give to a string. *)
Fixpoint strings_node (types : list StringClass) (inside : StringClass)
  (n : Node) : list string :=
  match n with
  | Text s => if existsb (StringClass_eqb inside) types then [s] else []
  | CData s => if existsb (StringClass_eqb CDataSection) types then [s] else []
  | Tag nm _ cs =>
      (fix go (l : list Node) : list string :=
         match l with
         | [] => []
         | c :: r => strings_node types (string_container inside nm) c ++ go r
         end) cs
  end.

(** The strings that a located tag's [get_text] collects. *)
Definition strings (l : Loc) : list string :=
  strings_node (interesting_string_types (here l))
    (enclosing_container (parents l)) (here l).

(** The strings that the document's [get_text] collects. *)
Definition strings_forest (l : list Node) : list string :=
  flat_map (strings_node DEFAULT_INTERESTING_STRING_TYPES NavigableString) l.

(** The strings that [get_text(..., strip=True)] keeps: stripped, and
    dropped when nothing is left. *)
Definition stripped_strings (ss : list string) : list string :=
  filter PyStr.nonempty (map PyStr.strip ss).

(** [tag.get_text()] and [tag.text]. *)
Definition get_text (l : Loc) : string :=
  PyStr.join "" (strings l).

(** [tag.get_text(strip=True)]. *)
Definition get_text_strip (l : Loc) : string :=
  PyStr.join "" (stripped_strings (strings l)).

(** [tag.get_text(" ", strip=True)]. *)
Definition get_text_sep_strip (l : Loc) : string :=
  PyStr.join " " (stripped_strings (strings l)).

(** [soup.get_text()]. *)
Definition soup_get_text (soup : Soup) : string :=
  PyStr.join "" (strings_forest soup).

(** How bs4 matches a test against the multi-valued [class] attribute:
    some class satisfies it, or the classes joined by one space do; a tag
    without the attribute hands [None] to the test, which every test used
    here rejects. *)
Definition class_matches (f : string -> bool) (n : Node) : bool :=
  match get_attr "class" n with
  | None => false
  | Some v =>
      let toks := PyStr.split_ws v in
      existsb f toks || f (PyStr.join " " toks)
  end.

(** [class_="..."]. *)
Definition has_class (c : string) (n : Node) : bool :=
  class_matches (String.eqb c) n.

(** [class_=lambda c: c and sub in c]. *)
Definition class_contains (sub : string) (n : Node) : bool :=
  class_matches (fun c => PyStr.nonempty c && PyStr.contains sub c) n.

Definition named (names : list string) (n : Node) : bool :=
  match name_of n with
  | Some nm => existsb (String.eqb nm) names
  | None => false
  end.

(** [find_all]: the matching tags among a list of located nodes. *)
Definition find_all (p : Node -> bool) (ls : list Loc) : list Loc :=
  filter (fun l => is_tag (here l) && p (here l)) ls.

(** [find]: the first match, or [None]. *)
Definition find (p : Node -> bool) (ls : list Loc) : option Loc :=
  hd_error (find_all p ls).

(** [tag.parent], when it is a tag. *)
Definition parent (l : Loc) : option Loc :=
  match parents l with
  | [] => None
  | (p, after) :: up => Some (mkLoc p after up)
  end.

(** [tag.find_parent(name)]: the nearest ancestor of that name. *)
Fixpoint find_parent_in (nm : string) (up : list (Node * list Node))
  : option Loc :=
  match up with
  | [] => None
  | (p, after) :: up' =>
      if named [nm] p then Some (mkLoc p after up')
      else find_parent_in nm up'
  end.

Definition find_parent (nm : string) (l : Loc) : option Loc :=
  find_parent_in nm (parents l).

(** The nodes of [l], each in its place below the ancestors [up]. *)
Fixpoint locate_siblings (up : list (Node * list Node)) (l : list Node)
  : list Loc :=
  match l with
  | [] => []
  | n :: r => mkLoc n r up :: locate_siblings up r
  end.

(** [tag.find_next_siblings()]: the following siblings that are tags. *)
Definition find_next_siblings (l : Loc) : list Loc :=
  filter (fun s => is_tag (here s))
    (locate_siblings (parents l) (next_siblings l)).

End Bs4.

(* ------------------------------------------------------------------ *)
(** ** urllib.parse *)

Module Urllib.

Definition hex_digit (n : nat) : ascii :=
  if n <? 10 then ascii_of_nat (48 + n) else ascii_of_nat (55 + n).

Definition percent (byte : nat) : string :=
  String "%" (String (hex_digit (byte / 16))
                (String (hex_digit (byte mod 16)) EmptyString)).

(** Letters, digits and [_.-~] are never quoted. *)
Definition unreserved (c : ascii) : bool :=
  let n := nat_of_ascii c in
  ((65 <=? n) && (n <=? 90)) || ((97 <=? n) && (n <=? 122))
  || ((48 <=? n) && (n <=? 57))
  || (n =? 95) || (n =? 46) || (n =? 45) || (n =? 126).

(** [quote_plus] on one code point: a space becomes [+], anything else
    reserved becomes the percent-escapes of its UTF-8 bytes. *)
Definition quote_plus_c (c : ascii) : string :=
  let n := nat_of_ascii c in
  if unreserved c then String c EmptyString
  else if n =? 32 then "+"
  else if n <? 128 then percent n
  else (percent (192 + n / 64) ++ percent (128 + n mod 64))%string.

Fixpoint quote_plus (s : string) : string :=
  match s with
  | EmptyString => EmptyString
  | String c s' => (quote_plus_c c ++ quote_plus s')%string
  end.

(** [urlencode(params)] on a dictionary of strings, in insertion order. *)
Definition urlencode (params : list (string * string)) : string :=
  PyStr.join "&"
    (map (fun kv => (quote_plus (fst kv) ++ "=" ++ quote_plus (snd kv))%string)
         params).

End Urllib.

(* ------------------------------------------------------------------ *)
(** ** The browser session *)

(** What the browser answers to one [driver.get]: the document parsed from
    the rendered page source, or an exception raised on the way. *)
Inductive Response : Type :=
| Rendered (soup : Bs4.Soup)
| Failed (e : Exc).

(** The outside world of one crawl: whether Chrome can be started, and what
    the [n]-th request of the session answers for a URL. *)
Record World : Type := mkWorld {
  chrome : option Exc;
  web : nat -> string -> Response
}.

(** What a crawl does to the session, oldest first. *)
Inductive Event : Type :=
| LoadListing (page_num : Z) (url : string)
| VisitDetail (url : string)
| Quit.

Record Driver : Type := mkDriver {
  site : nat -> string -> Response;
  requests : nat;
  log : list Event
}.

(** Computations that use the session and may raise. *)
Definition M (A : Type) : Type := Driver -> result A * Driver.

Definition ret {A} (a : A) : M A := fun d => (Ok a, d).

Definition bind {A B} (m : M A) (k : A -> M B) : M B :=
  fun d =>
    match m d with
    | (Ok a, d') => k a d'
    | (Raise e, d') => (Raise e, d')
    end.

Definition lift {A} (r : result A) : M A := fun d => (r, d).

(** [try: m  except Exception: h]. *)
Definition catch {A} (m : M A) (h : Exc -> M A) : M A :=
  fun d =>
    match m d with
    | (Ok a, d') => (Ok a, d')
    | (Raise e, d') => h e d'
    end.

(** [try: m  finally: f]. *)
Definition finally {A} (m : M A) (f : Driver -> Driver) : M A :=
  fun d => let (r, d') := m d in (r, f d').

Declare Scope session_scope.
Delimit Scope session_scope with session.
Notation "x <- m ;; k" := (bind m (fun x => k))
  (at level 61, m at next level, right associativity) : session_scope.

(** [webdriver.Chrome(options=options)]. *)
Definition start_chrome (w : World) : result Driver :=
  match chrome w with
  | Some e => Raise e
  | None => Ok (mkDriver (web w) 0 [])
  end.

(** One request: the event is logged, the oracle answers. *)
Definition request (ev : Event) (url : string) : M Bs4.Soup :=
  fun d =>
    let d' := mkDriver (site d) (S (requests d)) (log d ++ [ev]) in
    match site d (requests d) url with
    | Rendered soup => (Ok soup, d')
    | Failed e => (Raise e, d')
    end.

(** [driver.quit()]. *)
Definition quit (d : Driver) : Driver :=
  mkDriver (site d) (requests d) (log d ++ [Quit]).

(** A job found on a listing page: the dictionary with keys [title] and
    [url]. *)
Record JobStub : Type := mkStub {
  title : string;
  url : string
}.

(** A scraped job: a dictionary from keys to strings, in insertion order. *)
Definition JobRecord : Type := list (string * string).

Definition keys (r : JobRecord) : list string := map fst r.

Definition dquote : string := String (ascii_of_nat 34) EmptyString.

(** Python's truth value of an optional string and of an optional integer. *)
Definition truthy_str (o : option string) : bool :=
  match o with Some s => PyStr.nonempty s | None => false end.

Definition truthy_int (o : option Z) : bool :=
  match o with Some z => negb (Z.eqb z 0) | None => false end.

(** [range(lo, hi)]. *)
Definition py_range (lo hi : Z) : list Z :=
  map (fun i => (lo + Z.of_nat i)%Z) (seq 0 (Z.to_nat (hi - lo))).

(* ------------------------------------------------------------------ *)
(** ** scraper/Timejobs_scraper.py *)

Module Timejobs_scraper.
Import Bs4.

Definition get_driver (w : World) : result Driver := start_chrome w.

Definition build_timesjobs_url (keyword location : option string)
  (experience : option Z) (page : Z) : string :=
  let base_url := "https://www.timesjobs.com/job-search" in
  let params := [("refreshed", "true")] in
  let params :=
    match keyword with
    | Some k =>
        if PyStr.nonempty k
        then params ++ [("keywords", (dquote ++ k ++ dquote)%string)]
        else params
    | None => params
    end in
  let params :=
    match location with
    | Some l =>
        if PyStr.nonempty l
        then params ++ [("location", (l ++ ",")%string)] else params
    | None => params
    end in
  let params :=
    match experience with
    | Some e => params ++ [("experience", PyStr.str_of_Z e)]
    | None => params
    end in
  let params :=
    if (1 <? page)%Z then params ++ [("page", PyStr.str_of_Z page)]
    else params in
  (base_url ++ "?" ++ Urllib.urlencode params)%string.

(** [load_page]: [driver.get], the waits and scrolls, and the parse of the
    page source, as one request to the session.  The result of
    [wait_for_jobs_to_load] only selects a message and the sleeps only pace
    the crawl. *)
Definition load_page (url : string) (page_num : Z) : M Soup :=
  request (LoadListing page_num url) url.

(** The loop of [get_total_pages] over the buttons. *)
Fixpoint scan_buttons (buttons : list Loc) (max_page : Z) : result Z :=
  match buttons with
  | [] => Ok max_page
  | button :: rest =>
      let text := get_text_strip button in
      if PyStr.isdigit text
      then rbind (py_int text) (fun page_num =>
             if (1 <? page_num)%Z
             then scan_buttons rest (Z.max max_page page_num)
             else scan_buttons rest max_page)
      else scan_buttons rest max_page
  end.

Definition get_total_pages (soup : Soup) : result Z :=
  try_except
    (let buttons := find_all (named ["button"]) (soup_descendants soup) in
     scan_buttons buttons 1%Z)
    (fun _ => Ok 1%Z).

Definition check_for_no_results (soup : Soup) : bool :=
  let page_text := PyStr.lower (soup_get_text soup) in
  PyStr.contains "no jobs matching" page_text
  || PyStr.contains "no results found" page_text.

Definition has_attr (a : string) (n : Node) : bool :=
  match get_attr a n with Some _ => true | None => false end.

(** [seen_urls]: a set of strings, kept as the list of its members. *)
Definition mem (x : string) (s : list string) : bool :=
  existsb (String.eqb x) s.

(** The title that [extract_jobs_from_page] finds for a link. *)
Definition link_title (link : Loc) : string :=
  match find_parent "div" link with
  | Some parent =>
      match find (named ["h2"]) (descendants parent) with
      | Some heading => get_text_strip heading
      | None => "N/A"
      end
  | None => "N/A"
  end.

(** [link.get('href', '')]. *)
Definition link_href (link : Loc) : string :=
  match get_attr "href" (here link) with Some h => h | None => "" end.

(** The loop of [extract_jobs_from_page] over the links. *)
Fixpoint links_loop (base_url : string) (all_links : list Loc)
  (seen_urls : list string) (jobs : list JobStub) : list JobStub :=
  match all_links with
  | [] => jobs
  | link :: rest =>
      let href := link_href link in
      if negb (PyStr.contains "/job-detail/" href)
      then links_loop base_url rest seen_urls jobs
      else if mem href seen_urls
      then links_loop base_url rest seen_urls jobs
      else
        let seen_urls := href :: seen_urls in
        let full_url := if PyStr.startswith href "/"
                        then (base_url ++ href)%string else href in
        let title := link_title link in
        if PyStr.nonempty title && negb (String.eqb title "N/A")
        then links_loop base_url rest seen_urls (jobs ++ [mkStub title full_url])
        else links_loop base_url rest seen_urls jobs
  end.

(** No operation of the body raises on a parsed document, so the handler
    that returns the empty list is never entered. *)
Definition extract_jobs_from_page (soup : Soup) (base_url : string)
  : list JobStub :=
  let all_links :=
    find_all (fun n => named ["a"] n && has_attr "href" n)
             (soup_descendants soup) in
  links_loop base_url all_links [] [].

Definition extract_company_from_detail (soup : Soup) : result string :=
  try_except
    (match find (fun n => named ["h3"] n && has_class "inline mr-2" n)
                (soup_descendants soup) with
     | Some h2 => Ok (get_text_strip h2)
     | None => Ok "N/A"
     end)
    (fun _ => Ok "N/A").

Definition long_text (text : string) : bool :=
  PyStr.nonempty text && (50 <? String.length text).

(** [desc_heading]: the first heading whose text mentions a description. *)
Definition description_heading (all : list Loc) : option Loc :=
  hd_error
    (filter (fun tag =>
               PyStr.contains "description"
                 (PyStr.lower (get_text_strip tag)))
            (find_all (named ["h2"; "h3"; "h4"; "h5"]) all)).

(** [parts]: the non-empty texts of the tags that follow the heading. *)
Definition sibling_texts (desc_heading : Loc) : list string :=
  filter PyStr.nonempty
    (map get_text_sep_strip (find_next_siblings desc_heading)).

(** The last layer of [extract_description_from_detail]: the siblings of
    the first heading that mentions a description. *)
Definition description_after_heading (all : list Loc) : result string :=
  try_except
    (match description_heading all with
     | Some desc_heading =>
         match sibling_texts desc_heading with
         | [] => Ok "N/A"
         | parts => Ok (PyStr.join " " parts)
         end
     | None => Ok "N/A"
     end)
    (fun _ => Ok "N/A").

(** The loop over [possible_blocks]. *)
Fixpoint blocks_loop (blocks : list Loc) (otherwise : result string)
  : result string :=
  match blocks with
  | [] => otherwise
  | block :: rest =>
      let text := get_text_sep_strip block in
      if long_text text then Ok text else blocks_loop rest otherwise
  end.

Definition possible_blocks (all : list Loc) : list Loc :=
  find_all (fun n => named ["div"; "section"; "article"] n
                     && class_matches (fun c =>
                          PyStr.nonempty c
                          && (PyStr.contains "jd-cont" c
                              || PyStr.contains "job-desc" c
                              || PyStr.contains "job-description" c)) n)
           all.

Definition extract_description_from_detail (soup : Soup) : result string :=
  let all := soup_descendants soup in
  let rest := blocks_loop (possible_blocks all) (description_after_heading all) in
  match find (fun n => named ["div"] n && class_contains "rtd-content" n) all
  with
  | Some rtd =>
      let text := get_text_sep_strip rtd in
      if long_text text then Ok text else rest
  | None => rest
  end.

Definition skill_excludes : list string :=
  ["year"; "experience"; "about"; "company"; "description"; "required";
   "please"; "call"; "opening"; "job id"; "location"].

(** The loop of [extract_skills_from_detail] over the siblings of the
    heading; it stops at the first sibling whose name starts with [h]. *)
Fixpoint skills_loop (siblings : list Loc) (skills : list string)
  : list string :=
  match siblings with
  | [] => skills
  | sibling :: rest =>
      match name_of (here sibling) with
      | Some nm =>
          if PyStr.nonempty nm && PyStr.startswith (PyStr.lower nm) "h"
          then skills
          else
            let sibling_text := get_text_strip sibling in
            if PyStr.nonempty sibling_text
               && (0 <? String.length sibling_text)
               && negb (existsb (fun exclude =>
                                   PyStr.contains exclude
                                     (PyStr.lower sibling_text))
                                skill_excludes)
            then skills_loop rest (skills ++ [sibling_text])
            else skills_loop rest skills
      | None => skills_loop rest skills
      end
  end.

Definition extract_skills_from_detail (soup : Soup) : result string :=
  try_except
    (let skills_heading :=
       hd_error
         (filter (fun element =>
                    PyStr.contains "key skill"
                      (PyStr.lower (get_text_strip element)))
                 (find_all (named ["h2"; "h3"; "h4"; "h5"; "heading"])
                           (soup_descendants soup))) in
     match skills_heading with
     | None => Ok "N/A"
     | Some h =>
         match skills_loop (find_next_siblings h) [] with
         | [] => Ok "N/A"
         | skills => Ok (PyStr.join ", " skills)
         end
     end)
    (fun _ => Ok "N/A").

Definition experience_spans (soup : Soup) : list Loc :=
  find_all (fun n => named ["span"] n
                     && has_class "mr-2 inline flex items-center" n)
           (soup_descendants soup).

Definition extract_experience_from_detail (soup : Soup) : result string :=
  rbind (index (experience_spans soup) 1)
        (fun span => Ok (get_text_strip span)).

Definition extract_salary_from_detail (soup : Soup) : result string :=
  let spans := experience_spans soup in
  if 3 <=? length spans
  then rbind (index spans 2) (fun span => Ok (get_text_sep_strip span))
  else Ok "N/A".

(** The loop of [extract_label_value] over the candidates. *)
Fixpoint label_loop (candidates : list Loc) (target_prefix : string)
  : result string :=
  match candidates with
  | [] => Ok "N/A"
  | tag :: rest =>
      let txt := get_text_sep_strip tag in
      let low := PyStr.lower txt in
      if PyStr.startswith low target_prefix
      then rbind (index (PyStr.split_once txt ":") 1)
                 (fun v => Ok (PyStr.strip v))
      else label_loop rest target_prefix
  end.

Definition extract_label_value (detail_soup : Soup) (label_text : string)
  : result string :=
  try_except
    (let candidates :=
       find_all (named ["li"; "div"; "span"; "p"])
                (soup_descendants detail_soup) in
     let target_prefix := PyStr.lower (label_text ++ ":") in
     label_loop candidates target_prefix)
    (fun _ => Ok "N/A").

(** How one turn of a loop ends: normally, or by [break]. *)
Inductive LoopStep (A : Type) : Type :=
| Next (a : A)
| Break.

Arguments Next {A} a.
Arguments Break {A}.

(** [if max_pages and max_pages < total_pages: total_pages = max_pages]. *)
Definition capped_total (max_pages : option Z) (total_pages : Z) : Z :=
  match max_pages with
  | Some k =>
      if truthy_int max_pages && (k <? total_pages)%Z then k else total_pages
  | None => total_pages
  end.

Section Crawl.

Variables (keyword location : option string) (experience : option Z).

Definition base_url : string := "https://www.timesjobs.com".

(** The [try] body of one turn of the page loop. *)
Definition page_body (page_num : Z) (all_jobs : list JobStub)
  : M (LoopStep (list JobStub)) :=
  (let page_url := build_timesjobs_url keyword location experience page_num in
   soup <- load_page page_url page_num ;;
   if check_for_no_results soup then ret Break
   else
     let page_jobs := extract_jobs_from_page soup base_url in
     ret (Next (all_jobs ++ page_jobs)))%session.

(** [for page_num in range(1, total_pages + 1)]: an exception in the body
    skips to the next page. *)
Fixpoint page_loop (pages : list Z) (all_jobs : list JobStub)
  : M (list JobStub) :=
  match pages with
  | [] => ret all_jobs
  | page_num :: rest =>
      fun d =>
        match page_body page_num all_jobs d with
        | (Ok (Next all_jobs'), d') => page_loop rest all_jobs' d'
        | (Ok Break, d') => (Ok all_jobs, d')
        | (Raise _, d') => page_loop rest all_jobs d'
        end
  end.

(** The extraction part of one turn of the detail loop: the fields read
    from the parsed detail page and the dictionary built from them. *)
Definition job_record (job : JobStub) (detail_soup : Soup)
  : result JobRecord :=
  (company <- extract_company_from_detail detail_soup ;;
   description <- extract_description_from_detail detail_soup ;;
   skills <- extract_skills_from_detail detail_soup ;;
   experience <- extract_experience_from_detail detail_soup ;;
   salary <- extract_salary_from_detail detail_soup ;;
   job_function <- extract_label_value detail_soup "Job Function" ;;
   industry <- extract_label_value detail_soup "Industry" ;;
   specialization <- extract_label_value detail_soup "Specialization" ;;
   grad_courses <- extract_label_value detail_soup "Graduate Courses" ;;
   post_grad_courses <-
     extract_label_value detail_soup "Post Graduate Courses" ;;
   employment_type <- extract_label_value detail_soup "Employment Type" ;;
   job_type <- extract_label_value detail_soup "Job Type" ;;
   gender <- extract_label_value detail_soup "Gender" ;;
   Ok [("source", "TimesJobs");
       ("title", title job);
       ("company", company);
       ("url", url job);
       ("description", description);
       ("experience", experience);
       ("salary", salary);
       ("job_function", job_function);
       ("industry", industry);
       ("specialization", specialization);
       ("graduate_courses", grad_courses);
       ("post_graduate_courses", post_grad_courses);
       ("employment_type", employment_type);
       ("job_type", job_type);
       ("gender", gender);
       ("skills", skills)])%result.

(** The [try] body of one turn of the detail loop: the visit, then the
    extraction. *)
Definition job_body (job : JobStub) : M JobRecord :=
  (detail_soup <- request (VisitDetail (url job)) (url job) ;;
   lift (job_record job detail_soup))%session.

(** [for idx, job in enumerate(all_jobs, 1)]: an exception in the body
    skips the job. *)
Fixpoint jobs_loop (all_jobs : list JobStub) (jobs_data : list JobRecord)
  : M (list JobRecord) :=
  match all_jobs with
  | [] => ret jobs_data
  | job :: rest =>
      fun d =>
        match job_body job d with
        | (Ok job_data, d') => jobs_loop rest (jobs_data ++ [job_data]) d'
        | (Raise _, d') => jobs_loop rest jobs_data d'
        end
  end.

(** Phase 1 after the first page was accepted: the page count and the walk
    over the listing pages. *)
Definition collect_links (max_pages : option Z) (soup : Soup)
  : M (list JobStub) :=
  (total_pages <- lift (get_total_pages soup) ;;
   let total_pages := capped_total max_pages total_pages in
   page_loop (py_range 1 (total_pages + 1)) [])%session.

(** The outer [try] body of [scrape_all_jobs]. *)
Definition crawl (max_pages : option Z) : M (list JobRecord) :=
  (let first_url := build_timesjobs_url keyword location experience 1 in
   soup <- load_page first_url 1 ;;
   if check_for_no_results soup then ret []
   else
     all_jobs <- collect_links max_pages soup ;;
     if length all_jobs =? 0 then ret []
     else jobs_loop all_jobs [])%session.

End Crawl.

(** [scrape_all_jobs]: what the call returns or raises, and what it did to
    the session. *)
Definition scrape_all_jobs (w : World) (keyword location : option string)
  (max_pages experience : option Z) : result (list JobRecord) * list Event :=
  match get_driver w with
  | Raise e => (Raise e, [])
  | Ok driver =>
      let (r, d) :=
        finally (catch (crawl keyword location experience max_pages)
                       (fun _ => ret []))
                quit driver in
      (r, log d)
  end.

End Timejobs_scraper.

(* ------------------------------------------------------------------ *)
(** ** scraper/Talent_scraper.py *)

Module Talent_scraper.
Import Bs4.

Definition get_driver (w : World) : result Driver := start_chrome w.

Definition opt_param (k : string) (o : option string)
  : list (string * string) :=
  match o with
  | Some v => if PyStr.nonempty v then [(k, v)] else []
  | None => []
  end.

Definition build_filter_url (location : string) (keyword : option string)
  (radius : option Z) (date_posted : option string)
  (remote promoted : option bool) (job_type company : option string)
  (page : Z) : string :=
  let base_url := "https://in.talent.com/jobs" in
  let params :=
    [("l", location)]
    ++ opt_param "k" keyword
    ++ match radius with
       | Some r => if truthy_int radius then [("radius", PyStr.str_of_Z r)]
                   else []
       | None => []
       end
    ++ opt_param "date" date_posted
    ++ match remote with
       | Some b => [("workplace", if b then "remote" else "")]
       | None => []
       end
    ++ match promoted with
       | Some b => [("promoted", if b then "1" else "0")]
       | None => []
       end
    ++ opt_param "job_type" job_type
    ++ opt_param "company" company
    ++ (if (1 <? page)%Z then [("p", PyStr.str_of_Z page)] else []) in
  match params with
  | [] => base_url
  | _ => (base_url ++ "?" ++ Urllib.urlencode params)%string
  end.

Definition long_text (text : string) : bool :=
  PyStr.nonempty text && (50 <? String.length text).

(** [for _ in range(4)]: step to the parent while it is a [div]. *)
Fixpoint climb (n : nat) (container : Loc) : Loc :=
  match n with
  | O => container
  | S n' =>
      match parent container with
      | Some p => if named ["div"] (here p) then climb n' p
                  else climb n' container
      | None => climb n' container
      end
  end.

(** The loop of the second layer over the [b] tags. *)
Fixpoint bold_loop (bs : list Loc) : option string :=
  match bs with
  | [] => None
  | b :: rest =>
      if PyStr.contains "job description"
           (PyStr.lower (get_text_strip b))
      then
        let container := climb 4 b in
        let text := get_text_sep_strip container in
        if long_text text then Some text else bold_loop rest
      else bold_loop rest
  end.

Definition has_id (v : string) (n : Node) : bool :=
  match get_attr "id" n with
  | Some i => String.eqb i v
  | None => false
  end.

Definition orelse {A} (a b : option A) : option A :=
  match a with Some _ => a | None => b end.

(** The third layer: the container with id or class [job-description]. *)
Definition description_container (all : list Loc) : string :=
  match orelse (find (fun n => named ["div"] n && has_id "job-description" n)
                     all)
               (find (fun n => named ["div"] n && has_class "job-description" n)
                     all)
  with
  | Some desc_container =>
      let text := get_text_sep_strip desc_container in
      if PyStr.nonempty text then text else "Description not found."
  | None => "Description not found."
  end.

(** No operation of the second layer raises on a parsed document, so its
    handler is never entered. *)
Definition description_fallbacks (all : list Loc) : string :=
  match bold_loop (find_all (named ["b"]) all) with
  | Some text => text
  | None => description_container all
  end.

Definition extract_talent_description (detail_soup : Soup) : string :=
  let all := soup_descendants detail_soup in
  match find (fun n => named ["div"] n && class_contains "sc-fcd630a4-10" n)
             all with
  | Some desc_div =>
      let text := get_text_sep_strip desc_div in
      if long_text text then text else description_fallbacks all
  | None => description_fallbacks all
  end.

Definition base_url : string := "https://in.talent.com".

Definition has_attr (a : string) (n : Node) : bool :=
  match get_attr a n with Some _ => true | None => false end.

(** The loop of phase 1 over the job cards. *)
Fixpoint cards_loop (job_cards : list Loc) (jobs_to_visit : list JobStub)
  : list JobStub :=
  match job_cards with
  | [] => jobs_to_visit
  | card :: rest =>
      let inside := descendants card in
      let title_tag :=
        orelse (find (fun n => named ["h2"] n && has_class "card__job-title" n)
                     inside)
          (orelse (find (fun n => named ["div"] n
                                  && has_class "card__job-title" n) inside)
                  (find (named ["h2"]) inside)) in
      let title := match title_tag with
                   | Some t => PyStr.strip (get_text t)
                   | None => "N/A"
                   end in
      match find (fun n => named ["a"] n && has_attr "href" n) inside with
      | Some link_tag =>
          let href := match get_attr "href" (here link_tag) with
                      | Some h => h | None => "" end in
          let full_link := if PyStr.startswith href "/"
                           then (base_url ++ href)%string else href in
          cards_loop rest (jobs_to_visit ++ [mkStub title full_link])
      | None => cards_loop rest jobs_to_visit
      end
  end.

(** Phase 1 on the parsed list page. *)
Definition collect_links (soup : Soup) : list JobStub :=
  let all := soup_descendants soup in
  let job_cards :=
    match find_all (fun n => named ["div"] n && has_class "gXOxBJ" n) all with
    | [] => find_all (fun n => named ["div"] n && has_class "link-job-wrap" n)
                     all
    | cards => cards
    end in
  cards_loop job_cards [].

(** The extraction part of one turn of the detail loop; none of its
    operations raises on a parsed document. *)
Definition job_record (job : JobStub) (detail_soup : Soup) : JobRecord :=
  let full_description := extract_talent_description detail_soup in
  let all := soup_descendants detail_soup in
  let company :=
    match orelse (find (fun n => named ["div"] n
                                 && has_class "job-header__company" n) all)
                 (find (fun n => named ["span"] n && has_class "hwHBRV" n)
                       all)
    with
    | Some company_tag => PyStr.strip (get_text company_tag)
    | None => "N/A"
    end in
  [("source", "Talent.com");
   ("title", title job);
   ("company", company);
   ("url", url job);
   ("description", full_description);
   ("experience", "");
   ("salary", "");
   ("job_function", "");
   ("industry", "");
   ("specialization", "");
   ("graduate_courses", "");
   ("post_graduate_courses", "");
   ("employment_type", "");
   ("job_type", "");
   ("gender", "");
   ("skills", "")].

(** The [try] body of one turn of the detail loop: the visit, then the
    extraction. *)
Definition job_body (job : JobStub) : M JobRecord :=
  (detail_soup <- request (VisitDetail (url job)) (url job) ;;
   ret (job_record job detail_soup))%session.

Fixpoint jobs_loop (jobs_to_visit : list JobStub) (jobs_data : list JobRecord)
  : M (list JobRecord) :=
  match jobs_to_visit with
  | [] => ret jobs_data
  | job :: rest =>
      fun d =>
        match job_body job d with
        | (Ok job_data, d') => jobs_loop rest (jobs_data ++ [job_data]) d'
        | (Raise _, d') => jobs_loop rest jobs_data d'
        end
  end.

(** The outer [try] body of [scrape_talent_com]. *)
Definition crawl (list_url : string) (page : Z) : M (list JobRecord) :=
  (soup <- request (LoadListing page list_url) list_url ;;
   let jobs_to_visit := collect_links soup in
   jobs_loop jobs_to_visit [])%session.

Definition scrape_talent_com (w : World) (location : string)
  (keyword : option string) (radius : option Z) (date_posted : option string)
  (remote promoted : option bool) (job_type company : option string)
  (page : Z) : result (list JobRecord) * list Event :=
  match get_driver w with
  | Raise e => (Raise e, [])
  | Ok driver =>
      let list_url :=
        build_filter_url location keyword radius date_posted remote promoted
                         job_type company page in
      let (r, d) := finally (catch (crawl list_url page) (fun _ => ret []))
                            quit driver in
      (r, log d)
  end.

End Talent_scraper.

(* ------------------------------------------------------------------ *)
(** ** main.py *)

Module Main.

(** [d[k] = v] on a dictionary: the value is replaced in place, or the key
    is added at the end. *)
Fixpoint setitem (k v : string) (d : JobRecord) : JobRecord :=
  match d with
  | [] => [(k, v)]
  | (k', v') :: d' =>
      if String.eqb k k' then (k, v) :: d' else (k', v') :: setitem k v d'
  end.

(** [d[k]] read back, [None] for a missing key. *)
Definition getitem (k : string) (d : JobRecord) : option string :=
  Bs4.assoc k d.

(** The truth value of a dictionary. *)
Definition truthy_dict (d : JobRecord) : bool :=
  match d with [] => false | _ => true end.

(** Iterating over an open text file: the lines of its content, each with
    its line terminator.  The content is the text as Python reads it, with
    every line ending already translated to a newline. *)
Fixpoint readlines_from (cur : string) (content : string) : list string :=
  match content with
  | EmptyString => if PyStr.nonempty cur then [cur] else []
  | String c rest =>
      let cur := (cur ++ String c EmptyString)%string in
      if Ascii.eqb c PyStr.newline
      then cur :: readlines_from EmptyString rest
      else readlines_from cur rest
  end.

Definition readlines (content : string) : list string :=
  readlines_from EmptyString content.

(** The dictionary that a [Job #] line starts. *)
Definition new_job (source : string) : JobRecord :=
  [("source", source);
   ("title", "");
   ("company", "");
   ("experience", "");
   ("salary", "");
   ("job_function", "");
   ("industry", "");
   ("specialization", "");
   ("graduate_courses", "");
   ("post_graduate_courses", "");
   ("employment_type", "");
   ("job_type", "");
   ("gender", "");
   ("url", "");
   ("description", "");
   ("skills", "")].

(** The [elif] chain of [parse_jobs_file], in its order: the label a line
    starts with and the key it fills. *)
Definition LABELS : list (string * string) :=
  [("Title:", "title");
   ("Company:", "company");
   ("Experience:", "experience");
   ("Salary:", "salary");
   ("Job Function:", "job_function");
   ("Industry:", "industry");
   ("Specialization:", "specialization");
   ("Graduate Courses:", "graduate_courses");
   ("Post Graduate Courses:", "post_graduate_courses");
   ("Employment Type:", "employment_type");
   ("Job Type:", "job_type");
   ("Gender:", "gender");
   ("URL:", "url");
   ("Description:", "description");
   ("Skills:", "skills")].

(** The first branch of the chain that a line enters, if any:
    [current[key] = line.split(label, 1)[1].strip()]. *)
Fixpoint field_line (labels : list (string * string)) (line : string)
  (current : JobRecord) : result JobRecord :=
  match labels with
  | [] => Ok current
  | (label, key) :: rest =>
      if PyStr.startswith line label
      then rbind (index (PyStr.split_once line label) 1)
                 (fun v => Ok (setitem key (PyStr.strip v) current))
      else field_line rest line current
  end.

Definition is_job_line (line : string) : bool := PyStr.startswith line "Job #".

(** The [for raw_line in f] loop, on the state [(jobs, current)]. *)
Fixpoint lines_loop (source : string) (raw_lines : list string)
  (jobs : list JobRecord) (current : option JobRecord)
  : result (list JobRecord * option JobRecord) :=
  match raw_lines with
  | [] => Ok (jobs, current)
  | raw_line :: rest =>
      let line := PyStr.rstrip_newline raw_line in
      if is_job_line line
      then
        let jobs := match current with
                    | Some c => if truthy_dict c then jobs ++ [c] else jobs
                    | None => jobs
                    end in
        lines_loop source rest jobs (Some (new_job source))
      else
        match current with
        | Some c =>
            rbind (field_line LABELS line c)
                  (fun c' => lines_loop source rest jobs (Some c'))
        | None => lines_loop source rest jobs None
        end
  end.

(** After the loop: [if current: jobs.append(current)], and the list is
    returned. *)
Definition finish (st : list JobRecord * option JobRecord)
  : list JobRecord :=
  let '(jobs, current) := st in
  match current with
  | Some c => if truthy_dict c then jobs ++ [c] else jobs
  | None => jobs
  end.

(** [parse_jobs_file(path, source)], given what [path] holds: [None] when
    the file does not exist, its text otherwise. *)
Definition parse_jobs_file (file : option string) (source : string)
  : result (list JobRecord) :=
  match file with
  | None => Ok []
  | Some content =>
      rbind (lines_loop source (readlines content) [] None)
            (fun st => Ok (finish st))
  end.

End Main.

(* ------------------------------------------------------------------ *)
(** ** Observations on a crawl *)

(** The page numbers of the listing pages that a crawl loaded, in order. *)
Fixpoint listing_pages (l : list Event) : list Z :=
  match l with
  | [] => []
  | LoadListing p _ :: l' => p :: listing_pages l'
  | _ :: l' => listing_pages l'
  end.

(** The detail pages that a crawl visited, in order. *)
Fixpoint detail_visits (l : list Event) : list string :=
  match l with
  | [] => []
  | VisitDetail u :: l' => u :: detail_visits l'
  | _ :: l' => detail_visits l'
  end.


(** The keys of the JobRecord schema, in the order both scrapers write
    them. *)
Definition SCHEMA_KEYS : list string :=
  ["source"; "title"; "company"; "url"; "description"; "experience";
   "salary"; "job_function"; "industry"; "specialization";
   "graduate_courses"; "post_graduate_courses"; "employment_type";
   "job_type"; "gender"; "skills"].

(** The text of a page shows one of the phrases that
    [check_for_no_results] looks for. *)
Definition shows_no_results (soup : Bs4.Soup) : Prop :=
  PyStr.contains "no jobs matching" (PyStr.lower (Bs4.soup_get_text soup))
    = true
  \/ PyStr.contains "no results found" (PyStr.lower (Bs4.soup_get_text soup))
    = true.

(** A record that carries every key of the schema. *)
Definition fully_keyed (r : JobRecord) : Prop := keys r = SCHEMA_KEYS.

(** No button of the page is a pagination button for a page after the
    first: none has a text made of digits that denotes a number above 1. *)
Definition no_page_button (soup : Bs4.Soup) : Prop :=
  forall b n,
    In b (Bs4.find_all (Bs4.named ["button"]) (Bs4.soup_descendants soup)) ->
    PyStr.isdigit (Bs4.get_text_strip b) = true ->
    py_int (Bs4.get_text_strip b) = Ok n ->
    (n <= 1)%Z.

(** A title that is real text: neither empty nor the placeholder. *)
Definition real_title (t : string) : Prop := t <> "" /\ t <> "N/A".

(* ------------------------------------------------------------------ *)
(** ** Deduplication, stated on its own

    What "one stub per link, first occurrence wins" means for the anchors
    of one page, written without the loop and its set of seen links; it is
    compared with [extract_jobs_from_page] below. *)

Module DedupSpec.
Import Bs4.

(** The anchors of a page that point to a job detail, in document order. *)
Definition job_links (soup : Soup) : list Loc :=
  filter (fun l => PyStr.contains "/job-detail/" (Timejobs_scraper.link_href l))
    (find_all (fun n => named ["a"] n && Timejobs_scraper.has_attr "href" n)
              (soup_descendants soup)).

Definition other_href (l l' : Loc) : bool :=
  negb (String.eqb (Timejobs_scraper.link_href l')
                   (Timejobs_scraper.link_href l)).

(** Of the anchors that share an href, only the first is kept. *)
Fixpoint first_by_href (links : list Loc) : list Loc :=
  match links with
  | [] => []
  | l :: rest => l :: filter (other_href l) (first_by_href rest)
  end.

Definition titled (l : Loc) : bool :=
  PyStr.nonempty (Timejobs_scraper.link_title l)
  && negb (String.eqb (Timejobs_scraper.link_title l) "N/A").

Definition stub_of (base_url : string) (l : Loc) : JobStub :=
  let href := Timejobs_scraper.link_href l in
  mkStub (Timejobs_scraper.link_title l)
         (if PyStr.startswith href "/" then (base_url ++ href)%string
          else href).

(** A test on an anchor that only reads its href. *)
Definition by_href (p : string -> bool) (l : Loc) : bool :=
  p (Timejobs_scraper.link_href l).

(** The anchors whose href is not in a set of seen links. *)
Definition unseen (seen : list string) : Loc -> bool :=
  by_href (fun h => negb (Timejobs_scraper.mem h seen)).

Definition to_job_detail : Loc -> bool :=
  by_href (PyStr.contains "/job-detail/").

End DedupSpec.

(** The events of loading listing pages and of visiting jobs. *)
Definition listing_events (url_of : Z -> string) (pages : list Z)
  : list Event :=
  map (fun p => LoadListing p (url_of p)) pages.

Definition detail_events (jobs : list JobStub) : list Event :=
  map (fun j => VisitDetail (url j)) jobs.

(** No TimesJobs listing page of the site shows a no-results phrase,
    whenever it is asked for. *)
Definition never_no_results (keyword location : option string)
  (experience : option Z) (site : nat -> string -> Response) : Prop :=
  forall n p soup,
    site n (Timejobs_scraper.build_timesjobs_url keyword location experience p)
      = Rendered soup ->
    Timejobs_scraper.check_for_no_results soup = false.

(** Whether page [p] shows a no-results phrase when the walk of a crawl
    asks for it.  The first request of the session loads page 1 to count
    the pages, and the walk then asks for the pages 1, 2, ... in turn, so
    page [p] is what the site answers to request [p]; a page that fails to
    load shows nothing. *)
Definition walk_page_shows_no_results (keyword location : option string)
  (experience : option Z) (site : nat -> string -> Response) (p : Z) : bool :=
  match site (Z.to_nat p)
          (Timejobs_scraper.build_timesjobs_url keyword location experience p)
  with
  | Rendered soup => Timejobs_scraper.check_for_no_results soup
  | Failed _ => false
  end.

(* ------------------------------------------------------------------ *)
(** ** The text format, stated on its own

    What [parse_jobs_file] is meant to read: the lines of a file fall into
    a preamble and one block of field lines per [Job #] line, and every
    block gives one record, built from the empty record of the source. *)

Module ParseSpec.

(** The value that a field line gives for the first label it starts with:
    the rest of the line, stripped. *)
Fixpoint field_update (labels : list (string * string)) (line : string)
  (current : JobRecord) : JobRecord :=
  match labels with
  | [] => current
  | (label, key) :: rest =>
      if PyStr.startswith line label
      then Main.setitem key
             (PyStr.strip (PyStr.drop (String.length label) line)) current
      else field_update rest line current
  end.

Definition apply_fields (block : list string) (current : JobRecord)
  : JobRecord :=
  fold_left (fun c line => field_update Main.LABELS line c) block current.

(** The lines before the first [Job #] line, and the field lines that
    follow each [Job #] line. *)
Fixpoint split_blocks (lines : list string)
  : list string * list (list string) :=
  match lines with
  | [] => ([], [])
  | line :: rest =>
      let (cur, bs) := split_blocks rest in
      if Main.is_job_line line then ([], cur :: bs) else (line :: cur, bs)
  end.

Definition blocks (lines : list string) : list (list string) :=
  snd (split_blocks lines).

Definition record_of_block (source : string) (block : list string)
  : JobRecord :=
  apply_fields block (Main.new_job source).

(** The raw lines from the first [Job #] line on. *)
Fixpoint drop_preamble (raw_lines : list string) : list string :=
  match raw_lines with
  | [] => []
  | raw_line :: rest =>
      if Main.is_job_line (PyStr.rstrip_newline raw_line) then raw_lines
      else drop_preamble rest
  end.

(** The keys of a parsed record, in the order [parse_jobs_file] writes
    them. *)
Definition PARSED_KEYS : list string :=
  ["source"; "title"; "company"; "experience"; "salary"; "job_function";
   "industry"; "specialization"; "graduate_courses";
   "post_graduate_courses"; "employment_type"; "job_type"; "gender"; "url";
   "description"; "skills"].

(** What stays true of the record in progress: it has the keys of the
    empty record and the source it was started with. *)
Definition well_formed (source : string) (r : JobRecord) : Prop :=
  keys r = PARSED_KEYS /\ Main.getitem "source" r = Some source.

End ParseSpec.

(* ------------------------------------------------------------------ *)
(** ** Pages and worlds used as examples *)

Module Fixtures.
Import Bs4.

(** A TimesJobs result card: a [div] with the title heading and the link. *)
Definition tj_card (href heading : string) : Node :=
  Tag "div" [("class", "srp-card")]
    [Tag "h2" [] [Text heading];
     Tag "a" [("href", href)] [Text "View"]].

Definition button (label : string) : Node :=
  Tag "button" [] [Text label].

(** A TimesJobs detail page with the three spans and a description. *)
Definition tj_detail : Soup :=
  [Tag "h3" [("class", "inline mr-2")] [Text "Acme"];
   Tag "span" [("class", "mr-2 inline flex items-center")] [Text "Pune"];
   Tag "span" [("class", "mr-2 inline flex items-center")] [Text "2-4 Years"];
   Tag "span" [("class", "mr-2 inline flex items-center")] [Text "6-8 LPA"];
   Tag "div" []
     [Tag "h2" [] [Text "Job Description"];
      Tag "p" [] [Text "Build and run crawlers."]]].

(** A result page that reports an empty result and still suggests a job. *)
Definition tj_no_results : Soup :=
  [Tag "p" [] [Text "Sorry, No Jobs Matching your search."];
   tj_card "/job-detail/suggested-1" "Suggested Job"].

Definition tj_first_url : string :=
  Timejobs_scraper.build_timesjobs_url (Some "Python") (Some "Pune") None 1.

Definition tj_world_no_results : World :=
  mkWorld None
    (fun _ u => if String.eqb u tj_first_url then Rendered tj_no_results
                else Rendered tj_detail).

(** A Talent.com list page with the same message and one job card. *)
Definition talent_no_results : Soup :=
  [Tag "p" [] [Text "No jobs matching your search were found."];
   Tag "div" [("class", "gXOxBJ")]
     [Tag "h2" [("class", "card__job-title")] [Text "Python Developer"];
      Tag "a" [("href", "/view?id=1")] [Text "Open"]]].

Definition talent_detail : Soup :=
  [Tag "div" [("class", "job-header__company")] [Text " Acme "];
   Tag "div" [("class", "job-description")] [Text "Build crawlers."]].

Definition talent_list_url : string :=
  Talent_scraper.build_filter_url "Pune" (Some "Python") None None None None
                                  None None 1.

Definition talent_world_no_results : World :=
  mkWorld None
    (fun _ u => if String.eqb u talent_list_url
                then Rendered talent_no_results
                else Rendered talent_detail).

(** Two result pages that both list the same job link. *)
Definition tj_page (heading : string) : Soup :=
  [tj_card "/job-detail/dev-1" heading; button "1"; button "2"].

Definition tj_url (page : Z) : string :=
  Timejobs_scraper.build_timesjobs_url (Some "Python") (Some "Pune") None page.

Definition tj_world_same_link_twice : World :=
  mkWorld None
    (fun _ u => if String.eqb u (tj_url 1) then Rendered (tj_page "Dev One")
                else if String.eqb u (tj_url 2)
                then Rendered (tj_page "Dev One (repost)")
                else Rendered tj_detail).

(** One page that names the same job once by a relative and once by an
    absolute link. *)
Definition tj_page_two_spellings : Soup :=
  [tj_card "/job-detail/dev-1" "Dev One";
   tj_card "https://www.timesjobs.com/job-detail/dev-1" "Dev One (abs)"].

(** One page whose first link to a job stands outside any card and whose
    second link to the same job stands in a card with a heading. *)
Definition tj_page_bare_link_first : Soup :=
  [Tag "a" [("href", "/job-detail/dev-1")] [Text "Dev One"];
   tj_card "/job-detail/dev-1" "Dev One"].

(** A Talent.com list page with one card that has a link and no title. *)
Definition talent_untitled_card : Soup :=
  [Tag "div" [("class", "gXOxBJ")]
     [Tag "a" [("href", "/view?id=7")] [Text ""]]].

(** A TimesJobs detail page without any of the fixed-position spans. *)
Definition tj_detail_no_spans : Soup :=
  [Tag "h3" [("class", "inline mr-2")] [Text "Acme"];
   Tag "div" []
     [Tag "h2" [] [Text "Job Description"];
      Tag "p" [] [Text "Build and run crawlers."]]].

Definition tj_world_no_spans : World :=
  mkWorld None
    (fun _ u => if String.eqb u (tj_url 1)
                then Rendered [tj_card "/job-detail/dev-1" "Dev One"]
                else Rendered tj_detail_no_spans).

(** A first page that announces three pages, and a world whose second
    page reports the end of the results. *)
Definition tj_page_of_three : Soup :=
  [tj_card "/job-detail/dev-1" "Dev One"; button "1"; button "2"; button "3"].

Definition tj_world_ends_early : World :=
  mkWorld None
    (fun _ u => if String.eqb u (tj_url 1) then Rendered tj_page_of_three
                else if String.eqb u (tj_url 2) then Rendered tj_no_results
                else Rendered tj_detail).

(** A world with three full pages. *)
Definition tj_world_three_pages : World :=
  mkWorld None
    (fun _ u => if String.eqb u (tj_url 1) then Rendered tj_page_of_three
                else if String.eqb u (tj_url 2) then Rendered tj_page_of_three
                else if String.eqb u (tj_url 3) then Rendered tj_page_of_three
                else Rendered tj_detail).



(** A detail page without any description container, with a heading and
    a paragraph after it. *)
Definition page_heading_then_text : Soup :=
  [Tag "div" []
     [Tag "h2" [] [Text "Job Description"];
      Tag "p" [] [Text "Build and run crawlers."];
      Tag "p" [] [Text " Remote. "]]].

(** Two headings that mention a description; only the second is followed
    by text. *)
Definition page_two_headings : Soup :=
  [Tag "div" [] [Tag "h2" [] [Text "Job Description"]];
   Tag "div" []
     [Tag "h3" [] [Text "Description"];
      Tag "p" [] [Text "Build and run crawlers."]]].

(** A heading followed by text that is not inside any tag. *)
Definition page_heading_then_bare_text : Soup :=
  [Tag "div" []
     [Tag "h2" [] [Text "Job Description"];
      Text "Build and run crawlers."]].

(** A text file with a line before the first job, two jobs, and no line
    terminator at its end. *)
Definition jobs_file : string :=
  "Title: stray
Job #1
Title:  Dev One 
URL: https://www.timesjobs.com/job-detail/dev-1
Job #2
Skills: python, sql".

End Fixtures.

(* ------------------------------------------------------------------ *)
(** ** Further observations *)


(** How many listing pages the walk loads from request [n] on: every page
    up to and including the first that shows a no-results phrase. *)
Fixpoint timesjobs_pages_loaded (keyword location : option string)
  (experience : option Z) (site : nat -> string -> Response)
  (n : nat) (pages : list Z) : nat :=
  match pages with
  | [] => 0
  | p :: rest =>
      match site n (Timejobs_scraper.build_timesjobs_url keyword location
                      experience p) with
      | Rendered soup =>
          if Timejobs_scraper.check_for_no_results soup then 1
          else S (timesjobs_pages_loaded keyword location experience site
                    (S n) rest)
      | Failed _ =>
          S (timesjobs_pages_loaded keyword location experience site
               (S n) rest)
      end
  end.


(** The buttons that [get_total_pages] scans. *)
Definition page_buttons (soup : Bs4.Soup) : list Bs4.Loc :=
  Bs4.find_all (Bs4.named ["button"]) (Bs4.soup_descendants soup).

Definition button_text (b : Bs4.Loc) : string :=
  Bs4.get_text_strip b.

(** The detail pass of TimesJobs, stated on its own: what one job gives
    when it is the [n]-th request of the session, and what a list of jobs
    gives from request [n] on. *)
Definition timesjobs_job_outcome (site : nat -> string -> Response)
  (n : nat) (job : JobStub) : list JobRecord :=
  match site n (url job) with
  | Rendered soup =>
      match Timejobs_scraper.job_record job soup with
      | Ok r => [r]
      | Raise _ => []
      end
  | Failed _ => []
  end.

Fixpoint timesjobs_detail_pass (site : nat -> string -> Response)
  (n : nat) (jobs : list JobStub) : list JobRecord :=
  match jobs with
  | [] => []
  | job :: rest =>
      timesjobs_job_outcome site n job
      ++ timesjobs_detail_pass site (S n) rest
  end.

(** The same for Talent.com, whose extraction never raises. *)
Fixpoint talent_detail_pass (site : nat -> string -> Response)
  (n : nat) (jobs : list JobStub) : list JobRecord :=
  match jobs with
  | [] => []
  | job :: rest =>
      match site n (url job) with
      | Rendered soup => [Talent_scraper.job_record job soup]
      | Failed _ => []
      end
      ++ talent_detail_pass site (S n) rest
  end.

(** The walk over the listing pages, stated on its own: the stubs of the
    pages that render, up to the first page that shows a no-results
    phrase; a page that fails gives nothing. *)
Fixpoint timesjobs_walk (keyword location : option string)
  (experience : option Z) (site : nat -> string -> Response)
  (n : nat) (pages : list Z) : list JobStub :=
  match pages with
  | [] => []
  | p :: rest =>
      match site n (Timejobs_scraper.build_timesjobs_url keyword location
                      experience p) with
      | Rendered soup =>
          if Timejobs_scraper.check_for_no_results soup then []
          else Timejobs_scraper.extract_jobs_from_page soup
                 Timejobs_scraper.base_url
               ++ timesjobs_walk keyword location experience site (S n) rest
      | Failed _ => timesjobs_walk keyword location experience site (S n) rest
      end
  end.

(** A stub whose address is a job-detail link. *)
Definition job_detail_url (s : JobStub) : Prop :=
  PyStr.contains "/job-detail/" (url s) = true.

(** A skill entry that [extract_skills_from_detail] may keep: not empty,
    and free of every excluded word. *)
Definition clean_skill (s : string) : Prop :=
  PyStr.nonempty s = true
  /\ Forall (fun exclude => PyStr.contains exclude (PyStr.lower s) = false)
            Timejobs_scraper.skill_excludes.

(** The label-keyed fields, stated on their own: the texts of the
    candidate tags, whether a text starts with the label and a colon in any
    letter case, and the first text that does. *)
Definition label_candidates (detail_soup : Bs4.Soup) : list string :=
  map (fun tag => Bs4.get_text_sep_strip tag)
      (Bs4.find_all (Bs4.named ["li"; "div"; "span"; "p"])
                    (Bs4.soup_descendants detail_soup)).

Definition labelled (label_text txt : string) : bool :=
  PyStr.startswith (PyStr.lower txt) (PyStr.lower (label_text ++ ":")).

Definition first_labelled (detail_soup : Bs4.Soup) (label_text : string)
  : option string :=
  hd_error (filter (labelled label_text) (label_candidates detail_soup)).

Definition no_colon (s : string) : bool :=
  PyStr.forall_c (fun c => negb (Ascii.eqb c ":")) s.

(** The raw lines of a file begin with a [Job #] line, or there is none. *)
Definition starts_with_job (raw_lines : list string) : bool :=
  match raw_lines with
  | [] => true
  | raw_line :: _ => Main.is_job_line (PyStr.rstrip_newline raw_line)
  end.

(** A text that is empty or ends with a line terminator. *)
Fixpoint ends_with_newline (s : string) : bool :=
  match s with
  | EmptyString => true
  | String c rest =>
      match rest with
      | EmptyString => Ascii.eqb c PyStr.newline
      | _ => ends_with_newline rest
      end
  end.

(** A raw line that [parse_jobs_file] reacts to: a [Job #] line or a line
    that starts with one of the labels. *)
Definition recognised (raw_line : string) : bool :=
  let line := PyStr.rstrip_newline raw_line in
  Main.is_job_line line
  || existsb (fun lk => PyStr.startswith line (fst lk)) Main.LABELS.

(* ------------------------------------------------------------------ *)
(** ** main.py: the combined run *)

Module MainRun.

(** [s or default] on strings. *)
Definition or_else (s default : string) : string :=
  if PyStr.nonempty s then s else default.

(** The attributes of [st.session_state] that the handler assigns; an
    attribute that was never assigned is [None]. *)
Record SessionState : Type := mkSessionState {
  talent_jobs : option (list JobRecord);
  timesjobs_jobs : option (list JobRecord);
  merged_jobs : option (list JobRecord);
  show_filter : option string;
  merged_json_path : option string
}.

(** The machine the dashboard runs on: [now] is what
    [datetime.now().strftime("%Y%m%d_%H%M%S")] gives when the handler asks,
    and [save path] is the exception, if any, that opening [path] for
    writing and dumping the merged list into it raises (the directory
    [output] is not created by the handler, so [open] raises when it is
    missing). *)
Record Host : Type := mkHost {
  now : string;
  save : string -> option Exc
}.

(** What a run of the handler leaves behind: the session state, the JSON
    files written in full, each with the list dumped into it, and how the
    handler ended. *)
Record Run : Type := mkRun {
  state : SessionState;
  files : list (string * list JobRecord);
  ended : result unit
}.

(** The handler of the "Run combined scraper" button, from the cleaning of
    its inputs to the JSON file, started in the session state [st].  Each
    scraper starts a browser session of its own, so each meets a world of
    its own.  The test [talent_jobs is None] never holds for what the
    scrapers return; the messages shown on the page are left out. *)
Definition run_combined (talent_world timesjobs_world : World) (host : Host)
  (designation city : string) (experience_years : Z) (st : SessionState)
  : Run :=
  let designation_clean := or_else (PyStr.strip designation) "Python" in
  let city_clean := or_else (PyStr.strip city) "Ahmedabad" in
  let keyword_combined := designation_clean in
  match fst (Talent_scraper.scrape_talent_com talent_world city_clean
               (Some keyword_combined) None None None None None None 1) with
  | Raise e => mkRun st [] (Raise e)
  | Ok talent =>
      match fst (Timejobs_scraper.scrape_all_jobs timesjobs_world
                   (Some keyword_combined) (Some city_clean) None
                   (if (0 <? experience_years)%Z then Some experience_years
                    else None)) with
      | Raise e => mkRun st [] (Raise e)
      | Ok timesjobs =>
          let merged := talent ++ timesjobs in
          let st1 := mkSessionState (Some talent) (Some timesjobs)
                       (Some merged) (Some "all") (merged_json_path st) in
          let path := ("output/merged_jobs_" ++ now host ++ ".json")%string in
          match save host path with
          | Some e => mkRun st1 [] (Raise e)
          | None =>
              mkRun (mkSessionState (Some talent) (Some timesjobs)
                       (Some merged) (Some "all") (Some path))
                    [(path, merged)] (Ok tt)
          end
      end
  end.

End MainRun.

(** A record of one source with every key of the schema. *)
Definition record_of_source (source : string) (r : JobRecord) : Prop :=
  fully_keyed r /\ Main.getitem "source" r = Some source.

(* ------------------------------------------------------------------ *)
(** ** More pages and worlds used as examples *)

Module MoreFixtures.
Import Bs4.

(** A first page whose pagination has a button labelled with the
    superscript two next to the buttons 1 and 5. *)
Definition tj_page_superscript_button : Soup :=
  [Fixtures.button "1"; Fixtures.button "5";
   Fixtures.button (String (ascii_of_nat 178) EmptyString)].

(** A detail page with two label lines in a list. *)
Definition tj_detail_labels : Soup :=
  [Tag "ul" []
     [Tag "li" [] [Text "Job Function: IT Software : Products"];
      Tag "li" [] [Text "INDUSTRY:  IT Services "];
      Tag "li" [] [Text "Industry: ignored"]]].

(** Two text files, the first ending with a line terminator, and the
    file made of the first followed by the second. *)
Definition file_a : string :=
  "Job #1
Title: Dev One
".

Definition file_b : string :=
  "Job #2
Title: Dev Two
Skills: sql".

(** The second file with lines that the parser does not know. *)
Definition file_b_noisy : string :=
  "=====
Job #2

Title: Dev Two
  continued text of no field
Skills: sql".

(** A listing page with a job card whose only no-results phrase stands in
    a script. *)
Definition tj_page_phrase_in_script : Soup :=
  [Tag "div" []
     [Tag "script" [] [Text "var empty = 'No results found';"];
      Fixtures.tj_card "/job-detail/dev-1" "Python Developer"]].

(** A detail page whose paragraph after the heading holds a script. *)
Definition page_heading_then_script_paragraph : Soup :=
  [Tag "div" []
     [Tag "h2" [] [Text "Job Description"];
      Tag "p" [] [Text "Build "; Tag "script" [] [Text "x()"];
                  Text " crawlers."]]].

(** A string of [n] digits. *)
Fixpoint sevens (n : nat) : string :=
  match n with
  | 0 => EmptyString
  | S n' => String "7" (sevens n')
  end.

(** A first page with the buttons 7 and a number of 4301 digits. *)
Definition tj_page_long_number : Soup :=
  [Fixtures.button "7"; Fixtures.button (sevens 4301)].

(** A world with three full pages whose fourth listing page shows a
    no-results phrase. *)
Definition tj_world_fourth_page_empty : World :=
  mkWorld None
    (fun _ u => if String.eqb u (Fixtures.tj_url 1)
                then Rendered Fixtures.tj_page_of_three
                else if String.eqb u (Fixtures.tj_url 2)
                then Rendered Fixtures.tj_page_of_three
                else if String.eqb u (Fixtures.tj_url 3)
                then Rendered Fixtures.tj_page_of_three
                else if String.eqb u (Fixtures.tj_url 4)
                then Rendered Fixtures.tj_no_results
                else Rendered Fixtures.tj_detail).

End MoreFixtures.

(* ------------------------------------------------------------------ *)
(** ** Running a crawl *)

Section SessionFacts.

Lemma scrape_all_jobs_started (w : World) keyword location max_pages experience :
  chrome w = None ->
  Timejobs_scraper.scrape_all_jobs w keyword location max_pages experience =
  let (r, d) :=
    finally (catch (Timejobs_scraper.crawl keyword location experience max_pages)
                   (fun _ => ret []))
            quit (mkDriver (web w) 0 []) in
  (r, log d).
Proof.
  intros Hc. unfold Timejobs_scraper.scrape_all_jobs,
    Timejobs_scraper.get_driver, start_chrome. rewrite Hc. reflexivity.
Qed.

Lemma check_for_no_results_shows (soup : Bs4.Soup) :
  Timejobs_scraper.check_for_no_results soup = true <-> shows_no_results soup.
Proof.
  unfold Timejobs_scraper.check_for_no_results, shows_no_results.
  apply orb_true_iff.
Qed.

End SessionFacts.

(* ------------------------------------------------------------------ *)
(** ** The no-results short-circuit *)

(** C1 (as amended): once the session is started, if the first TimesJobs
    result page renders and its text shows a no-results phrase, then
    [scrape_all_jobs] returns the empty list, and all it did was load that
    one page and release the session: no detail page is visited. *)
Theorem timesjobs_no_results_short_circuit
  (w : World) (keyword location : option string)
  (max_pages experience : option Z) (soup : Bs4.Soup) :
  chrome w = None ->
  web w 0 (Timejobs_scraper.build_timesjobs_url keyword location experience 1)
    = Rendered soup ->
  shows_no_results soup ->
  Timejobs_scraper.scrape_all_jobs w keyword location max_pages experience
  = (Ok [],
     [LoadListing 1
        (Timejobs_scraper.build_timesjobs_url keyword location experience 1);
      Quit]).
Proof.
  intros Hc Hw Hs.
  apply check_for_no_results_shows in Hs.
  rewrite scrape_all_jobs_started by assumption.
  unfold finally, catch, Timejobs_scraper.crawl, bind,
    Timejobs_scraper.load_page, request.
  cbn [site requests log]. rewrite Hw, Hs. reflexivity.
Qed.

Lemma timesjobs_no_results_short_circuit_witness :
  Timejobs_scraper.scrape_all_jobs Fixtures.tj_world_no_results
    (Some "Python") (Some "Pune") None None
  = (Ok [], [LoadListing 1 Fixtures.tj_first_url; Quit]).
Proof.
  apply (timesjobs_no_results_short_circuit Fixtures.tj_world_no_results
           (Some "Python") (Some "Pune") None None Fixtures.tj_no_results).
  - reflexivity.
  - vm_compute. reflexivity.
  - left. vm_compute. reflexivity.
Defined.

(** C1 fails for Talent.com: [scrape_talent_com] never looks for a
    no-results phrase.  On a list page whose text shows "no jobs matching"
    next to a job card, it visits the card's detail page and returns a
    record for it. *)
Lemma talent_no_results_not_short_circuited :
  shows_no_results Fixtures.talent_no_results
  /\ Talent_scraper.scrape_talent_com Fixtures.talent_world_no_results
       "Pune" (Some "Python") None None None None None None 1
     = (Ok [[("source", "Talent.com");
             ("title", "Python Developer");
             ("company", "Acme");
             ("url", "https://in.talent.com/view?id=1");
             ("description", "Build crawlers.");
             ("experience", ""); ("salary", ""); ("job_function", "");
             ("industry", ""); ("specialization", "");
             ("graduate_courses", ""); ("post_graduate_courses", "");
             ("employment_type", ""); ("job_type", ""); ("gender", "");
             ("skills", "")]],
        [LoadListing 1 Fixtures.talent_list_url;
         VisitDetail "https://in.talent.com/view?id=1";
         Quit]).
Proof.
  split.
  - left. vm_compute. reflexivity.
  - vm_compute. reflexivity.
Qed.

(** Text inside a [script] is no text of the page: a first page whose
    only no-results phrase stands in a script is scraped. *)
Example phrase_in_script_is_not_shown :
  Bs4.soup_get_text MoreFixtures.tj_page_phrase_in_script
  = "Python DeveloperView"
  /\ Timejobs_scraper.check_for_no_results
       MoreFixtures.tj_page_phrase_in_script = false
  /\ Timejobs_scraper.extract_jobs_from_page
       MoreFixtures.tj_page_phrase_in_script Timejobs_scraper.base_url
     = [mkStub "Python Developer"
          "https://www.timesjobs.com/job-detail/dev-1"].
Proof.
  repeat split; vm_compute; reflexivity.
Qed.

(* ------------------------------------------------------------------ *)
(** ** The stubs of one listing page *)

Section ListingPage.
Import Bs4.

Variable base_url : string.

Lemma titled_real (l : Loc) :
  DedupSpec.titled l = true -> real_title (Timejobs_scraper.link_title l).
Proof.
  unfold DedupSpec.titled, real_title. intros H.
  apply andb_true_iff in H. destruct H as [Hn Hp]. split.
  - intros E. rewrite E in Hn. discriminate.
  - intros E. rewrite E in Hp. discriminate.
Qed.

Lemma links_loop_titles (links : list Loc) :
  forall seen jobs,
    Forall (fun s => real_title (title s)) jobs ->
    Forall (fun s => real_title (title s))
           (Timejobs_scraper.links_loop base_url links seen jobs).
Proof.
  induction links as [|link rest IH]; intros seen jobs Hj; cbn [Timejobs_scraper.links_loop].
  - exact Hj.
  - destruct (negb (PyStr.contains "/job-detail/" (Timejobs_scraper.link_href link))).
    + apply IH, Hj.
    + destruct (Timejobs_scraper.mem (Timejobs_scraper.link_href link) seen).
      * apply IH, Hj.
      * destruct (PyStr.nonempty (Timejobs_scraper.link_title link)
                  && negb (String.eqb (Timejobs_scraper.link_title link) "N/A"))
          eqn:Ht.
        -- apply IH. apply Forall_app. split; [exact Hj|].
           constructor; [|constructor]. cbn [title].
           apply titled_real. exact Ht.
        -- apply IH, Hj.
Qed.

Lemma filter_comm {A} (p q : A -> bool) (l : list A) :
  filter p (filter q l) = filter q (filter p l).
Proof.
  induction l as [|x l IH]; cbn [filter]; [reflexivity|].
  destruct (q x) eqn:Hq, (p x) eqn:Hp; cbn [filter];
    rewrite ?Hq, ?Hp, IH; reflexivity.
Qed.

Lemma filter_andb {A} (p q : A -> bool) (l : list A) :
  filter (fun x => p x && q x) l = filter p (filter q l).
Proof.
  induction l as [|x l IH]; cbn [filter]; [reflexivity|].
  destruct (q x) eqn:Hq, (p x) eqn:Hp; cbn [filter andb];
    rewrite ?Hp, IH; reflexivity.
Qed.

(** Filtering on the href of the kept anchor first loses nothing. *)
Lemma filter_other_href_absorb (p : string -> bool) (y : Loc) (l : list Loc) :
  DedupSpec.by_href p y = false ->
  filter (DedupSpec.by_href p) (filter (DedupSpec.other_href y) l)
  = filter (DedupSpec.by_href p) l.
Proof.
  intros Hy. induction l as [|x l IH]; cbn [filter]; [reflexivity|].
  destruct (DedupSpec.other_href y x) eqn:Ho; cbn [filter].
  - rewrite IH. reflexivity.
  - rewrite IH.
    unfold DedupSpec.other_href in Ho. apply negb_false_iff in Ho.
    apply String.eqb_eq in Ho. unfold DedupSpec.by_href in *. rewrite Ho, Hy.
    reflexivity.
Qed.

Lemma first_by_href_filter (p : string -> bool) (l : list Loc) :
  DedupSpec.first_by_href (filter (DedupSpec.by_href p) l)
  = filter (DedupSpec.by_href p) (DedupSpec.first_by_href l).
Proof.
  induction l as [|y l IH]; [reflexivity|].
  cbn [filter DedupSpec.first_by_href].
  destruct (DedupSpec.by_href p y) eqn:Hy.
  - cbn [DedupSpec.first_by_href]. rewrite IH, filter_comm. reflexivity.
  - rewrite IH. symmetry. apply filter_other_href_absorb, Hy.
Qed.

Lemma unseen_cons (link : Loc) (seen : list string) (l : list Loc) :
  filter (DedupSpec.unseen (Timejobs_scraper.link_href link :: seen)) l
  = filter (DedupSpec.other_href link) (filter (DedupSpec.unseen seen) l).
Proof.
  rewrite <- filter_andb. apply filter_ext. intros x.
  unfold DedupSpec.unseen, DedupSpec.by_href, DedupSpec.other_href, Timejobs_scraper.mem.
  cbn [existsb]. rewrite negb_orb. reflexivity.
Qed.

(** The loop with its set of seen links computes the first occurrences. *)
Lemma links_loop_first_by_href (links : list Loc) :
  forall seen jobs,
    Timejobs_scraper.links_loop base_url links seen jobs
    = jobs ++ map (DedupSpec.stub_of base_url)
                (filter DedupSpec.titled
                   (DedupSpec.first_by_href
                      (filter (DedupSpec.unseen seen) (filter DedupSpec.to_job_detail links)))).
Proof.
  induction links as [|link rest IH]; intros seen jobs;
    cbn [Timejobs_scraper.links_loop filter].
  - cbn. rewrite app_nil_r. reflexivity.
  - unfold DedupSpec.to_job_detail at 1, DedupSpec.by_href at 1.
    destruct (PyStr.contains "/job-detail/" (Timejobs_scraper.link_href link))
      eqn:Hj; cbn [negb].
    + cbn [filter].
      assert (Hu : DedupSpec.unseen seen link
                   = negb (Timejobs_scraper.mem
                             (Timejobs_scraper.link_href link) seen))
        by reflexivity.
      rewrite Hu.
      destruct (Timejobs_scraper.mem (Timejobs_scraper.link_href link) seen);
        cbn [negb].
      * apply IH.
      * cbn [DedupSpec.first_by_href filter].
        fold (DedupSpec.titled link).
        fold (DedupSpec.stub_of base_url link).
        rewrite !IH, unseen_cons.
        change (DedupSpec.other_href link)
          with (DedupSpec.by_href (fun h => negb (String.eqb h
                                          (Timejobs_scraper.link_href link)))).
        rewrite first_by_href_filter.
        destruct (DedupSpec.titled link); cbn [map].
        -- rewrite <- app_assoc. reflexivity.
        -- reflexivity.
    + apply IH.
Qed.

(** Dropping anchors keeps their hrefs distinct. *)
Lemma hrefs_distinct_filter (keep : Loc -> bool) (links : list Loc) :
  NoDup (map Timejobs_scraper.link_href links) ->
  NoDup (map Timejobs_scraper.link_href (filter keep links)).
Proof.
  induction links as [|x links IH]; cbn [map filter]; intros H; [exact H|].
  apply NoDup_cons_iff in H. destruct H as [Hn Hd].
  destruct (keep x); cbn [map]; [|apply IH, Hd].
  apply NoDup_cons_iff. split; [|apply IH, Hd].
  intros Hin. apply Hn. apply in_map_iff in Hin.
  destruct Hin as [y [Hy Hin]]. apply filter_In in Hin.
  apply in_map_iff. exists y. tauto.
Qed.

Lemma first_by_href_NoDup (l : list Loc) :
  NoDup (map Timejobs_scraper.link_href (DedupSpec.first_by_href l)).
Proof.
  induction l as [|x l IH]; cbn [DedupSpec.first_by_href map]; constructor.
  - intros Hin. apply in_map_iff in Hin. destruct Hin as [y [Hy Hin]].
    apply filter_In in Hin. destruct Hin as [_ Ho].
    unfold DedupSpec.other_href in Ho. rewrite Hy, String.eqb_refl in Ho.
    discriminate.
  - apply hrefs_distinct_filter, IH.
Qed.

End ListingPage.

(** C2 (as amended): candidate links are deduplicated by their href within
    one listing page.  [extract_jobs_from_page] looks only at the first
    anchor of each distinct job-detail href, in document order, and yields
    one stub for it, with that anchor's title, when the title is real text;
    later anchors with the same href yield nothing. *)
Theorem timesjobs_dedup_within_page (soup : Bs4.Soup) (base_url : string) :
  Timejobs_scraper.extract_jobs_from_page soup base_url
  = map (DedupSpec.stub_of base_url)
      (filter DedupSpec.titled
         (DedupSpec.first_by_href (DedupSpec.job_links soup)))
  /\ NoDup (map Timejobs_scraper.link_href
              (DedupSpec.first_by_href (DedupSpec.job_links soup))).
Proof.
  split; [|apply first_by_href_NoDup].
  unfold Timejobs_scraper.extract_jobs_from_page.
  rewrite links_loop_first_by_href. cbn [app].
  do 3 f_equal.
  assert (Hall : forall l : list Bs4.Loc, filter (DedupSpec.unseen []) l = l).
  { induction l as [|x l IH]; [reflexivity|].
    cbn [filter]. change (DedupSpec.unseen [] x) with true. rewrite IH. reflexivity. }
  rewrite Hall. reflexivity.
Qed.

(** C2 fails as stated.  A link that two listing pages both carry yields
    two stubs and two detail visits, since each page starts from an empty
    set of seen links; within one page a job named by a relative and by an
    absolute href yields two stubs with one URL; and a first anchor without
    a real title uses up its href, so that the titled anchor after it
    yields no stub. *)
Lemma timesjobs_duplicates_survive :
  (let out := Timejobs_scraper.scrape_all_jobs
                Fixtures.tj_world_same_link_twice
                (Some "Python") (Some "Pune") None None in
   fst (Timejobs_scraper.collect_links (Some "Python") (Some "Pune") None None
          (Fixtures.tj_page "Dev One")
          (mkDriver (web Fixtures.tj_world_same_link_twice) 1
                    [LoadListing 1 (Fixtures.tj_url 1)]))
   = Ok [mkStub "Dev One" "https://www.timesjobs.com/job-detail/dev-1";
         mkStub "Dev One (repost)"
                "https://www.timesjobs.com/job-detail/dev-1"]
   /\ detail_visits (snd out)
      = ["https://www.timesjobs.com/job-detail/dev-1";
         "https://www.timesjobs.com/job-detail/dev-1"]
   /\ match fst out with
      | Ok records =>
          map (Main.getitem "url") records
          = [Some "https://www.timesjobs.com/job-detail/dev-1";
             Some "https://www.timesjobs.com/job-detail/dev-1"]
      | Raise _ => False
      end)
  /\ Timejobs_scraper.extract_jobs_from_page Fixtures.tj_page_two_spellings
       "https://www.timesjobs.com"
     = [mkStub "Dev One" "https://www.timesjobs.com/job-detail/dev-1";
        mkStub "Dev One (abs)" "https://www.timesjobs.com/job-detail/dev-1"]
  /\ Timejobs_scraper.extract_jobs_from_page Fixtures.tj_page_bare_link_first
       "https://www.timesjobs.com"
     = [].
Proof.
  repeat split; vm_compute; reflexivity.
Qed.

(* ------------------------------------------------------------------ *)
(** ** The walk over the listing pages *)

Section Walk.
Import Bs4.

Lemma scan_buttons_ok (buttons : list Loc) :
  forall max_page,
    (1 <= max_page)%Z ->
    match Timejobs_scraper.scan_buttons buttons max_page with
    | Ok t => (max_page <= t)%Z
    | Raise _ => True
    end.
Proof.
  induction buttons as [|b rest IH]; intros m Hm;
    cbn [Timejobs_scraper.scan_buttons].
  - lia.
  - destruct (PyStr.isdigit (get_text_strip b)); [|apply IH, Hm].
    destruct (py_int (get_text_strip b)) as [n|e]; cbn [rbind];
      [|exact I].
    destruct (1 <? n)%Z; [|apply IH, Hm].
    specialize (IH (Z.max m n)).
    destruct (Timejobs_scraper.scan_buttons rest (Z.max m n)); [|exact I].
    assert (1 <= Z.max m n)%Z by lia. specialize (IH H). lia.
Qed.

(** [get_total_pages] never raises and never answers less than one page. *)
Lemma get_total_pages_ok (soup : Soup) :
  exists t, Timejobs_scraper.get_total_pages soup = Ok t /\ (1 <= t)%Z.
Proof.
  unfold Timejobs_scraper.get_total_pages, try_except.
  pose proof (scan_buttons_ok
                (find_all (named ["button"]) (soup_descendants soup)) 1%Z) as H.
  destruct (Timejobs_scraper.scan_buttons _ 1%Z) as [t|e].
  - exists t. split; [reflexivity|]. apply H. lia.
  - exists 1%Z. split; [reflexivity|lia].
Qed.

Variables (keyword location : option string) (experience : option Z).

Let page_url (p : Z) : string :=
  Timejobs_scraper.build_timesjobs_url keyword location experience p.

Let loaded (d : Driver) (p : Z) : Driver :=
  mkDriver (site d) (S (requests d)) (log d ++ [LoadListing p (page_url p)]).

(** What one turn of the page loop does, by what the page answers. *)
Lemma page_body_cases (p : Z) (all_jobs : list JobStub) (d : Driver) :
  Timejobs_scraper.page_body keyword location experience p all_jobs d
  = match site d (requests d) (page_url p) with
    | Rendered soup =>
        if Timejobs_scraper.check_for_no_results soup
        then (Ok Timejobs_scraper.Break, loaded d p)
        else (Ok (Timejobs_scraper.Next (all_jobs
                        ++ Timejobs_scraper.extract_jobs_from_page soup
                             Timejobs_scraper.base_url)),
              loaded d p)
    | Failed e => (Raise e, loaded d p)
    end.
Proof.
  unfold Timejobs_scraper.page_body, bind, Timejobs_scraper.load_page, request.
  fold (page_url p).
  destruct (site d (requests d) (page_url p)) as [soup|e]; [|reflexivity].
  destruct (Timejobs_scraper.check_for_no_results soup); reflexivity.
Qed.

(** The page loop always ends normally, and keeps any property of stubs
    that every page's stubs have. *)
Lemma page_loop_Forall (P : JobStub -> Prop) :
  (forall soup, Forall P (Timejobs_scraper.extract_jobs_from_page soup
                            Timejobs_scraper.base_url)) ->
  forall pages all_jobs d,
    Forall P all_jobs ->
    exists jobs d',
      Timejobs_scraper.page_loop keyword location experience pages all_jobs d
      = (Ok jobs, d')
      /\ Forall P jobs.
Proof.
  intros HP. induction pages as [|p rest IH]; intros all_jobs d Hj;
    cbn [Timejobs_scraper.page_loop].
  - exists all_jobs, d. split; [reflexivity|exact Hj].
  - rewrite page_body_cases.
    destruct (site d (requests d) (page_url p)) as [soup|e].
    + destruct (Timejobs_scraper.check_for_no_results soup).
      * exists all_jobs, (loaded d p). split; [reflexivity|exact Hj].
      * apply IH. apply Forall_app. split; [exact Hj|apply HP].
    + apply IH, Hj.
Qed.

End Walk.

(** C5 (as amended): on TimesJobs, every stub carries a real title.  The
    stubs that [extract_jobs_from_page] yields for a listing page, and so
    all stubs that the walk over the listing pages collects, have a title
    that is neither empty nor "N/A". *)
Theorem timesjobs_stubs_have_real_titles :
  (forall (soup : Bs4.Soup) (base_url : string),
      Forall (fun s => real_title (title s))
             (Timejobs_scraper.extract_jobs_from_page soup base_url))
  /\ (forall keyword location experience max_pages (soup : Bs4.Soup) d,
         exists jobs d',
           Timejobs_scraper.collect_links keyword location experience
             max_pages soup d = (Ok jobs, d')
           /\ Forall (fun s => real_title (title s)) jobs).
Proof.
  assert (Hpage : forall soup base_url,
             Forall (fun s => real_title (title s))
               (Timejobs_scraper.extract_jobs_from_page soup base_url)).
  { intros soup base_url. unfold Timejobs_scraper.extract_jobs_from_page.
    apply links_loop_titles. constructor. }
  split; [exact Hpage|].
  intros keyword location experience max_pages soup d.
  unfold Timejobs_scraper.collect_links, bind, lift.
  destruct (get_total_pages_ok soup) as [t [Ht _]]. rewrite Ht.
  apply page_loop_Forall; [intros s; apply Hpage|constructor].
Qed.

(** C5 fails for Talent.com: a card whose title cannot be found is kept,
    with the placeholder as its title, and its detail page is visited. *)
Lemma talent_emits_placeholder_title :
  Talent_scraper.collect_links Fixtures.talent_untitled_card
  = [mkStub "N/A" "https://in.talent.com/view?id=7"]
  /\ detail_visits
       (snd (Talent_scraper.scrape_talent_com
               (mkWorld None
                  (fun _ u => if String.eqb u Fixtures.talent_list_url
                              then Rendered Fixtures.talent_untitled_card
                              else Rendered Fixtures.talent_detail))
               "Pune" (Some "Python") None None None None None None 1))
     = ["https://in.talent.com/view?id=7"].
Proof.
  split; vm_compute; reflexivity.
Qed.

(* ------------------------------------------------------------------ *)
(** ** The field extractors of a detail page *)

Section Fields.
Import Bs4.

Lemma index_in_range {A} (l : list A) (i : nat) :
  i < length l -> exists a, index l i = Ok a.
Proof.
  intros H. unfold index.
  destruct (nth_error l i) as [a|] eqn:E.
  - exists a. reflexivity.
  - apply nth_error_None in E. lia.
Qed.

Lemma index_out_of_range {A} (l : list A) (i : nat) :
  length l <= i -> index l i = Raise IndexError.
Proof.
  intros H. unfold index.
  rewrite (proj2 (nth_error_None l i) H). reflexivity.
Qed.

Lemma try_except_total {A} (body : result A) (dflt : A) :
  exists a, try_except body (fun _ => Ok dflt) = Ok a.
Proof.
  destruct body as [a|e]; [exists a|exists dflt]; reflexivity.
Qed.

Lemma blocks_loop_total (blocks : list Loc) (otherwise : result string) :
  (exists s, otherwise = Ok s) ->
  exists s, Timejobs_scraper.blocks_loop blocks otherwise = Ok s.
Proof.
  intros Ho. induction blocks as [|b rest IH];
    cbn [Timejobs_scraper.blocks_loop]; [exact Ho|].
  destruct (Timejobs_scraper.long_text (get_text_sep_strip b));
    [eexists; reflexivity|exact IH].
Qed.

(** The extractors that guard their lookups return a string on every
    document: the extracted content or ["N/A"]. *)
Lemma guarded_extractors_total (soup : Soup) :
  (exists s, Timejobs_scraper.extract_company_from_detail soup = Ok s)
  /\ (exists s, Timejobs_scraper.extract_description_from_detail soup = Ok s)
  /\ (exists s, Timejobs_scraper.extract_skills_from_detail soup = Ok s)
  /\ (exists s, Timejobs_scraper.extract_salary_from_detail soup = Ok s)
  /\ (forall label,
         exists s, Timejobs_scraper.extract_label_value soup label = Ok s).
Proof.
  repeat split.
  - apply try_except_total.
  - unfold Timejobs_scraper.extract_description_from_detail.
    assert (Hrest : exists s,
               Timejobs_scraper.blocks_loop
                 (Timejobs_scraper.possible_blocks (soup_descendants soup))
                 (Timejobs_scraper.description_after_heading
                    (soup_descendants soup)) = Ok s).
    { apply blocks_loop_total. apply try_except_total. }
    destruct (find _ (soup_descendants soup)) as [rtd|]; [|exact Hrest].
    destruct (Timejobs_scraper.long_text (get_text_sep_strip rtd));
      [eexists; reflexivity|exact Hrest].
  - apply try_except_total.
  - unfold Timejobs_scraper.extract_salary_from_detail.
    destruct (3 <=? length (Timejobs_scraper.experience_spans soup)) eqn:E;
      [|eexists; reflexivity].
    apply Nat.leb_le in E.
    destruct (index_in_range (Timejobs_scraper.experience_spans soup) 2)
      as [a Ha]; [lia|].
    rewrite Ha. eexists. reflexivity.
  - intros label. apply try_except_total.
Qed.

End Fields.

(** C3: the code departs from the claim at the experience field.  On every
    detail page with fewer than two spans of class
    "mr-2 inline flex items-center", [extract_experience_from_detail]
    raises [IndexError], where its sibling [extract_salary_from_detail]
    tests the length first and returns the sentinel ["N/A"]. *)
Theorem experience_extractor_raises (soup : Bs4.Soup) :
  length (Timejobs_scraper.experience_spans soup) < 2 ->
  Timejobs_scraper.extract_experience_from_detail soup = Raise IndexError
  /\ Timejobs_scraper.extract_salary_from_detail soup = Ok "N/A".
Proof.
  intros H. split.
  - unfold Timejobs_scraper.extract_experience_from_detail.
    rewrite index_out_of_range by lia. reflexivity.
  - unfold Timejobs_scraper.extract_salary_from_detail.
    destruct (3 <=? length (Timejobs_scraper.experience_spans soup)) eqn:E;
      [|reflexivity].
    apply Nat.leb_le in E. lia.
Qed.

Lemma experience_extractor_raises_witness :
  Timejobs_scraper.extract_experience_from_detail
    Fixtures.tj_detail_no_spans = Raise IndexError
  /\ Timejobs_scraper.extract_salary_from_detail
       Fixtures.tj_detail_no_spans = Ok "N/A".
Proof.
  apply (experience_extractor_raises Fixtures.tj_detail_no_spans).
  vm_compute. lia.
Defined.

(** What the exception costs: the job whose detail page lacks the spans is
    visited and then left out of the result. *)
Example job_without_spans_is_dropped :
  Timejobs_scraper.scrape_all_jobs Fixtures.tj_world_no_spans
    (Some "Python") (Some "Pune") None None
  = (Ok [],
     [LoadListing 1 (Fixtures.tj_url 1);
      LoadListing 1 (Fixtures.tj_url 1);
      VisitDetail "https://www.timesjobs.com/job-detail/dev-1";
      Quit]).
Proof. vm_compute. reflexivity. Qed.

(* ------------------------------------------------------------------ *)
(** ** What a TimesJobs crawl does to the session *)

Section TimesJobsTrace.
Import Bs4.

Variables (keyword location : option string) (experience : option Z).

Let page_url (p : Z) : string :=
  Timejobs_scraper.build_timesjobs_url keyword location experience p.

(** The page loop loads a prefix of its pages, all of them unless a page
    shows the no-results phrase. *)
Lemma page_loop_log (pages : list Z) :
  forall all_jobs d,
  exists jobs d' j,
    Timejobs_scraper.page_loop keyword location experience pages all_jobs d
    = (Ok jobs, d')
    /\ j <= length pages
    /\ site d' = site d
    /\ log d' = log d ++ listing_events page_url (firstn j pages)
    /\ (never_no_results keyword location experience (site d) -> j = length pages)
    /\ (pages <> [] -> 1 <= j).
Proof.
  induction pages as [|p rest IH]; intros all_jobs d;
    cbn [Timejobs_scraper.page_loop].
  - exists all_jobs, d, 0. cbn. rewrite app_nil_r.
    repeat split; auto. intros H. contradiction.
  - rewrite page_body_cases. fold (page_url p).
    set (d1 := mkDriver (site d) (S (requests d))
                        (log d ++ [LoadListing p (page_url p)])).
    assert (Hstep : forall acc,
               exists jobs d' j,
                 Timejobs_scraper.page_loop keyword location experience rest
                   acc d1 = (Ok jobs, d')
                 /\ j <= length (p :: rest)
                 /\ site d' = site d
                 /\ log d' = log d
                             ++ listing_events page_url (firstn j (p :: rest))
                 /\ (never_no_results keyword location experience (site d) -> j = length (p :: rest))
                 /\ (p :: rest <> [] -> 1 <= j)).
    { intros acc.
      destruct (IH acc d1) as [jobs [d' [j [E [Hj [Hs [Hl [Hn _]]]]]]]].
      exists jobs, d', (S j). cbn [length firstn listing_events map].
      repeat split;
        [exact E|lia|exact Hs| |intros H; f_equal; apply Hn, H|lia].
      rewrite Hl. subst d1. cbn [log]. rewrite <- app_assoc. reflexivity. }
    destruct (site d (requests d) (page_url p)) as [soup|e] eqn:Hr.
    + destruct (Timejobs_scraper.check_for_no_results soup) eqn:Hc.
      * exists all_jobs, d1, 1. cbn [length firstn listing_events map].
        repeat split; [lia| |lia].
        intros H. unfold never_no_results in H. fold page_url in H.
        rewrite (H _ _ _ Hr) in Hc. discriminate.
      * apply Hstep.
    + apply Hstep.
Qed.

(** The detail loop visits every job once, and returns only records that
    its extraction built. *)
Lemma jobs_loop_log (P : JobRecord -> Prop) :
  (forall job soup r, Timejobs_scraper.job_record job soup = Ok r -> P r) ->
  forall all_jobs jobs_data d,
    Forall P jobs_data ->
    exists recs d',
      Timejobs_scraper.jobs_loop all_jobs jobs_data d = (Ok recs, d')
      /\ log d' = log d ++ detail_events all_jobs
      /\ Forall P recs.
Proof.
  intros HP. induction all_jobs as [|job rest IH]; intros data d Hd;
    cbn [Timejobs_scraper.jobs_loop].
  - exists data, d. cbn. rewrite app_nil_r. auto.
  - unfold Timejobs_scraper.job_body, bind, request, lift.
    cbn [site requests log].
    set (d1 := mkDriver (site d) (S (requests d))
                        (log d ++ [VisitDetail (url job)])).
    assert (Hstep : forall data', Forall P data' ->
               exists recs d',
                 Timejobs_scraper.jobs_loop rest data' d1 = (Ok recs, d')
                 /\ log d' = log d ++ detail_events (job :: rest)
                 /\ Forall P recs).
    { intros data' Hd'. destruct (IH data' d1 Hd') as [recs [d' [E [Hl HF]]]].
      exists recs, d'. repeat split; [exact E| |exact HF].
      rewrite Hl. subst d1. cbn [log detail_events map].
      rewrite <- app_assoc. reflexivity. }
    destruct (site d (requests d) (url job)) as [soup|e].
    + destruct (Timejobs_scraper.job_record job soup) as [r|e] eqn:Er.
      * apply Hstep. apply Forall_app. split; [exact Hd|].
        constructor; [|constructor]. eapply HP, Er.
      * apply Hstep, Hd.
    + apply Hstep, Hd.
Qed.

End TimesJobsTrace.

Section TimesJobsOutcome.

Lemma job_record_fully_keyed (job : JobStub) (soup : Bs4.Soup)
  (r : JobRecord) :
  Timejobs_scraper.job_record job soup = Ok r -> fully_keyed r.
Proof.
  unfold Timejobs_scraper.job_record.
  repeat match goal with
         | |- context [rbind ?x _] =>
             destruct x; cbn [rbind]; [|discriminate]
         end.
  intros H. injection H as <-. reflexivity.
Qed.

(** The outer [try] body, by what the first page answers. *)
Lemma crawl_cases (keyword location : option string)
  (max_pages experience : option Z) (d : Driver) :
  let url1 := Timejobs_scraper.build_timesjobs_url keyword location
                experience 1 in
  let d1 := mkDriver (site d) (S (requests d))
                     (log d ++ [LoadListing 1 url1]) in
  Timejobs_scraper.crawl keyword location experience max_pages d
  = match site d (requests d) url1 with
    | Failed e => (Raise e, d1)
    | Rendered soup =>
        if Timejobs_scraper.check_for_no_results soup then (Ok [], d1)
        else
          match Timejobs_scraper.collect_links keyword location experience
                  max_pages soup d1 with
          | (Ok all_jobs, d2) =>
              if length all_jobs =? 0 then (Ok [], d2)
              else Timejobs_scraper.jobs_loop all_jobs [] d2
          | (Raise e, d2) => (Raise e, d2)
          end
    end.
Proof.
  intros url1 d1.
  unfold Timejobs_scraper.crawl, bind at 1, Timejobs_scraper.load_page,
    request.
  fold url1. fold d1.
  destruct (site d (requests d) url1) as [soup|e]; [|reflexivity].
  destruct (Timejobs_scraper.check_for_no_results soup); [reflexivity|].
  unfold bind.
  destruct (Timejobs_scraper.collect_links keyword location experience
              max_pages soup d1) as [[all_jobs|e] d2]; [|reflexivity].
  destruct (length all_jobs =? 0); reflexivity.
Qed.

(** Everything a started TimesJobs crawl can do, by what the first page
    answers: it returns a list on every path and releases the session
    last. *)
Lemma scrape_all_jobs_outcome (w : World) (keyword location : option string)
  (max_pages experience : option Z) :
  chrome w = None ->
  let url_of := Timejobs_scraper.build_timesjobs_url keyword location
                  experience in
  let out := Timejobs_scraper.scrape_all_jobs w keyword location max_pages
               experience in
  match web w 0 (url_of 1%Z) with
  | Failed _ => out = (Ok [], [LoadListing 1 (url_of 1%Z); Quit])
  | Rendered soup =>
      if Timejobs_scraper.check_for_no_results soup
      then out = (Ok [], [LoadListing 1 (url_of 1%Z); Quit])
      else
        exists total j jobs recs,
          Timejobs_scraper.get_total_pages soup = Ok total
          /\ (1 <= total)%Z
          /\ j <= length (py_range 1 (Timejobs_scraper.capped_total
                                        max_pages total + 1))
          /\ out = (Ok recs,
                    LoadListing 1 (url_of 1%Z)
                    :: listing_events url_of
                         (firstn j (py_range 1
                                      (Timejobs_scraper.capped_total
                                         max_pages total + 1)))
                    ++ detail_events jobs ++ [Quit])
          /\ Forall fully_keyed recs
          /\ (never_no_results keyword location experience (web w) ->
              j = length (py_range 1 (Timejobs_scraper.capped_total
                                        max_pages total + 1)))
          /\ (py_range 1 (Timejobs_scraper.capped_total max_pages total + 1)
              <> [] -> 1 <= j)
  end.
Proof.
  intros Hc url_of out. subst out.
  rewrite scrape_all_jobs_started by assumption.
  unfold finally, catch. rewrite crawl_cases.
  cbn [site requests log]. fold (url_of 1%Z).
  destruct (web w 0 (url_of 1%Z)) as [soup|e]; [|reflexivity].
  destruct (Timejobs_scraper.check_for_no_results soup); [reflexivity|].
  destruct (get_total_pages_ok soup) as [total [Ht Hge]].
  unfold Timejobs_scraper.collect_links, bind, lift. rewrite Ht.
  set (pages := py_range 1 (Timejobs_scraper.capped_total max_pages total + 1)).
  set (d1 := mkDriver (web w) 1 ([] ++ [LoadListing 1 (url_of 1%Z)])).
  destruct (page_loop_log keyword location experience pages [] d1)
    as [jobs [d2 [j [E [Hj [Hs [Hl [Hn Hpos]]]]]]]].
  rewrite E. exists total, j.
  destruct jobs as [|job jobs]; cbn [length Nat.eqb].
  - exists [], []. unfold ret, quit. cbn [log].
    repeat split; try assumption; [|constructor].
    rewrite Hl. subst d1. cbn [log app detail_events map]. reflexivity.
  - destruct (jobs_loop_log fully_keyed job_record_fully_keyed
                (job :: jobs) [] d2 (Forall_nil _))
      as [recs [d3 [E3 [Hl3 HF]]]].
    rewrite E3. exists (job :: jobs), recs. unfold quit. cbn [log].
    repeat split; try assumption.
    rewrite Hl3, Hl. subst d1. cbn [log app].
    rewrite <- !app_assoc. reflexivity.
Qed.

End TimesJobsOutcome.

(* ------------------------------------------------------------------ *)
(** ** Reading a log *)

Section Logs.

Lemma listing_pages_app (a b : list Event) :
  listing_pages (a ++ b) = listing_pages a ++ listing_pages b.
Proof.
  induction a as [|[p u|u|] a IH]; cbn [app listing_pages];
    rewrite ?IH; reflexivity.
Qed.


Lemma listing_pages_listing (url_of : Z -> string) (pages : list Z) :
  listing_pages (listing_events url_of pages) = pages.
Proof.
  unfold listing_events.
  induction pages as [|p pages IH]; cbn [map listing_pages];
    [|rewrite IH]; reflexivity.
Qed.

Lemma listing_pages_detail (jobs : list JobStub) :
  listing_pages (detail_events jobs) = [].
Proof.
  unfold detail_events.
  induction jobs as [|j jobs IH]; cbn [map listing_pages]; [reflexivity|exact IH].
Qed.



Lemma py_range_length (lo hi : Z) :
  length (py_range lo hi) = Z.to_nat (hi - lo).
Proof. unfold py_range. rewrite length_map, length_seq. reflexivity. Qed.

Lemma seq_prefix (j : nat) :
  forall start len, j <= len -> firstn j (seq start len) = seq start j.
Proof.
  induction j as [|j IH]; intros start len H; [reflexivity|].
  destruct len as [|len]; [lia|].
  cbn [seq firstn]. rewrite IH by lia. reflexivity.
Qed.

(** A prefix of [range(1, n + 1)] is [range(1, j + 1)]. *)
Lemma py_range_firstn (j : nat) (n : Z) :
  j <= length (py_range 1 (n + 1)) ->
  firstn j (py_range 1 (n + 1)) = py_range 1 (Z.of_nat j + 1).
Proof.
  rewrite py_range_length. intros H. unfold py_range.
  rewrite firstn_map, seq_prefix by exact H.
  replace (Z.to_nat (Z.of_nat j + 1 - 1)) with j by lia.
  reflexivity.
Qed.

Lemma capped_total_positive (k total : Z) :
  (0 < k)%Z -> Timejobs_scraper.capped_total (Some k) total = Z.min k total.
Proof.
  intros H. unfold Timejobs_scraper.capped_total, truthy_int.
  destruct (Z.eqb_spec k 0); [lia|]. cbn [negb andb].
  destruct (Z.ltb_spec k total); lia.
Qed.

Lemma scan_buttons_no_page_button (buttons : list Bs4.Loc) :
  (forall b n, In b buttons ->
               PyStr.isdigit (Bs4.get_text_strip b) = true ->
               py_int (Bs4.get_text_strip b) = Ok n ->
               (n <= 1)%Z) ->
  match Timejobs_scraper.scan_buttons buttons 1%Z with
  | Ok t => t = 1%Z
  | Raise _ => True
  end.
Proof.
  induction buttons as [|b rest IH]; intros H;
    cbn [Timejobs_scraper.scan_buttons]; [reflexivity|].
  assert (Hrest : match Timejobs_scraper.scan_buttons rest 1%Z with
                  | Ok t => t = 1%Z
                  | Raise _ => True
                  end).
  { apply IH. intros b' n Hin. apply H. right. exact Hin. }
  destruct (PyStr.isdigit (Bs4.get_text_strip b)) eqn:Hd;
    [|exact Hrest].
  destruct (py_int (Bs4.get_text_strip b)) as [n|e] eqn:Hi;
    cbn [rbind]; [|exact I].
  assert (n <= 1)%Z by (apply (H b n); [left; reflexivity|exact Hd|exact Hi]).
  destruct (Z.ltb_spec 1 n); [lia|exact Hrest].
Qed.

Lemma get_total_pages_default (soup : Bs4.Soup) (total : Z) :
  no_page_button soup ->
  Timejobs_scraper.get_total_pages soup = Ok total ->
  total = 1%Z.
Proof.
  unfold no_page_button, Timejobs_scraper.get_total_pages, try_except.
  intros H. apply scan_buttons_no_page_button in H.
  destruct (Timejobs_scraper.scan_buttons _ 1%Z) as [t|e]; intros E;
    injection E as <-; [exact H|reflexivity].
Qed.

End Logs.

(* ------------------------------------------------------------------ *)
(** ** The walk, page by page *)

Section WalkPages.

Variables (keyword location : option string) (experience : option Z).

Lemma page_loop_pass_eq (pages : list Z) :
  forall (all_jobs : list JobStub) (d : Driver),
    Timejobs_scraper.page_loop keyword location experience pages all_jobs d
    = (Ok (all_jobs
           ++ timesjobs_walk keyword location experience (site d)
                (requests d) pages),
       mkDriver (site d)
         (requests d
          + timesjobs_pages_loaded keyword location experience (site d)
              (requests d) pages)
         (log d
          ++ listing_events
               (Timejobs_scraper.build_timesjobs_url keyword location
                  experience)
               (firstn (timesjobs_pages_loaded keyword location experience
                          (site d) (requests d) pages) pages))).
Proof.
  induction pages as [|p rest IH]; intros all_jobs d;
    cbn [Timejobs_scraper.page_loop timesjobs_walk timesjobs_pages_loaded].
  - cbn [firstn listing_events map]. rewrite !app_nil_r, Nat.add_0_r.
    destruct d; reflexivity.
  - rewrite page_body_cases.
    destruct (site d (requests d)
                (Timejobs_scraper.build_timesjobs_url keyword location
                   experience p)) as [soup|e].
    + destruct (Timejobs_scraper.check_for_no_results soup).
      * cbn [firstn listing_events map]. rewrite app_nil_r, Nat.add_1_r.
        reflexivity.
      * rewrite IH. cbn [site requests log firstn listing_events map].
        rewrite <- !app_assoc, Nat.add_succ_r. reflexivity.
    + rewrite IH. cbn [site requests log firstn listing_events map].
      rewrite <- !app_assoc, Nat.add_succ_r. reflexivity.
Qed.


Variable site : nat -> string -> Response.

Let loaded_from (n : nat) (pages : list Z) : nat :=
  timesjobs_pages_loaded keyword location experience site n pages.

Let stops (p : Z) : bool :=
  walk_page_shows_no_results keyword location experience site p.

(** The pages [s + 1], ..., [s + len]. *)
Let pages_from (s len : nat) : list Z :=
  map (fun i => (1 + Z.of_nat i)%Z) (seq s len).

Lemma pages_loaded_le (pages : list Z) :
  forall n, loaded_from n pages <= length pages
            /\ (pages <> [] -> 1 <= loaded_from n pages).
Proof.
  unfold loaded_from.
  induction pages as [|p rest IH]; intros n;
    cbn [timesjobs_pages_loaded length].
  - split; [lia|intros H; contradiction].
  - destruct (IH (S n)) as [Hle _].
    destruct (site n _) as [soup|e];
      [destruct (Timejobs_scraper.check_for_no_results soup)|];
      split; intros; lia.
Qed.

Lemma stops_at_request (i : nat) :
  stops (1 + Z.of_nat i)
  = match site (S i)
            (Timejobs_scraper.build_timesjobs_url keyword location
               experience (1 + Z.of_nat i)) with
    | Rendered soup => Timejobs_scraper.check_for_no_results soup
    | Failed _ => false
    end.
Proof.
  unfold stops, walk_page_shows_no_results.
  replace (Z.to_nat (1 + Z.of_nat i)) with (S i) by lia. reflexivity.
Qed.

(** When none of the pages before the last shows a no-results phrase, all
    the pages are loaded. *)
Lemma pages_loaded_all (len : nat) :
  forall s,
    (forall i, s <= i -> S i < s + len -> stops (1 + Z.of_nat i) = false) ->
    loaded_from (S s) (pages_from s len) = len.
Proof.
  unfold loaded_from, pages_from.
  induction len as [|len IH]; intros s H; [reflexivity|].
  cbn [seq map timesjobs_pages_loaded].
  assert (Hrest : timesjobs_pages_loaded keyword location experience site
                    (S (S s)) (map (fun i => (1 + Z.of_nat i)%Z)
                                   (seq (S s) len)) = len).
  { apply IH. intros i Hi Hlt. apply H; lia. }
  pose proof (stops_at_request s) as Hs.
  destruct (site (S s) _) as [soup|e]; [|rewrite Hrest; reflexivity].
  destruct (Timejobs_scraper.check_for_no_results soup);
    [|rewrite Hrest; reflexivity].
  destruct len as [|len]; [reflexivity|].
  rewrite H in Hs by lia. discriminate.
Qed.

(** The walk ends with the first page that shows a no-results phrase. *)
Lemma pages_loaded_first (len : nat) :
  forall s i0,
    s <= i0 < s + len ->
    stops (1 + Z.of_nat i0) = true ->
    (forall i, s <= i < i0 -> stops (1 + Z.of_nat i) = false) ->
    loaded_from (S s) (pages_from s len) = S (i0 - s).
Proof.
  unfold loaded_from, pages_from.
  induction len as [|len IH]; intros s i0 Hi0 Hstop Hbefore; [lia|].
  cbn [seq map timesjobs_pages_loaded].
  pose proof (stops_at_request s) as Hs.
  destruct (Nat.eq_dec i0 s) as [->|Hne].
  - rewrite Hstop in Hs.
    destruct (site (S s) _) as [soup|e]; [|discriminate].
    rewrite <- Hs, Nat.sub_diag. reflexivity.
  - rewrite Hbefore in Hs by lia.
    assert (Hrest : timesjobs_pages_loaded keyword location experience site
                      (S (S s)) (map (fun i => (1 + Z.of_nat i)%Z)
                                     (seq (S s) len)) = S (i0 - S s)).
    { apply IH; [lia|exact Hstop|]. intros i Hi. apply Hbefore. lia. }
    replace (S (i0 - s)) with (S (S (i0 - S s))) by lia.
    destruct (site (S s) _) as [soup|e]; [|rewrite Hrest; reflexivity].
    rewrite <- Hs, Hrest. reflexivity.
Qed.

End WalkPages.

(** The listing pages that a started crawl loads once its first page is
    accepted: page 1, then the pages of the walk that are loaded. *)
Lemma scrape_all_jobs_listing_pages (w : World)
  (keyword location : option string) (max_pages experience : option Z)
  (soup : Bs4.Soup) (total : Z) :
  chrome w = None ->
  web w 0 (Timejobs_scraper.build_timesjobs_url keyword location experience 1)
    = Rendered soup ->
  Timejobs_scraper.check_for_no_results soup = false ->
  Timejobs_scraper.get_total_pages soup = Ok total ->
  let pages := py_range 1 (Timejobs_scraper.capped_total max_pages total + 1) in
  listing_pages
    (snd (Timejobs_scraper.scrape_all_jobs w keyword location max_pages
            experience))
  = 1%Z :: firstn (timesjobs_pages_loaded keyword location experience
                     (web w) 1 pages) pages.
Proof.
  intros Hc Hw Hn Ht pages.
  rewrite scrape_all_jobs_started by assumption.
  unfold finally, catch. rewrite crawl_cases. cbn [site requests log].
  rewrite Hw, Hn.
  unfold Timejobs_scraper.collect_links, bind, lift. rewrite Ht.
  fold pages. rewrite page_loop_pass_eq. cbn [site requests log app].
  match goal with
  | |- context [length ?l =? 0] => destruct l as [|job rest]
  end; cbn [length Nat.eqb].
  - unfold ret, quit. cbn [snd log].
    rewrite listing_pages_app. cbn [listing_pages].
    rewrite listing_pages_listing, app_nil_r. reflexivity.
  - match goal with
    | |- context [Timejobs_scraper.jobs_loop ?js [] ?d] =>
        destruct (jobs_loop_log (fun _ => True) (fun _ _ _ _ => I) js [] d
                    (Forall_nil _)) as [recs [d3 [E3 [Hl3 _]]]]
    end.
    rewrite E3. unfold quit. cbn [snd log]. rewrite Hl3. cbn [log].
    rewrite !listing_pages_app. cbn [listing_pages].
    rewrite listing_pages_listing, listing_pages_detail, !app_nil_r.
    reflexivity.
Qed.

(* ------------------------------------------------------------------ *)
(** ** The page cap *)

(** C4 (as amended): take a call of [scrape_all_jobs] with [max_pages = k],
    [k] positive, whose session starts and whose first page renders, shows
    no no-results phrase and lets [get_total_pages] detect [total] pages.
    The listing pages it loads are page 1 (to detect the total) and then
    the pages 1, 2, ..., j of the walk, for some j from 1 to the smaller of
    [k] and [total]: at most [k] distinct pages, and never more than the
    detected total.  When none of the walked pages before the last shows a
    no-results phrase, the walk covers exactly the pages 1 to the smaller
    of [k] and [total], so exactly [total] pages when [k >= total];
    otherwise the walk ends with the first walked page that shows one.
    And a first page without a numeric pagination button above 1 gives
    [total = 1]. *)
Theorem timesjobs_page_cap
  (w : World) (keyword location : option string) (experience : option Z)
  (k : Z) (soup : Bs4.Soup) (total : Z) :
  chrome w = None ->
  web w 0 (Timejobs_scraper.build_timesjobs_url keyword location experience 1)
    = Rendered soup ->
  Timejobs_scraper.check_for_no_results soup = false ->
  Timejobs_scraper.get_total_pages soup = Ok total ->
  (0 < k)%Z ->
  let visited :=
    listing_pages
      (snd (Timejobs_scraper.scrape_all_jobs w keyword location (Some k)
              experience)) in
  let stops :=
    walk_page_shows_no_results keyword location experience (web w) in
  (exists j, (1 <= j <= Z.min k total)%Z
             /\ visited = 1%Z :: py_range 1 (j + 1))
  /\ ((forall p, (1 <= p < Z.min k total)%Z -> stops p = false) ->
      visited = 1%Z :: py_range 1 (Z.min k total + 1))
  /\ (forall p, (1 <= p <= Z.min k total)%Z ->
                stops p = true ->
                (forall q, (1 <= q < p)%Z -> stops q = false) ->
                visited = 1%Z :: py_range 1 (p + 1))
  /\ (no_page_button soup -> total = 1%Z).
Proof.
  intros Hc Hw Hn Ht Hk visited stops.
  assert (Hge : (1 <= total)%Z).
  { destruct (get_total_pages_ok soup) as [t [Ht' Hge]].
    rewrite Ht in Ht'. injection Ht' as <-. exact Hge. }
  pose proof (scrape_all_jobs_listing_pages w keyword location (Some k)
                experience soup total Hc Hw Hn Ht) as Hv.
  cbv zeta in Hv. fold visited in Hv.
  rewrite capped_total_positive in Hv by assumption.
  set (m := Z.min k total) in *.
  set (pages := py_range 1 (m + 1)) in *.
  set (loaded := timesjobs_pages_loaded keyword location experience (web w)
                   1 pages) in *.
  assert (Hpages : pages = map (fun i => (1 + Z.of_nat i)%Z)
                               (seq 0 (Z.to_nat m))).
  { subst pages. unfold py_range. do 2 f_equal. lia. }
  assert (Hlen : length pages = Z.to_nat m).
  { subst pages. rewrite py_range_length. lia. }
  assert (Hcut : forall j, j <= Z.to_nat m ->
                           firstn j pages = py_range 1 (Z.of_nat j + 1)).
  { intros j Hj. subst pages. apply py_range_firstn.
    rewrite py_range_length. lia. }
  destruct (pages_loaded_le keyword location experience (web w) pages 1)
    as [Hle Hpos].
  fold loaded in Hle, Hpos. rewrite Hlen in Hle.
  assert (Hone : 1 <= loaded).
  { apply Hpos. intros E. rewrite E in Hlen. cbn in Hlen. lia. }
  split; [|split; [|split]].
  - exists (Z.of_nat loaded). split; [lia|].
    rewrite Hv, Hcut by exact Hle. reflexivity.
  - intros Hnone.
    assert (E : loaded = Z.to_nat m).
    { subst loaded. rewrite Hpages. apply pages_loaded_all.
      intros i _ Hi. apply Hnone. lia. }
    rewrite Hv, E, <- Hlen, firstn_all. reflexivity.
  - intros p Hp Hstop Hbefore.
    assert (E : loaded = S (Z.to_nat (p - 1) - 0)).
    { subst loaded. rewrite Hpages. apply pages_loaded_first.
      - lia.
      - replace (1 + Z.of_nat (Z.to_nat (p - 1)))%Z with p by lia.
        exact Hstop.
      - intros i Hi. apply Hbefore. lia. }
    rewrite Hv, Hcut by exact Hle. rewrite E. do 2 f_equal. lia.
  - intros Hb. eapply get_total_pages_default; eassumption.
Qed.

Lemma timesjobs_page_cap_witness :
  listing_pages
    (snd (Timejobs_scraper.scrape_all_jobs
            MoreFixtures.tj_world_fourth_page_empty
            (Some "Python") (Some "Pune") (Some 5%Z) None))
  = [1%Z; 1%Z; 2%Z; 3%Z].
Proof.
  destruct (timesjobs_page_cap MoreFixtures.tj_world_fourth_page_empty
              (Some "Python") (Some "Pune") None 5%Z
              Fixtures.tj_page_of_three 3%Z) as [_ [H _]].
  - reflexivity.
  - vm_compute. reflexivity.
  - vm_compute. reflexivity.
  - vm_compute. reflexivity.
  - lia.
  - apply H. intros p Hp.
    assert (Hcases : p = 1%Z \/ p = 2%Z) by lia.
    destruct Hcases as [-> | ->]; vm_compute; reflexivity.
Defined.

(** In the world of three full pages no listing page shows a no-results
    phrase. *)
Lemma three_pages_never_no_results :
  never_no_results (Some "Python") (Some "Pune") None
    (web Fixtures.tj_world_three_pages).
Proof.
  intros n p soup H. cbn [web Fixtures.tj_world_three_pages] in H.
  repeat match type of H with
         | (if ?c then _ else _) = _ => destruct c
         end;
    injection H as <-; vm_compute; reflexivity.
Qed.

(** C4 fails as stated.  With a cap of 5 on a first page that announces
    three pages, the walk stops at page 2 when that page shows a
    no-results phrase: the pages loaded are 1, 1 and 2, and page 3 is never
    visited. *)
Lemma timesjobs_walk_ends_before_detected_total :
  Timejobs_scraper.get_total_pages Fixtures.tj_page_of_three = Ok 3%Z
  /\ listing_pages
       (snd (Timejobs_scraper.scrape_all_jobs Fixtures.tj_world_ends_early
               (Some "Python") (Some "Pune") (Some 5%Z) None))
     = [1%Z; 1%Z; 2%Z].
Proof.
  split; vm_compute; reflexivity.
Qed.

(** C9: a page cap of 0 is no cap.  Whatever the world answers,
    [scrape_all_jobs] with [max_pages = 0] returns and does exactly what it
    returns and does with [max_pages = None]; the cap leaves every detected
    total as it is; and once the first page is accepted the walk loads
    page 1 again and goes on over the detected pages, never none of them,
    and all of them when no listing page shows a no-results phrase. *)
Theorem zero_page_cap_is_no_cap :
  (forall (w : World) (keyword location : option string)
          (experience : option Z),
      Timejobs_scraper.scrape_all_jobs w keyword location (Some 0%Z) experience
      = Timejobs_scraper.scrape_all_jobs w keyword location None experience)
  /\ (forall total : Z,
         Timejobs_scraper.capped_total (Some 0%Z) total = total)
  /\ (forall (w : World) (keyword location : option string)
             (experience : option Z) (soup : Bs4.Soup) (total : Z),
         chrome w = None ->
         web w 0 (Timejobs_scraper.build_timesjobs_url keyword location
                    experience 1) = Rendered soup ->
         Timejobs_scraper.check_for_no_results soup = false ->
         Timejobs_scraper.get_total_pages soup = Ok total ->
         exists j,
           (1 <= j <= total)%Z
           /\ listing_pages
                (snd (Timejobs_scraper.scrape_all_jobs w keyword location
                        (Some 0%Z) experience))
              = 1%Z :: py_range 1 (j + 1)
           /\ (never_no_results keyword location experience (web w) ->
               j = total)).
Proof.
  split; [reflexivity|]. split; [reflexivity|].
  intros w keyword location experience soup total Hc Hw Hn Ht.
  pose proof (scrape_all_jobs_outcome w keyword location (Some 0%Z) experience
                Hc) as H.
  cbv zeta in H. rewrite Hw, Hn in H.
  destruct H as [total' [j [jobs [recs [Ht' [Hge [Hj [Hout [_ [Hall Hpos]]]]]]]]]].
  rewrite Ht in Ht'. injection Ht' as <-.
  change (Timejobs_scraper.capped_total (Some 0%Z) total) with total in *.
  rewrite py_range_length in Hj, Hall.
  assert (1 <= j).
  { apply Hpos. intros E. apply (f_equal (@length Z)) in E.
    rewrite py_range_length in E. cbn [length] in E. lia. }
  exists (Z.of_nat j). repeat split; try lia.
  - rewrite Hout. cbn [snd listing_pages].
    rewrite !listing_pages_app, listing_pages_listing, listing_pages_detail.
    cbn [listing_pages app]. rewrite app_nil_r.
    rewrite py_range_firstn by (rewrite py_range_length; exact Hj).
    reflexivity.
  - intros Hnever. specialize (Hall Hnever). lia.
Qed.

Lemma zero_page_cap_is_no_cap_witness :
  exists j,
    listing_pages
      (snd (Timejobs_scraper.scrape_all_jobs Fixtures.tj_world_three_pages
              (Some "Python") (Some "Pune") (Some 0%Z) None))
    = 1%Z :: py_range 1 (j + 1)
    /\ j = 3%Z.
Proof.
  destruct (proj2 (proj2 zero_page_cap_is_no_cap)
              Fixtures.tj_world_three_pages (Some "Python") (Some "Pune") None
              Fixtures.tj_page_of_three 3%Z) as [j [_ [Hv Hj]]].
  - reflexivity.
  - vm_compute. reflexivity.
  - vm_compute. reflexivity.
  - vm_compute. reflexivity.
  - exists j. split; [exact Hv|exact (Hj three_pages_never_no_results)].
Defined.

(* ------------------------------------------------------------------ *)
(** ** What a Talent.com crawl does to the session *)

Section TalentOutcome.

Lemma talent_job_record_fully_keyed (job : JobStub) (soup : Bs4.Soup) :
  fully_keyed (Talent_scraper.job_record job soup).
Proof. reflexivity. Qed.

Lemma talent_jobs_loop_log (jobs_to_visit : list JobStub) :
  forall jobs_data d,
    Forall fully_keyed jobs_data ->
    exists recs d',
      Talent_scraper.jobs_loop jobs_to_visit jobs_data d = (Ok recs, d')
      /\ log d' = log d ++ detail_events jobs_to_visit
      /\ Forall fully_keyed recs.
Proof.
  induction jobs_to_visit as [|job rest IH]; intros data d Hd;
    cbn [Talent_scraper.jobs_loop].
  - exists data, d. cbn. rewrite app_nil_r. auto.
  - unfold Talent_scraper.job_body, bind, request, ret.
    cbn [site requests log].
    set (d1 := mkDriver (site d) (S (requests d))
                        (log d ++ [VisitDetail (url job)])).
    assert (Hstep : forall data', Forall fully_keyed data' ->
               exists recs d',
                 Talent_scraper.jobs_loop rest data' d1 = (Ok recs, d')
                 /\ log d' = log d ++ detail_events (job :: rest)
                 /\ Forall fully_keyed recs).
    { intros data' Hd'. destruct (IH data' d1 Hd') as [recs [d' [E [Hl HF]]]].
      exists recs, d'. repeat split; [exact E| |exact HF].
      rewrite Hl. subst d1. cbn [log detail_events map].
      rewrite <- app_assoc. reflexivity. }
    destruct (site d (requests d) (url job)) as [soup|e].
    + apply Hstep. apply Forall_app. split; [exact Hd|].
      constructor; [apply talent_job_record_fully_keyed|constructor].
    + apply Hstep, Hd.
Qed.

(** Everything a started Talent.com crawl can do, by what the list page
    answers. *)
Lemma scrape_talent_com_outcome (w : World) (location : string)
  (keyword : option string) (radius : option Z) (date_posted : option string)
  (remote promoted : option bool) (job_type company : option string)
  (page : Z) :
  chrome w = None ->
  let list_url := Talent_scraper.build_filter_url location keyword radius
                    date_posted remote promoted job_type company page in
  let out := Talent_scraper.scrape_talent_com w location keyword radius
               date_posted remote promoted job_type company page in
  match web w 0 list_url with
  | Failed _ => out = (Ok [], [LoadListing page list_url; Quit])
  | Rendered soup =>
      exists recs,
        out = (Ok recs,
               LoadListing page list_url
               :: detail_events (Talent_scraper.collect_links soup) ++ [Quit])
        /\ Forall fully_keyed recs
  end.
Proof.
  intros Hc list_url out. subst out.
  unfold Talent_scraper.scrape_talent_com, Talent_scraper.get_driver,
    start_chrome. rewrite Hc. fold list_url.
  unfold finally, catch, Talent_scraper.crawl, bind, request.
  cbn [site requests log].
  destruct (web w 0 list_url) as [soup|e]; [|reflexivity].
  set (d1 := mkDriver (web w) 1 ([] ++ [LoadListing page list_url])).
  destruct (talent_jobs_loop_log (Talent_scraper.collect_links soup) [] d1
              (Forall_nil _)) as [recs [d2 [E [Hl HF]]]].
  rewrite E. exists recs. split; [|exact HF].
  unfold quit. cbn [log]. rewrite Hl. subst d1. cbn [log app].
  reflexivity.
Qed.

End TalentOutcome.

(* ------------------------------------------------------------------ *)
(** ** Errors of the whole crawl and the release of the session *)




(* ------------------------------------------------------------------ *)
(** ** The keys of the returned records *)

(** C7: whatever the world answers, every record of the list that
    [scrape_all_jobs] or [scrape_talent_com] returns carries all sixteen
    keys of the schema (and a call returns no list only when Chrome could
    not be started). *)
Theorem returned_records_are_fully_keyed :
  (forall w keyword location max_pages experience,
      match fst (Timejobs_scraper.scrape_all_jobs w keyword location
                   max_pages experience) with
      | Ok recs => Forall fully_keyed recs
      | Raise e => chrome w = Some e
      end)
  /\ (forall w location keyword radius date_posted remote promoted job_type
             company page,
         match fst (Talent_scraper.scrape_talent_com w location keyword
                      radius date_posted remote promoted job_type company
                      page) with
         | Ok recs => Forall fully_keyed recs
         | Raise e => chrome w = Some e
         end).
Proof.
  split.
  - intros w keyword location max_pages experience.
    destruct (chrome w) as [e|] eqn:Hc.
    + unfold Timejobs_scraper.scrape_all_jobs, Timejobs_scraper.get_driver,
        start_chrome. rewrite Hc. reflexivity.
    + pose proof (scrape_all_jobs_outcome w keyword location max_pages
                    experience Hc) as H.
      cbv zeta in H.
      destruct (web w 0 _) as [soup|e].
      * destruct (Timejobs_scraper.check_for_no_results soup).
        -- rewrite H. constructor.
        -- destruct H as [total [j [jobs [recs [_ [_ [_ [Hout [HF _]]]]]]]]].
           rewrite Hout. exact HF.
      * rewrite H. constructor.
  - intros w location keyword radius date_posted remote promoted job_type
      company page.
    destruct (chrome w) as [e|] eqn:Hc.
    + unfold Talent_scraper.scrape_talent_com, Talent_scraper.get_driver,
        start_chrome. rewrite Hc. reflexivity.
    + pose proof (scrape_talent_com_outcome w location keyword radius
                    date_posted remote promoted job_type company page Hc) as H.
      cbv zeta in H.
      destruct (web w 0 _) as [soup|e].
      * destruct H as [recs [Hout HF]]. rewrite Hout. exact HF.
      * rewrite H. constructor.
Qed.

(* ------------------------------------------------------------------ *)
(** ** The layers of the description *)

Section Description.
Import Bs4.

Lemma blocks_loop_short (blocks : list Loc) (otherwise : result string) :
  (forall b, In b blocks ->
             String.length (get_text_sep_strip b) <= 50) ->
  Timejobs_scraper.blocks_loop blocks otherwise = otherwise.
Proof.
  induction blocks as [|b rest IH]; intros H;
    cbn [Timejobs_scraper.blocks_loop]; [reflexivity|].
  assert (Hs : Timejobs_scraper.long_text (get_text_sep_strip b)
               = false).
  { unfold Timejobs_scraper.long_text.
    assert (Hb := H b (or_introl eq_refl)).
    destruct (Nat.ltb_spec 50 (String.length (get_text_sep_strip b)));
      [lia|apply andb_false_r]. }
  rewrite Hs. apply IH. intros b' Hin. apply H. right. exact Hin.
Qed.

End Description.

(** C8 (as amended): on TimesJobs, take a detail page without a [div]
    whose class contains "rtd-content" and without a class-matched
    fallback block whose text is longer than 50 characters.  If the first
    of its [h2]-[h5] headings, in document order, whose text contains
    "description" (in any case) is followed by at least one sibling tag
    with non-empty text, then [extract_description_from_detail] returns
    the texts of those sibling tags joined by single spaces. *)
Theorem timesjobs_description_from_heading
  (soup : Bs4.Soup) (heading : Bs4.Loc) :
  Bs4.find (fun n => Bs4.named ["div"] n
                     && Bs4.class_contains "rtd-content" n)
           (Bs4.soup_descendants soup) = None ->
  (forall b,
      In b (Timejobs_scraper.possible_blocks (Bs4.soup_descendants soup)) ->
      String.length (Bs4.get_text_sep_strip b) <= 50) ->
  Timejobs_scraper.description_heading (Bs4.soup_descendants soup)
    = Some heading ->
  Timejobs_scraper.sibling_texts heading <> [] ->
  Timejobs_scraper.extract_description_from_detail soup
  = Ok (PyStr.join " " (Timejobs_scraper.sibling_texts heading)).
Proof.
  intros Hrtd Hblocks Hhead Hparts.
  unfold Timejobs_scraper.extract_description_from_detail.
  rewrite Hrtd, blocks_loop_short by exact Hblocks.
  unfold Timejobs_scraper.description_after_heading, try_except.
  rewrite Hhead.
  destruct (Timejobs_scraper.sibling_texts heading) as [|p ps];
    [contradiction|reflexivity].
Qed.

Lemma timesjobs_description_from_heading_witness :
  Timejobs_scraper.extract_description_from_detail
    Fixtures.page_heading_then_text
  = Ok "Build and run crawlers. Remote.".
Proof.
  destruct (Timejobs_scraper.description_heading
              (Bs4.soup_descendants Fixtures.page_heading_then_text))
    as [heading|] eqn:E; [|vm_compute in E; discriminate].
  rewrite (timesjobs_description_from_heading
             Fixtures.page_heading_then_text heading).
  - vm_compute in E. injection E as <-. vm_compute. reflexivity.
  - vm_compute. reflexivity.
  - vm_compute. intros b [].
  - exact E.
  - vm_compute in E. injection E as <-. vm_compute. discriminate.
Defined.

(** The text of a sibling leaves out what stands in a [script] inside
    it. *)
Example sibling_text_skips_script :
  Timejobs_scraper.extract_description_from_detail
    MoreFixtures.page_heading_then_script_paragraph
  = Ok "Build crawlers.".
Proof.
  vm_compute. reflexivity.
Qed.

(** C8 fails as stated.  Talent.com's extractor has no layer that reads
    the siblings of a heading: on a page with a "Job Description" heading
    followed by paragraphs it returns its sentinel.  On TimesJobs only the
    first heading that mentions a description is looked at, so a second
    one followed by text does not help; and text after the heading that
    stands in no tag is not a sibling tag and is not read. *)
Lemma description_heading_layer_misses :
  Talent_scraper.extract_talent_description Fixtures.page_heading_then_text
  = "Description not found."
  /\ Timejobs_scraper.extract_description_from_detail
       Fixtures.page_two_headings = Ok "N/A"
  /\ Timejobs_scraper.extract_description_from_detail
       Fixtures.page_heading_then_bare_text = Ok "N/A".
Proof.
  repeat split; vm_compute; reflexivity.
Qed.

(* ------------------------------------------------------------------ *)
(** ** Parsing the text files *)

Section Parsing.

Lemma partition_once_prefix (sep s : string) :
  String.prefix sep s = true ->
  PyStr.partition_once sep s
  = Some (EmptyString, PyStr.drop (String.length sep) s).
Proof.
  intros H. destruct s; cbn [PyStr.partition_once]; rewrite H; reflexivity.
Qed.

(** A field line never raises: the label it starts with is found by the
    split. *)
Lemma field_line_update (labels : list (string * string)) (line : string)
  (current : JobRecord) :
  Main.field_line labels line current
  = Ok (ParseSpec.field_update labels line current).
Proof.
  induction labels as [|[label key] rest IH];
    cbn [Main.field_line ParseSpec.field_update]; [reflexivity|].
  destruct (PyStr.startswith line label) eqn:Hp; [|exact IH].
  unfold PyStr.split_once. unfold PyStr.startswith in Hp.
  rewrite (partition_once_prefix _ _ Hp). reflexivity.
Qed.

Lemma setitem_keys (k v : string) (d : JobRecord) :
  In k (keys d) -> keys (Main.setitem k v d) = keys d.
Proof.
  unfold keys. induction d as [|[k' v'] d IH]; cbn [map fst Main.setitem];
    intros H; [contradiction|].
  destruct (String.eqb_spec k k') as [->|Hne]; [reflexivity|].
  cbn [map fst]. f_equal. apply IH. destruct H as [H|H]; [congruence|exact H].
Qed.

Lemma setitem_other (k v k0 : string) (d : JobRecord) :
  k0 <> k -> Main.getitem k0 (Main.setitem k v d) = Main.getitem k0 d.
Proof.
  unfold Main.getitem. intros Hne.
  induction d as [|[k' v'] d IH]; cbn [Main.setitem Bs4.assoc].
  - destruct (String.eqb_spec k0 k); [contradiction|reflexivity].
  - destruct (String.eqb_spec k k') as [->|Hk]; cbn [Bs4.assoc].
    + destruct (String.eqb_spec k0 k'); [contradiction|reflexivity].
    + destruct (String.eqb k0 k'); [reflexivity|exact IH].
Qed.

Lemma field_update_well_formed (source line : string)
  (labels : list (string * string)) (r : JobRecord) :
  Forall (fun lk => In (snd lk) ParseSpec.PARSED_KEYS /\ snd lk <> "source")
         labels ->
  ParseSpec.well_formed source r ->
  ParseSpec.well_formed source (ParseSpec.field_update labels line r).
Proof.
  intros HL [Hk Hs]. induction labels as [|[label key] rest IH];
    cbn [ParseSpec.field_update]; [split; assumption|].
  apply Forall_cons_iff in HL. destruct HL as [[Hin Hne] HL]. cbn [snd] in *.
  destruct (PyStr.startswith line label); [|apply IH, HL].
  split.
  - rewrite setitem_keys; [exact Hk|]. rewrite Hk. exact Hin.
  - rewrite setitem_other; [exact Hs|]. intros E. apply Hne. symmetry. exact E.
Qed.

Lemma LABELS_keys :
  Forall (fun lk => In (snd lk) ParseSpec.PARSED_KEYS /\ snd lk <> "source")
         Main.LABELS.
Proof.
  unfold Main.LABELS, ParseSpec.PARSED_KEYS.
  repeat (apply Forall_cons; [split; [cbn; tauto|discriminate]|]).
  apply Forall_nil.
Qed.

Lemma apply_fields_well_formed (source : string) (block : list string) :
  forall r, ParseSpec.well_formed source r ->
            ParseSpec.well_formed source (ParseSpec.apply_fields block r).
Proof.
  unfold ParseSpec.apply_fields.
  induction block as [|line block IH]; intros r Hr; cbn [fold_left];
    [exact Hr|].
  apply IH, field_update_well_formed; [apply LABELS_keys|exact Hr].
Qed.

Lemma record_of_block_well_formed (source : string) (block : list string) :
  ParseSpec.well_formed source (ParseSpec.record_of_block source block).
Proof.
  apply apply_fields_well_formed. split; reflexivity.
Qed.

Lemma well_formed_truthy (source : string) (r : JobRecord) :
  ParseSpec.well_formed source r -> Main.truthy_dict r = true.
Proof.
  intros [Hk _]. destruct r; [discriminate|reflexivity].
Qed.

(** The loop and the final append give the record in progress, filled by
    the lines before the next [Job #] line, and then one record per
    block. *)
Lemma lines_loop_blocks (source : string) (raw_lines : list string) :
  forall jobs current,
    (forall c, current = Some c -> ParseSpec.well_formed source c) ->
    exists st,
      Main.lines_loop source raw_lines jobs current = Ok st
      /\ Main.finish st
         = jobs
           ++ match current with
              | Some c =>
                  [ParseSpec.apply_fields
                     (fst (ParseSpec.split_blocks
                             (map PyStr.rstrip_newline raw_lines))) c]
              | None => []
              end
           ++ map (ParseSpec.record_of_block source)
                (ParseSpec.blocks (map PyStr.rstrip_newline raw_lines)).
Proof.
  unfold ParseSpec.blocks.
  induction raw_lines as [|raw rest IH]; intros jobs current Hwf;
    cbn [Main.lines_loop map ParseSpec.split_blocks].
  - exists (jobs, current). split; [reflexivity|].
    cbn [fst snd map Main.finish ParseSpec.apply_fields fold_left].
    rewrite app_nil_r. destruct current as [c|]; [|rewrite app_nil_r; reflexivity].
    rewrite (well_formed_truthy source c (Hwf c eq_refl)). reflexivity.
  - destruct (ParseSpec.split_blocks (map PyStr.rstrip_newline rest))
      as [pre bs] eqn:Esb. cbn [fst snd] in IH.
    destruct (Main.is_job_line (PyStr.rstrip_newline raw)); cbn [fst snd].
    + assert (Hnew : forall c, Some (Main.new_job source) = Some c ->
                               ParseSpec.well_formed source c).
      { intros c E. injection E as <-. split; reflexivity. }
      destruct current as [c|].
      * rewrite (well_formed_truthy source c (Hwf c eq_refl)).
        destruct (IH (jobs ++ [c]) (Some (Main.new_job source)) Hnew)
          as [st [E Hf]].
        exists st. split; [exact E|]. rewrite Hf.
        cbn [map ParseSpec.apply_fields fold_left app].
        rewrite <- app_assoc. reflexivity.
      * destruct (IH jobs (Some (Main.new_job source)) Hnew) as [st [E Hf]].
        exists st. split; [exact E|]. rewrite Hf. reflexivity.
    + destruct current as [c|].
      * rewrite field_line_update. cbn [rbind].
        assert (Hc' : forall c', Some (ParseSpec.field_update Main.LABELS
                                          (PyStr.rstrip_newline raw) c)
                                 = Some c' ->
                                 ParseSpec.well_formed source c').
        { assert (Hu : ParseSpec.well_formed source
                         (ParseSpec.field_update Main.LABELS
                            (PyStr.rstrip_newline raw) c))
            by (apply field_update_well_formed;
                [apply LABELS_keys|apply Hwf; reflexivity]).
          intros c' E. injection E as <-. exact Hu. }
        destruct (IH jobs _ Hc') as [st [E Hf]].
        exists st. split; [exact E|]. rewrite Hf. reflexivity.
      * assert (Hn : forall c, @None JobRecord = Some c ->
                               ParseSpec.well_formed source c)
          by discriminate.
        destruct (IH jobs None Hn) as [st [E Hf]].
        exists st. split; [exact E|]. rewrite Hf. reflexivity.
Qed.

(** One block per [Job #] line. *)
Lemma blocks_count (lines : list string) :
  length (ParseSpec.blocks lines) = length (filter Main.is_job_line lines).
Proof.
  unfold ParseSpec.blocks.
  induction lines as [|line rest IH]; cbn [ParseSpec.split_blocks filter];
    [reflexivity|].
  destruct (ParseSpec.split_blocks rest) as [pre bs]. cbn [snd] in IH.
  destruct (Main.is_job_line line); cbn [snd length]; rewrite IH; reflexivity.
Qed.

(** Lines before the first [Job #] line leave the state of the loop as it
    is when no record is in progress. *)
Lemma lines_loop_drop_preamble (source : string) (raw_lines : list string) :
  forall jobs,
    Main.lines_loop source raw_lines jobs None
    = Main.lines_loop source (ParseSpec.drop_preamble raw_lines) jobs None.
Proof.
  induction raw_lines as [|raw rest IH]; intros jobs; [reflexivity|].
  cbn [ParseSpec.drop_preamble].
  destruct (Main.is_job_line (PyStr.rstrip_newline raw)) eqn:E;
    [reflexivity|].
  cbn [Main.lines_loop]. rewrite E. apply IH.
Qed.

End Parsing.

(** C10: for every existing file, [parse_jobs_file] returns a list (it
    never raises) with exactly one record per line that begins with
    "Job #".  The record of such a line is the empty record of the source
    (every schema key, the source tag under "source" and the empty string
    under every other key) with the field lines up to the next "Job #" line
    applied to it in order, so the last record is emitted with whatever
    followed it; every record keeps all schema keys and the source tag; and
    the lines before the first "Job #" line change nothing. *)
Theorem parse_jobs_file_one_record_per_job_line (content source : string) :
  let raw_lines := Main.readlines content in
  let lines := map PyStr.rstrip_newline raw_lines in
  exists jobs,
    Main.parse_jobs_file (Some content) source = Ok jobs
    /\ length jobs = length (filter Main.is_job_line lines)
    /\ jobs = map (fun block =>
                     ParseSpec.apply_fields block (Main.new_job source))
                (ParseSpec.blocks lines)
    /\ Forall (fun r => keys r = ParseSpec.PARSED_KEYS
                        /\ Main.getitem "source" r = Some source) jobs
    /\ map snd (Main.new_job source) = source :: repeat "" 15
    /\ incl SCHEMA_KEYS ParseSpec.PARSED_KEYS
    /\ incl ParseSpec.PARSED_KEYS SCHEMA_KEYS
    /\ Main.lines_loop source raw_lines [] None
       = Main.lines_loop source (ParseSpec.drop_preamble raw_lines) [] None.
Proof.
  intros raw_lines lines.
  destruct (lines_loop_blocks source raw_lines [] None) as [st [E Hf]];
    [discriminate|].
  cbn [app] in Hf. fold lines in Hf.
  exists (Main.finish st). unfold Main.parse_jobs_file.
  fold raw_lines. rewrite E. cbn [rbind].
  split; [reflexivity|]. rewrite Hf.
  split; [rewrite length_map; apply blocks_count|].
  split; [reflexivity|].
  split.
  { apply Forall_forall. intros r Hin. apply in_map_iff in Hin.
    destruct Hin as [block [<- _]]. apply record_of_block_well_formed. }
  split; [reflexivity|].
  split; [|split].
  - intros k H. cbn in *. tauto.
  - intros k H. cbn in *. tauto.
  - rewrite <- E. apply lines_loop_drop_preamble.
Qed.

(** The parse of a small file: the stray first line is ignored, and the
    second job, which ends the file, is emitted. *)
Example parse_jobs_file_example :
  Main.parse_jobs_file (Some Fixtures.jobs_file) "TimesJobs"
  = Ok [[("source", "TimesJobs"); ("title", "Dev One"); ("company", "");
         ("experience", ""); ("salary", ""); ("job_function", "");
         ("industry", ""); ("specialization", ""); ("graduate_courses", "");
         ("post_graduate_courses", ""); ("employment_type", "");
         ("job_type", ""); ("gender", "");
         ("url", "https://www.timesjobs.com/job-detail/dev-1");
         ("description", ""); ("skills", "")];
        [("source", "TimesJobs"); ("title", ""); ("company", "");
         ("experience", ""); ("salary", ""); ("job_function", "");
         ("industry", ""); ("specialization", ""); ("graduate_courses", "");
         ("post_graduate_courses", ""); ("employment_type", "");
         ("job_type", ""); ("gender", ""); ("url", "");
         ("description", ""); ("skills", "python, sql")]].
Proof. vm_compute. reflexivity. Qed.

(* ------------------------------------------------------------------ *)
(** * More of the code *)

(** ** The search URLs *)

Section SearchUrls.








End SearchUrls.



(* ------------------------------------------------------------------ *)
(** ** The page count *)

Section PageCount.
Import Bs4.

Lemma scan_buttons_largest (buttons : list Loc) :
  (forall b, In b buttons -> PyStr.isdigit (button_text b) = true ->
             exists n, py_int (button_text b) = Ok n) ->
  forall m, (1 <= m)%Z ->
  exists t,
    Timejobs_scraper.scan_buttons buttons m = Ok t
    /\ (m <= t)%Z
    /\ (forall b n, In b buttons -> PyStr.isdigit (button_text b) = true ->
                    py_int (button_text b) = Ok n -> (n <= t)%Z)
    /\ (t = m \/ exists b, In b buttons
                           /\ PyStr.isdigit (button_text b) = true
                           /\ py_int (button_text b) = Ok t).
Proof.
  induction buttons as [|b rest IH]; intros Hdec m Hm;
    cbn [Timejobs_scraper.scan_buttons].
  - exists m. repeat split; [lia| |left; reflexivity].
    intros b n [].
  - assert (Hrest : forall b', In b' rest ->
                               PyStr.isdigit (button_text b') = true ->
                               exists n, py_int (button_text b') = Ok n).
    { intros b' Hin. apply Hdec. right. exact Hin. }
    fold (button_text b).
    destruct (PyStr.isdigit (button_text b)) eqn:Hd.
    + destruct (Hdec b (or_introl eq_refl) Hd) as [n Hn]. rewrite Hn.
      cbn [rbind].
      destruct (Z.ltb_spec 1 n) as [Hlt|Hle].
      * destruct (IH Hrest (Z.max m n)) as [t [E [Hge [Hall Hex]]]]; [lia|].
        exists t. repeat split; [exact E|lia| |].
        -- intros b' n' [<-|Hin] Hd' Hn'.
           ++ rewrite Hn in Hn'. injection Hn' as <-. lia.
           ++ eapply Hall; eassumption.
        -- destruct Hex as [Ht|[b' [Hin [Hd' Hn']]]].
           ++ destruct (Z.max_spec m n) as [[_ Hmax]|[_ Hmax]];
                rewrite Hmax in Ht.
              ** right. exists b. subst t. repeat split;
                   [left; reflexivity|exact Hd|exact Hn].
              ** left. exact Ht.
           ++ right. exists b'. repeat split; [right; exact Hin|exact Hd'|exact Hn'].
      * destruct (IH Hrest m Hm) as [t [E [Hge [Hall Hex]]]].
        exists t. repeat split; [exact E|exact Hge| |].
        -- intros b' n' [<-|Hin] Hd' Hn'.
           ++ rewrite Hn in Hn'. injection Hn' as <-. lia.
           ++ eapply Hall; eassumption.
        -- destruct Hex as [Ht|[b' [Hin [Hd' Hn']]]]; [left; exact Ht|].
           right. exists b'. repeat split; [right; exact Hin|exact Hd'|exact Hn'].
    + destruct (IH Hrest m Hm) as [t [E [Hge [Hall Hex]]]].
      exists t. repeat split; [exact E|exact Hge| |].
      * intros b' n' [<-|Hin] Hd' Hn'; [congruence|].
        eapply Hall; eassumption.
      * destruct Hex as [Ht|[b' [Hin [Hd' Hn']]]]; [left; exact Ht|].
        right. exists b'. repeat split; [right; exact Hin|exact Hd'|exact Hn'].
Qed.

Lemma scan_buttons_raises (buttons : list Loc) (bad : Loc) (e : Exc) :
  In bad buttons ->
  PyStr.isdigit (button_text bad) = true ->
  py_int (button_text bad) = Raise e ->
  forall m, exists e', Timejobs_scraper.scan_buttons buttons m = Raise e'.
Proof.
  intros Hin Hd He. induction buttons as [|b rest IH]; [contradiction|].
  intros m. cbn [Timejobs_scraper.scan_buttons]. fold (button_text b).
  destruct Hin as [->|Hin].
  - rewrite Hd, He. exists e. reflexivity.
  - specialize (IH Hin).
    destruct (PyStr.isdigit (button_text b)); [|apply IH].
    destruct (py_int (button_text b)) as [n|e1]; cbn [rbind];
      [|exists e1; reflexivity].
    destruct (1 <? n)%Z; apply IH.
Qed.

End PageCount.

(** X3: when [int] converts the text of every button that passes
    [isdigit] (the text is made of decimal digits, at most 4300 of them),
    [get_total_pages] returns the largest page number found on a button,
    and 1 when that is smaller: the result is at least 1, at least the
    number of every numeric button, and is either 1 or the number of one
    of the buttons. *)
Theorem get_total_pages_is_largest_button (soup : Bs4.Soup) :
  (forall b, In b (page_buttons soup) ->
             PyStr.isdigit (button_text b) = true ->
             exists n, py_int (button_text b) = Ok n) ->
  exists t,
    Timejobs_scraper.get_total_pages soup = Ok t
    /\ (1 <= t)%Z
    /\ (forall b n, In b (page_buttons soup) ->
                    PyStr.isdigit (button_text b) = true ->
                    py_int (button_text b) = Ok n -> (n <= t)%Z)
    /\ (t = 1%Z \/ exists b, In b (page_buttons soup)
                             /\ PyStr.isdigit (button_text b) = true
                             /\ py_int (button_text b) = Ok t).
Proof.
  intros Hdec.
  destruct (scan_buttons_largest (page_buttons soup) Hdec 1%Z)
    as [t [E H]]; [lia|].
  exists t. unfold Timejobs_scraper.get_total_pages, try_except.
  fold (page_buttons soup). rewrite E. split; [reflexivity|exact H].
Qed.

Lemma get_total_pages_is_largest_button_witness :
  Timejobs_scraper.get_total_pages Fixtures.tj_page_of_three = Ok 3%Z.
Proof.
  destruct (get_total_pages_is_largest_button Fixtures.tj_page_of_three)
    as [t [E _]].
  - intros b Hin _. vm_compute in Hin.
    destruct Hin as [<-|[<-|[<-|[]]]]; eexists; vm_compute; reflexivity.
  - rewrite E. vm_compute in E. symmetry. exact E.
Defined.

(** A number of more than 4300 digits on a button: [int] refuses it, and
    the page count falls back to 1 although another button says 7. *)
Example get_total_pages_falls_back_on_long_number :
  py_int (MoreFixtures.sevens 4300) <> Raise ValueError
  /\ py_int (MoreFixtures.sevens 4301) = Raise ValueError
  /\ Timejobs_scraper.get_total_pages MoreFixtures.tj_page_long_number
     = Ok 1%Z.
Proof.
  split; [|split; vm_compute; reflexivity].
  unfold py_int.
  replace (PyStr.nonempty (MoreFixtures.sevens 4300)
           && PyStr.forall_c PyStr.decimal_c (MoreFixtures.sevens 4300)
           && (String.length (MoreFixtures.sevens 4300)
               <=? int_max_str_digits)) with true
    by (vm_compute; reflexivity).
  discriminate.
Qed.

(** X4: a button whose text passes [isdigit] but is not a decimal number
    (a superscript digit) makes [int] raise inside [get_total_pages]; the
    handler then answers 1, whatever the other buttons say. *)
Theorem get_total_pages_falls_back_on_bad_digit
  (soup : Bs4.Soup) (bad : Bs4.Loc) (e : Exc) :
  In bad (page_buttons soup) ->
  PyStr.isdigit (button_text bad) = true ->
  py_int (button_text bad) = Raise e ->
  Timejobs_scraper.get_total_pages soup = Ok 1%Z.
Proof.
  intros Hin Hd He.
  unfold Timejobs_scraper.get_total_pages, try_except.
  fold (page_buttons soup).
  destruct (scan_buttons_raises (page_buttons soup) bad e Hin Hd He 1%Z)
    as [e' E].
  rewrite E. reflexivity.
Qed.

Lemma get_total_pages_falls_back_on_bad_digit_witness :
  Timejobs_scraper.get_total_pages MoreFixtures.tj_page_superscript_button
  = Ok 1%Z.
Proof.
  apply (get_total_pages_falls_back_on_bad_digit
           MoreFixtures.tj_page_superscript_button
           (Bs4.mkLoc (Fixtures.button (String (ascii_of_nat 178) EmptyString))
                      [] [])
           ValueError).
  - vm_compute. right. right. left. reflexivity.
  - vm_compute. reflexivity.
  - vm_compute. reflexivity.
Defined.

(* ------------------------------------------------------------------ *)
(** ** The two loops of a TimesJobs crawl *)

Section LoopEquations.

Lemma page_loop_walk_eq (keyword location : option string)
  (experience : option Z) (pages : list Z) :
  forall (all_jobs : list JobStub) (d : Driver),
    fst (Timejobs_scraper.page_loop keyword location experience pages
           all_jobs d)
    = Ok (all_jobs
          ++ timesjobs_walk keyword location experience (site d)
               (requests d) pages).
Proof.
  induction pages as [|p rest IH]; intros all_jobs d;
    cbn [Timejobs_scraper.page_loop timesjobs_walk].
  - cbn. rewrite app_nil_r. reflexivity.
  - rewrite page_body_cases.
    destruct (site d (requests d)
                (Timejobs_scraper.build_timesjobs_url keyword location
                   experience p)) as [soup|e].
    + destruct (Timejobs_scraper.check_for_no_results soup).
      * cbn [fst]. rewrite app_nil_r. reflexivity.
      * rewrite IH. cbn [site requests]. rewrite <- app_assoc. reflexivity.
    + rewrite IH. reflexivity.
Qed.

Lemma jobs_loop_pass_eq (all_jobs : list JobStub) :
  forall (jobs_data : list JobRecord) (d : Driver),
    Timejobs_scraper.jobs_loop all_jobs jobs_data d
    = (Ok (jobs_data
           ++ timesjobs_detail_pass (site d) (requests d) all_jobs),
       mkDriver (site d) (requests d + length all_jobs)
                (log d ++ detail_events all_jobs)).
Proof.
  induction all_jobs as [|job rest IH]; intros data d;
    cbn [Timejobs_scraper.jobs_loop timesjobs_detail_pass length
         detail_events map].
  - rewrite !app_nil_r, Nat.add_0_r. destruct d; reflexivity.
  - unfold Timejobs_scraper.job_body, bind, request, lift,
      timesjobs_job_outcome.
    cbn [site requests log].
    assert (Hstep : forall data',
               Timejobs_scraper.jobs_loop rest data'
                 (mkDriver (site d) (S (requests d))
                           (log d ++ [VisitDetail (url job)]))
               = (Ok (data'
                      ++ timesjobs_detail_pass (site d) (S (requests d)) rest),
                  mkDriver (site d) (requests d + S (length rest))
                           (log d ++ VisitDetail (url job)
                                     :: detail_events rest))).
    { intros data'. rewrite IH. cbn [site requests log].
      rewrite <- app_assoc, Nat.add_succ_r. reflexivity. }
    destruct (site d (requests d) (url job)) as [soup|e].
    + destruct (Timejobs_scraper.job_record job soup) as [r|e].
      * rewrite Hstep, <- app_assoc. reflexivity.
      * rewrite Hstep. reflexivity.
    + rewrite Hstep. reflexivity.
Qed.

Lemma detail_visits_app (a b : list Event) :
  detail_visits (a ++ b) = detail_visits a ++ detail_visits b.
Proof.
  induction a as [|[p u|u|] a IH]; cbn [app detail_visits];
    rewrite ?IH; reflexivity.
Qed.

Lemma detail_visits_listing (url_of : Z -> string) (pages : list Z) :
  detail_visits (listing_events url_of pages) = [].
Proof.
  unfold listing_events.
  induction pages as [|p pages IH]; cbn [map detail_visits];
    [reflexivity|exact IH].
Qed.

Lemma detail_visits_detail (jobs : list JobStub) :
  detail_visits (detail_events jobs) = map url jobs.
Proof.
  unfold detail_events.
  induction jobs as [|j jobs IH]; cbn [map detail_visits];
    [|rewrite IH]; reflexivity.
Qed.

(** A started TimesJobs crawl, as a prefix of listing loads, one detail
    pass over some jobs, and the release. *)
Lemma scrape_all_jobs_by_passes (w : World)
  (keyword location : option string) (max_pages experience : option Z) :
  chrome w = None ->
  exists n jobs evs,
    Timejobs_scraper.scrape_all_jobs w keyword location max_pages experience
    = (Ok (timesjobs_detail_pass (web w) n jobs),
       evs ++ detail_events jobs ++ [Quit])
    /\ detail_visits evs = []
    /\ (forall P : JobStub -> Prop,
           (forall soup,
               Forall P (Timejobs_scraper.extract_jobs_from_page soup
                           Timejobs_scraper.base_url)) ->
           Forall P jobs).
Proof.
  intros Hc. rewrite scrape_all_jobs_started by assumption.
  unfold finally, catch. rewrite crawl_cases. cbn [site requests log].
  set (url1 := Timejobs_scraper.build_timesjobs_url keyword location
                 experience 1).
  destruct (web w 0 url1) as [soup|e].
  - destruct (Timejobs_scraper.check_for_no_results soup).
    + exists 0, [], [LoadListing 1 url1].
      repeat split; intros; constructor.
    + destruct (get_total_pages_ok soup) as [total [Ht _]].
      unfold Timejobs_scraper.collect_links, bind, lift. rewrite Ht.
      match goal with
      | |- context [Timejobs_scraper.page_loop _ _ _ ?ps ?acc ?d0] =>
          destruct (page_loop_log keyword location experience ps acc d0)
            as [jobs [d2 [j [E [_ [Hs [Hl _]]]]]]]
      end.
      assert (HP : forall P : JobStub -> Prop,
                 (forall soup0,
                     Forall P (Timejobs_scraper.extract_jobs_from_page soup0
                                 Timejobs_scraper.base_url)) ->
                 Forall P jobs).
      { intros P HPage.
        match type of E with
        | Timejobs_scraper.page_loop _ _ _ ?ps ?acc ?d0 = _ =>
            destruct (page_loop_Forall keyword location experience P HPage
                        ps acc d0 (Forall_nil _)) as [jobs' [d' [E' HF]]]
        end.
        rewrite E in E'. injection E' as <- _. exact HF. }
      rewrite E. destruct jobs as [|job jobs]; cbn [length Nat.eqb].
      * exists 0, [], (log d2). unfold ret, quit. cbn [log].
        split; [reflexivity|]. split; [|exact HP].
        rewrite Hl. cbn [log app detail_visits]. apply detail_visits_listing.
      * rewrite jobs_loop_pass_eq. unfold quit. cbn [log site requests].
        exists (requests d2), (job :: jobs), (log d2).
        rewrite Hs. cbn [site]. rewrite <- app_assoc.
        split; [reflexivity|]. split; [|exact HP].
        rewrite Hl. cbn [log app detail_visits]. apply detail_visits_listing.
  - exists 0, [], [LoadListing 1 url1].
    repeat split; intros; constructor.
Qed.

Lemma job_record_fields (job : JobStub) (soup : Bs4.Soup) (r : JobRecord) :
  Timejobs_scraper.job_record job soup = Ok r ->
  Main.getitem "source" r = Some "TimesJobs"
  /\ Main.getitem "title" r = Some (title job)
  /\ Main.getitem "url" r = Some (url job).
Proof.
  unfold Timejobs_scraper.job_record.
  repeat match goal with
         | |- context [rbind ?x _] =>
             destruct x; cbn [rbind]; [|discriminate]
         end.
  intros H. injection H as <-. repeat split.
Qed.

Lemma timesjobs_detail_pass_records (site : nat -> string -> Response)
  (jobs : list JobStub) :
  forall n r,
    In r (timesjobs_detail_pass site n jobs) ->
    exists job,
      In job jobs
      /\ Main.getitem "source" r = Some "TimesJobs"
      /\ Main.getitem "title" r = Some (title job)
      /\ Main.getitem "url" r = Some (url job).
Proof.
  induction jobs as [|job rest IH]; intros n r Hin;
    cbn [timesjobs_detail_pass] in Hin; [contradiction|].
  apply in_app_or in Hin. destruct Hin as [Hin|Hin].
  - unfold timesjobs_job_outcome in Hin.
    destruct (site n (url job)) as [soup|e]; [|contradiction].
    destruct (Timejobs_scraper.job_record job soup) as [r'|e] eqn:E;
      [|contradiction].
    destruct Hin as [<-|[]]. exists job.
    split; [left; reflexivity|]. eapply job_record_fields, E.
  - destruct (IH _ _ Hin) as [job' [Hj H]]. exists job'.
    split; [right; exact Hj|exact H].
Qed.

Lemma timesjobs_detail_pass_length (site : nat -> string -> Response)
  (jobs : list JobStub) :
  forall n, length (timesjobs_detail_pass site n jobs) <= length jobs.
Proof.
  induction jobs as [|job rest IH]; intros n;
    cbn [timesjobs_detail_pass length]; [lia|].
  rewrite length_app. specialize (IH (S n)).
  unfold timesjobs_job_outcome.
  destruct (site n (url job)) as [soup|e]; cbn [length]; [|lia].
  destruct (Timejobs_scraper.job_record job soup); cbn [length]; lia.
Qed.

End LoopEquations.

(** X5: the page loop never raises and isolates each page.  From any state
    of the session it returns the stubs it was given followed by the stubs
    of the pages that render, in page order, up to the first page that
    shows a no-results phrase; a page whose load fails contributes nothing
    and the pages after it are still loaded, and nothing of the no-results
    page itself is taken. *)
Theorem page_loop_is_walk (keyword location : option string)
  (experience : option Z) (pages : list Z) (all_jobs : list JobStub)
  (d : Driver) :
  fst (Timejobs_scraper.page_loop keyword location experience pages
         all_jobs d)
  = Ok (all_jobs
        ++ timesjobs_walk keyword location experience (site d)
             (requests d) pages).
Proof. apply page_loop_walk_eq. Qed.

(** X6: the detail loop never raises and isolates each job.  From any
    state of the session it visits every job exactly once, in order, and
    returns the records it was given followed by one record for each job
    whose page rendered and whose extraction succeeded, in job order; a
    job that fails loses only its own record. *)
Theorem jobs_loop_is_detail_pass (all_jobs : list JobStub)
  (jobs_data : list JobRecord) (d : Driver) :
  Timejobs_scraper.jobs_loop all_jobs jobs_data d
  = (Ok (jobs_data
         ++ timesjobs_detail_pass (site d) (requests d) all_jobs),
     mkDriver (site d) (requests d + length all_jobs)
              (log d ++ detail_events all_jobs)).
Proof. apply jobs_loop_pass_eq. Qed.

(** X7: every record that [scrape_all_jobs] returns is tagged "TimesJobs"
    and carries, under "url", the address of a detail page that the crawl
    visited; there are never more records than detail visits.  The call
    raises only when Chrome cannot be started, and has then done nothing. *)
Theorem scrape_all_jobs_records_were_visited (w : World)
  (keyword location : option string) (max_pages experience : option Z) :
  match Timejobs_scraper.scrape_all_jobs w keyword location max_pages
          experience with
  | (Ok recs, evs) =>
      length recs <= length (detail_visits evs)
      /\ Forall (fun r =>
                   Main.getitem "source" r = Some "TimesJobs"
                   /\ exists u, Main.getitem "url" r = Some u
                                /\ In u (detail_visits evs)) recs
  | (Raise e, evs) => chrome w = Some e /\ evs = []
  end.
Proof.
  destruct (chrome w) as [e|] eqn:Hc.
  - unfold Timejobs_scraper.scrape_all_jobs, Timejobs_scraper.get_driver,
      start_chrome. rewrite Hc. split; reflexivity.
  - destruct (scrape_all_jobs_by_passes w keyword location max_pages
                experience Hc) as [n [jobs [evs [E [Hev _]]]]].
    rewrite E.
    rewrite !detail_visits_app, Hev, detail_visits_detail.
    cbn [detail_visits app]. rewrite app_nil_r. split.
    + rewrite length_map. apply timesjobs_detail_pass_length.
    + apply Forall_forall. intros r Hin.
      destruct (timesjobs_detail_pass_records _ _ _ _ Hin)
        as [job [Hj [Hs [_ Hu]]]].
      split; [exact Hs|]. exists (url job). split; [exact Hu|].
      apply in_map. exact Hj.
Qed.

(* ------------------------------------------------------------------ *)
(** ** The whole Talent.com crawl *)

Section TalentPass.

Lemma talent_jobs_loop_pass_eq (jobs_to_visit : list JobStub) :
  forall (jobs_data : list JobRecord) (d : Driver),
    Talent_scraper.jobs_loop jobs_to_visit jobs_data d
    = (Ok (jobs_data
           ++ talent_detail_pass (site d) (requests d) jobs_to_visit),
       mkDriver (site d) (requests d + length jobs_to_visit)
                (log d ++ detail_events jobs_to_visit)).
Proof.
  induction jobs_to_visit as [|job rest IH]; intros data d;
    cbn [Talent_scraper.jobs_loop talent_detail_pass length
         detail_events map].
  - rewrite !app_nil_r, Nat.add_0_r. destruct d; reflexivity.
  - unfold Talent_scraper.job_body, bind, request, ret.
    cbn [site requests log].
    destruct (site d (requests d) (url job)) as [soup|e];
      rewrite IH; cbn [site requests log app];
      rewrite <- !app_assoc, Nat.add_succ_r; reflexivity.
Qed.

End TalentPass.

(** X8: a started Talent.com crawl whose list page renders is one pass:
    it loads the list page, visits the link of every collected card once,
    in card order, releases the session, and returns one record for each
    card whose detail page rendered, in card order; a detail page that
    fails loses only its own record. *)
Theorem scrape_talent_com_is_one_pass (w : World) (location : string)
  (keyword : option string) (radius : option Z) (date_posted : option string)
  (remote promoted : option bool) (job_type company : option string)
  (page : Z) (soup : Bs4.Soup) :
  chrome w = None ->
  web w 0 (Talent_scraper.build_filter_url location keyword radius
             date_posted remote promoted job_type company page)
    = Rendered soup ->
  Talent_scraper.scrape_talent_com w location keyword radius date_posted
    remote promoted job_type company page
  = (Ok (talent_detail_pass (web w) 1 (Talent_scraper.collect_links soup)),
     LoadListing page
       (Talent_scraper.build_filter_url location keyword radius date_posted
          remote promoted job_type company page)
     :: detail_events (Talent_scraper.collect_links soup) ++ [Quit]).
Proof.
  intros Hc Hw.
  unfold Talent_scraper.scrape_talent_com, Talent_scraper.get_driver,
    start_chrome. rewrite Hc.
  unfold finally, catch, Talent_scraper.crawl, bind, request.
  cbn [site requests log]. rewrite Hw.
  rewrite talent_jobs_loop_pass_eq. unfold quit. cbn [site requests log app].
  reflexivity.
Qed.

Lemma scrape_talent_com_is_one_pass_witness :
  Talent_scraper.scrape_talent_com Fixtures.talent_world_no_results
    "Pune" (Some "Python") None None None None None None 1
  = (Ok (talent_detail_pass (web Fixtures.talent_world_no_results) 1
           (Talent_scraper.collect_links Fixtures.talent_no_results)),
     LoadListing 1 Fixtures.talent_list_url
     :: detail_events (Talent_scraper.collect_links Fixtures.talent_no_results)
        ++ [Quit]).
Proof.
  apply (scrape_talent_com_is_one_pass Fixtures.talent_world_no_results
           "Pune" (Some "Python") None None None None None None 1
           Fixtures.talent_no_results).
  - reflexivity.
  - vm_compute. reflexivity.
Defined.

(* ------------------------------------------------------------------ *)
(** ** Unusual page caps *)

(** X9: a negative page cap empties the walk.  When the session starts and
    the first page renders without a no-results phrase, [scrape_all_jobs]
    with a negative [max_pages] loads that first page only, visits no
    detail page and returns the empty list. *)
Theorem negative_page_cap_scrapes_nothing (w : World)
  (keyword location : option string) (experience : option Z) (k : Z)
  (soup : Bs4.Soup) :
  chrome w = None ->
  web w 0 (Timejobs_scraper.build_timesjobs_url keyword location experience 1)
    = Rendered soup ->
  Timejobs_scraper.check_for_no_results soup = false ->
  (k < 0)%Z ->
  Timejobs_scraper.scrape_all_jobs w keyword location (Some k) experience
  = (Ok [],
     [LoadListing 1
        (Timejobs_scraper.build_timesjobs_url keyword location experience 1);
      Quit]).
Proof.
  intros Hc Hw Hn Hk.
  rewrite scrape_all_jobs_started by assumption.
  unfold finally, catch. rewrite crawl_cases. cbn [site requests log].
  rewrite Hw, Hn.
  destruct (get_total_pages_ok soup) as [total [Ht Hge]].
  unfold Timejobs_scraper.collect_links, bind, lift. rewrite Ht.
  assert (Hcap : Timejobs_scraper.capped_total (Some k) total = k).
  { unfold Timejobs_scraper.capped_total, truthy_int.
    destruct (Z.eqb_spec k 0); [lia|]. cbn [negb andb].
    destruct (Z.ltb_spec k total); [reflexivity|lia]. }
  rewrite Hcap.
  assert (Hr : py_range 1 (k + 1) = []).
  { unfold py_range. replace (Z.to_nat (k + 1 - 1)) with 0 by lia.
    reflexivity. }
  rewrite Hr. reflexivity.
Qed.

Lemma negative_page_cap_scrapes_nothing_witness :
  Timejobs_scraper.scrape_all_jobs Fixtures.tj_world_three_pages
    (Some "Python") (Some "Pune") (Some (-1)%Z) None
  = (Ok [], [LoadListing 1 (Fixtures.tj_url 1); Quit]).
Proof.
  apply (negative_page_cap_scrapes_nothing Fixtures.tj_world_three_pages
           (Some "Python") (Some "Pune") None (-1)%Z
           Fixtures.tj_page_of_three).
  - reflexivity.
  - vm_compute. reflexivity.
  - vm_compute. reflexivity.
  - lia.
Defined.

(** X10: the first page is requested twice.  When the session starts, the
    first page renders without a no-results phrase and the cap is absent
    or not negative, the walk begins by loading page 1 again: the listing
    pages of the crawl start with 1, 1. *)
Theorem first_page_is_loaded_twice (w : World)
  (keyword location : option string) (max_pages experience : option Z)
  (soup : Bs4.Soup) :
  chrome w = None ->
  web w 0 (Timejobs_scraper.build_timesjobs_url keyword location experience 1)
    = Rendered soup ->
  Timejobs_scraper.check_for_no_results soup = false ->
  (forall k, max_pages = Some k -> (0 <= k)%Z) ->
  exists rest,
    listing_pages
      (snd (Timejobs_scraper.scrape_all_jobs w keyword location max_pages
              experience))
    = 1%Z :: 1%Z :: rest.
Proof.
  intros Hc Hw Hn Hk.
  pose proof (scrape_all_jobs_outcome w keyword location max_pages experience
                Hc) as H.
  cbv zeta in H. rewrite Hw, Hn in H.
  destruct H as [total [j [jobs [recs [_ [Hge [Hj [Hout [_ [_ Hpos]]]]]]]]]].
  assert (Hcap : (1 <= Timejobs_scraper.capped_total max_pages total)%Z).
  { unfold Timejobs_scraper.capped_total, truthy_int.
    destruct max_pages as [k|]; [|exact Hge].
    specialize (Hk k eq_refl).
    destruct (Z.eqb_spec k 0); cbn [negb andb]; [exact Hge|].
    destruct (Z.ltb_spec k total); lia. }
  rewrite py_range_length in Hj.
  assert (1 <= j).
  { apply Hpos. intros E. apply (f_equal (@length Z)) in E.
    rewrite py_range_length in E. cbn [length] in E. lia. }
  rewrite Hout. cbn [snd listing_pages].
  rewrite !listing_pages_app, listing_pages_listing, listing_pages_detail.
  rewrite py_range_firstn by (rewrite py_range_length; exact Hj).
  unfold py_range.
  replace (Z.to_nat (Z.of_nat j + 1 - 1)) with (S (j - 1)) by lia.
  cbn [seq map app]. eexists. reflexivity.
Qed.

Lemma first_page_is_loaded_twice_witness :
  exists rest,
    listing_pages
      (snd (Timejobs_scraper.scrape_all_jobs Fixtures.tj_world_three_pages
              (Some "Python") (Some "Pune") None None))
    = 1%Z :: 1%Z :: rest.
Proof.
  apply (first_page_is_loaded_twice Fixtures.tj_world_three_pages
           (Some "Python") (Some "Pune") None None Fixtures.tj_page_of_three).
  - reflexivity.
  - vm_compute. reflexivity.
  - vm_compute. reflexivity.
  - discriminate.
Defined.

(* ------------------------------------------------------------------ *)
(** ** The addresses of the stubs *)

Section StubUrls.
Import Bs4.

Lemma contains_append (sub p s : string) :
  PyStr.contains sub s = true -> PyStr.contains sub (p ++ s) = true.
Proof.
  intros H. induction p as [|c p IH]; cbn [append]; [exact H|].
  cbn [PyStr.contains]. rewrite IH.
  destruct (String.prefix sub (String c (p ++ s))); reflexivity.
Qed.

Lemma links_loop_job_detail (base_url : string) (links : list Loc) :
  forall seen jobs,
    Forall job_detail_url jobs ->
    Forall job_detail_url
           (Timejobs_scraper.links_loop base_url links seen jobs).
Proof.
  induction links as [|link rest IH]; intros seen jobs Hj;
    cbn [Timejobs_scraper.links_loop]; [exact Hj|].
  destruct (PyStr.contains "/job-detail/" (Timejobs_scraper.link_href link))
    eqn:Hc; cbn [negb]; [|apply IH, Hj].
  destruct (Timejobs_scraper.mem (Timejobs_scraper.link_href link) seen);
    [apply IH, Hj|].
  destruct (PyStr.nonempty (Timejobs_scraper.link_title link)
            && negb (String.eqb (Timejobs_scraper.link_title link) "N/A"));
    [|apply IH, Hj].
  apply IH. apply Forall_app. split; [exact Hj|].
  constructor; [|constructor]. unfold job_detail_url. cbn [url].
  destruct (PyStr.startswith (Timejobs_scraper.link_href link) "/");
    [apply contains_append|]; exact Hc.
Qed.

End StubUrls.

(** X11: TimesJobs only follows job-detail links.  The address of every
    stub that [extract_jobs_from_page] yields contains "/job-detail/" (so
    it is never empty), and so does the address of every detail page that
    [scrape_all_jobs] visits, in every world. *)
Theorem timesjobs_visits_only_job_detail_links :
  (forall (soup : Bs4.Soup) (base_url : string),
      Forall (fun s => PyStr.contains "/job-detail/" (url s) = true
                       /\ url s <> "")
             (Timejobs_scraper.extract_jobs_from_page soup base_url))
  /\ (forall w keyword location max_pages experience,
         Forall (fun u => PyStr.contains "/job-detail/" u = true)
                (detail_visits
                   (snd (Timejobs_scraper.scrape_all_jobs w keyword location
                           max_pages experience)))).
Proof.
  assert (Hpage : forall soup base_url,
             Forall job_detail_url
               (Timejobs_scraper.extract_jobs_from_page soup base_url)).
  { intros soup base_url. apply links_loop_job_detail. constructor. }
  split.
  - intros soup base_url. eapply Forall_impl; [|apply Hpage].
    intros s Hs. split; [exact Hs|].
    intros E. unfold job_detail_url in Hs. rewrite E in Hs. discriminate.
  - intros w keyword location max_pages experience.
    destruct (chrome w) as [e|] eqn:Hc.
    + unfold Timejobs_scraper.scrape_all_jobs, Timejobs_scraper.get_driver,
        start_chrome. rewrite Hc. constructor.
    + destruct (scrape_all_jobs_by_passes w keyword location max_pages
                  experience Hc) as [n [jobs [evs [E [Hev HP]]]]].
      rewrite E. cbn [snd].
      rewrite !detail_visits_app, Hev, detail_visits_detail.
      cbn [detail_visits app]. rewrite app_nil_r.
      apply Forall_map. apply (HP job_detail_url).
      intros soup. apply Hpage.
Qed.

(* ------------------------------------------------------------------ *)
(** ** Fields that are never empty *)

Section NonEmptyFields.
Import Bs4.

Lemma nonempty_append (a b : string) :
  PyStr.nonempty a = true -> PyStr.nonempty (a ++ b) = true.
Proof. destruct a; [discriminate|reflexivity]. Qed.

Lemma join_nonempty (sep x : string) (xs : list string) :
  PyStr.nonempty x = true -> PyStr.nonempty (PyStr.join sep (x :: xs)) = true.
Proof.
  intros H. unfold PyStr.join. cbn [String.concat].
  destruct xs; [exact H|apply nonempty_append, H].
Qed.

Lemma long_text_nonempty (t : string) :
  Timejobs_scraper.long_text t = true -> PyStr.nonempty t = true.
Proof.
  unfold Timejobs_scraper.long_text. intros H.
  apply andb_true_iff in H. tauto.
Qed.

Lemma blocks_loop_nonempty (blocks : list Loc) (otherwise : result string) :
  (exists s, otherwise = Ok s /\ PyStr.nonempty s = true) ->
  exists s, Timejobs_scraper.blocks_loop blocks otherwise = Ok s
            /\ PyStr.nonempty s = true.
Proof.
  intros Ho. induction blocks as [|b rest IH];
    cbn [Timejobs_scraper.blocks_loop]; [exact Ho|].
  destruct (Timejobs_scraper.long_text (get_text_sep_strip b)) eqn:E;
    [|exact IH].
  eexists. split; [reflexivity|apply long_text_nonempty, E].
Qed.

Lemma description_after_heading_nonempty (all : list Loc) :
  exists s, Timejobs_scraper.description_after_heading all = Ok s
            /\ PyStr.nonempty s = true.
Proof.
  unfold Timejobs_scraper.description_after_heading, try_except.
  destruct (Timejobs_scraper.description_heading all) as [h|];
    [|eexists; split; reflexivity].
  destruct (Timejobs_scraper.sibling_texts h) as [|p ps] eqn:E;
    [eexists; split; reflexivity|].
  eexists. split; [reflexivity|]. apply join_nonempty.
  assert (Hin : In p (Timejobs_scraper.sibling_texts h))
    by (rewrite E; left; reflexivity).
  unfold Timejobs_scraper.sibling_texts in Hin.
  apply filter_In in Hin. tauto.
Qed.

Lemma skills_loop_clean (siblings : list Loc) :
  forall skills,
    Forall clean_skill skills ->
    Forall clean_skill (Timejobs_scraper.skills_loop siblings skills).
Proof.
  induction siblings as [|sib rest IH]; intros skills Hs;
    cbn [Timejobs_scraper.skills_loop]; [exact Hs|].
  destruct (name_of (here sib)) as [nm|]; [|apply IH, Hs].
  destruct (PyStr.nonempty nm && PyStr.startswith (PyStr.lower nm) "h");
    [exact Hs|].
  destruct (PyStr.nonempty (get_text_strip sib)) eqn:Hn; cbn [andb];
    [|apply IH, Hs].
  destruct (0 <? String.length (get_text_strip sib)); cbn [andb];
    [|apply IH, Hs].
  destruct (existsb _ Timejobs_scraper.skill_excludes) eqn:He; cbn [negb];
    [apply IH, Hs|].
  apply IH. apply Forall_app. split; [exact Hs|].
  constructor; [|constructor]. split; [exact Hn|].
  apply Forall_forall. intros ex Hin.
  destruct (PyStr.contains ex (PyStr.lower (get_text_strip sib))) eqn:Hc;
    [|reflexivity].
  assert (Ht : existsb (fun exclude =>
                          PyStr.contains exclude
                            (PyStr.lower (get_text_strip sib)))
                       Timejobs_scraper.skill_excludes = true).
  { apply existsb_exists. exists ex. split; [exact Hin|exact Hc]. }
  rewrite Ht in He. discriminate.
Qed.

Lemma talent_long_text_nonempty (t : string) :
  Talent_scraper.long_text t = true -> PyStr.nonempty t = true.
Proof.
  unfold Talent_scraper.long_text. intros H.
  apply andb_true_iff in H. tauto.
Qed.

Lemma bold_loop_nonempty (bs : list Loc) (t : string) :
  Talent_scraper.bold_loop bs = Some t -> PyStr.nonempty t = true.
Proof.
  induction bs as [|b rest IH]; cbn [Talent_scraper.bold_loop];
    [discriminate|].
  destruct (PyStr.contains "job description" _); [|exact IH].
  destruct (Talent_scraper.long_text _) eqn:E; [|exact IH].
  intros H. injection H as <-. apply talent_long_text_nonempty, E.
Qed.

End NonEmptyFields.

(** X12: the description that TimesJobs extracts is never the empty
    string: on every detail page [extract_description_from_detail] returns
    (it does not raise) a non-empty text, be it extracted content or the
    sentinel. *)
Theorem timesjobs_description_is_never_empty (soup : Bs4.Soup) :
  exists s,
    Timejobs_scraper.extract_description_from_detail soup = Ok s
    /\ PyStr.nonempty s = true.
Proof.
  unfold Timejobs_scraper.extract_description_from_detail.
  assert (Hrest : exists s,
             Timejobs_scraper.blocks_loop
               (Timejobs_scraper.possible_blocks (Bs4.soup_descendants soup))
               (Timejobs_scraper.description_after_heading
                  (Bs4.soup_descendants soup)) = Ok s
             /\ PyStr.nonempty s = true).
  { apply blocks_loop_nonempty, description_after_heading_nonempty. }
  destruct (Bs4.find _ (Bs4.soup_descendants soup)) as [rtd|]; [|exact Hrest].
  destruct (Timejobs_scraper.long_text
              (Bs4.get_text_sep_strip rtd)) eqn:E; [|exact Hrest].
  eexists. split; [reflexivity|apply long_text_nonempty, E].
Qed.

(** X13: the description that Talent.com extracts is never the empty
    string, on any detail page. *)
Theorem talent_description_is_never_empty (detail_soup : Bs4.Soup) :
  PyStr.nonempty (Talent_scraper.extract_talent_description detail_soup)
  = true.
Proof.
  unfold Talent_scraper.extract_talent_description.
  assert (Hfall : PyStr.nonempty
                    (Talent_scraper.description_fallbacks
                       (Bs4.soup_descendants detail_soup)) = true).
  { unfold Talent_scraper.description_fallbacks.
    destruct (Talent_scraper.bold_loop _) as [t|] eqn:E;
      [eapply bold_loop_nonempty, E|].
    unfold Talent_scraper.description_container.
    destruct (Talent_scraper.orelse _ _) as [c|]; [|reflexivity].
    destruct (PyStr.nonempty (Bs4.get_text_sep_strip c)) eqn:E';
      [exact E'|reflexivity]. }
  destruct (Bs4.find _ (Bs4.soup_descendants detail_soup)) as [desc_div|];
    [|exact Hfall].
  destruct (Talent_scraper.long_text
              (Bs4.get_text_sep_strip desc_div)) eqn:E;
    [apply talent_long_text_nonempty, E|exact Hfall].
Qed.

(** X14: the skills that TimesJobs keeps.  Every entry that the loop over
    the siblings of the "Key Skills" heading collects is non-empty and
    contains none of the excluded words, in any letter case; and
    [extract_skills_from_detail] returns (it does not raise) a non-empty
    text on every detail page. *)
Theorem timesjobs_skills_are_clean :
  (forall siblings : list Bs4.Loc,
      Forall clean_skill (Timejobs_scraper.skills_loop siblings []))
  /\ (forall soup : Bs4.Soup,
         exists s,
           Timejobs_scraper.extract_skills_from_detail soup = Ok s
           /\ PyStr.nonempty s = true).
Proof.
  split.
  - intros siblings. apply skills_loop_clean. constructor.
  - intros soup. unfold Timejobs_scraper.extract_skills_from_detail, try_except.
    destruct (hd_error _) as [h|]; [|eexists; split; reflexivity].
    pose proof (skills_loop_clean (Bs4.find_next_siblings h) []
                  (Forall_nil _)) as Hc.
    destruct (Timejobs_scraper.skills_loop (Bs4.find_next_siblings h) [])
      as [|p ps]; [eexists; split; reflexivity|].
    eexists. split; [reflexivity|]. apply join_nonempty.
    apply Forall_inv in Hc. apply Hc.
Qed.

(* ------------------------------------------------------------------ *)
(** ** The label-keyed fields *)

Section LabelValue.
Import Bs4.

Lemma lower_c_colon (c : ascii) :
  PyStr.lower_c c = ":"%char -> c = ":"%char.
Proof.
  destruct c as [b0 b1 b2 b3 b4 b5 b6 b7].
  destruct b0, b1, b2, b3, b4, b5, b6, b7; vm_compute; intros H;
    solve [reflexivity | discriminate H].
Qed.

Lemma lower_append (a b : string) :
  PyStr.lower (a ++ b) = (PyStr.lower a ++ PyStr.lower b)%string.
Proof.
  unfold PyStr.lower.
  induction a as [|c a IH]; cbn [append PyStr.map_c];
    [reflexivity|rewrite IH; reflexivity].
Qed.

(** A text that starts with a colon-free label and a colon, in any letter
    case, is split at that colon. *)
Lemma partition_at_label (label_text : string) :
  no_colon label_text = true ->
  forall txt,
    labelled label_text txt = true ->
    exists before,
      PyStr.partition_once ":" txt
      = Some (before, PyStr.drop (S (String.length label_text)) txt).
Proof.
  unfold labelled, PyStr.startswith. rewrite lower_append.
  induction label_text as [|a l IH]; intros Hnc txt Hp.
  - destruct txt as [|c t]; [discriminate|].
    unfold PyStr.lower in Hp. cbn [PyStr.map_c append String.prefix] in Hp.
    change (PyStr.lower_c ":") with ":"%char in Hp.
    destruct (ascii_dec ":" (PyStr.lower_c c)) as [E|]; [|discriminate].
    symmetry in E. apply lower_c_colon in E. subst c.
    exists EmptyString. destruct t; reflexivity.
  - cbn [no_colon PyStr.forall_c] in Hnc. apply andb_true_iff in Hnc.
    destruct Hnc as [Ha Hl].
    destruct txt as [|c t]; [discriminate|].
    unfold PyStr.lower in Hp. cbn [PyStr.map_c append String.prefix] in Hp.
    fold (PyStr.lower l) in Hp. fold (PyStr.lower t) in Hp.
    destruct (ascii_dec (PyStr.lower_c a) (PyStr.lower_c c)) as [E|];
      [|discriminate].
    destruct (IH Hl t Hp) as [before Hb].
    assert (Hc : c <> ":"%char).
    { intros ->. apply lower_c_colon in E. subst a.
      vm_compute in Ha. discriminate Ha. }
    exists (String c before).
    cbn [PyStr.partition_once String.prefix String.length PyStr.drop].
    destruct (ascii_dec ":" c) as [E'|_]; [symmetry in E'; contradiction|].
    rewrite Hb. reflexivity.
Qed.

Lemma label_loop_first (label_text : string) (candidates : list Loc) :
  no_colon label_text = true ->
  Timejobs_scraper.label_loop candidates (PyStr.lower (label_text ++ ":"))
  = Ok match hd_error
               (filter (labelled label_text)
                       (map (fun tag => get_text_sep_strip tag)
                            candidates)) with
       | Some txt =>
           PyStr.strip (PyStr.drop (S (String.length label_text)) txt)
       | None => "N/A"
       end.
Proof.
  intros Hnc. induction candidates as [|tag rest IH];
    cbn [Timejobs_scraper.label_loop map filter]; [reflexivity|].
  fold (labelled label_text (get_text_sep_strip tag)).
  destruct (labelled label_text (get_text_sep_strip tag)) eqn:E;
    [|exact IH].
  destruct (partition_at_label label_text Hnc _ E) as [before Hb].
  unfold PyStr.split_once. rewrite Hb. reflexivity.
Qed.

End LabelValue.

(** X15: a label-keyed field is the rest of the first matching line.  For
    a label without a colon, [extract_label_value] returns (it does not
    raise) the sentinel "N/A" when no [li], [div], [span] or [p] has a text
    that starts with the label and a colon, compared without regard to
    letter case; otherwise it takes the first such text, in document order,
    and returns what follows the label's colon, stripped. *)
Theorem extract_label_value_is_first_match
  (detail_soup : Bs4.Soup) (label_text : string) :
  no_colon label_text = true ->
  Timejobs_scraper.extract_label_value detail_soup label_text
  = Ok match first_labelled detail_soup label_text with
       | Some txt =>
           PyStr.strip (PyStr.drop (S (String.length label_text)) txt)
       | None => "N/A"
       end.
Proof.
  intros Hnc. unfold Timejobs_scraper.extract_label_value, try_except.
  rewrite (label_loop_first label_text _ Hnc). reflexivity.
Qed.

Lemma extract_label_value_is_first_match_witness :
  Timejobs_scraper.extract_label_value MoreFixtures.tj_detail_labels "Industry"
  = Ok "IT Services".
Proof.
  rewrite (extract_label_value_is_first_match MoreFixtures.tj_detail_labels
             "Industry").
  - vm_compute. reflexivity.
  - reflexivity.
Defined.

(* ------------------------------------------------------------------ *)
(** ** More on the text files *)

Section MoreParsing.

Lemma parse_jobs_file_blocks (content source : string) :
  Main.parse_jobs_file (Some content) source
  = Ok (map (ParseSpec.record_of_block source)
            (ParseSpec.blocks
               (map PyStr.rstrip_newline (Main.readlines content)))).
Proof.
  destruct (lines_loop_blocks source (Main.readlines content) [] None)
    as [st [E Hf]]; [discriminate|].
  unfold Main.parse_jobs_file. rewrite E. cbn [rbind app] in *.
  rewrite Hf. reflexivity.
Qed.

Lemma split_blocks_starts_with_job (raw_lines : list string) :
  starts_with_job raw_lines = true ->
  fst (ParseSpec.split_blocks (map PyStr.rstrip_newline raw_lines)) = [].
Proof.
  destruct raw_lines as [|raw rest]; [reflexivity|].
  cbn [starts_with_job map ParseSpec.split_blocks]. intros H.
  destruct (ParseSpec.split_blocks (map PyStr.rstrip_newline rest)).
  rewrite H. reflexivity.
Qed.

Lemma blocks_app (la lb : list string) :
  fst (ParseSpec.split_blocks lb) = [] ->
  ParseSpec.split_blocks (la ++ lb)
  = (fst (ParseSpec.split_blocks la),
     snd (ParseSpec.split_blocks la) ++ snd (ParseSpec.split_blocks lb)).
Proof.
  intros H. induction la as [|l la IH]; cbn [app ParseSpec.split_blocks].
  - destruct (ParseSpec.split_blocks lb) as [pre bs]. cbn [fst snd] in *.
    subst pre. reflexivity.
  - rewrite IH. destruct (ParseSpec.split_blocks la) as [pre bs].
    cbn [fst snd]. destruct (Main.is_job_line l); reflexivity.
Qed.

Lemma field_line_unmatched (labels : list (string * string))
  (line : string) (current : JobRecord) :
  existsb (fun lk => PyStr.startswith line (fst lk)) labels = false ->
  Main.field_line labels line current = Ok current.
Proof.
  induction labels as [|[label key] rest IH];
    cbn [existsb Main.field_line fst]; [reflexivity|].
  intros H. apply orb_false_iff in H. destruct H as [H1 H2].
  rewrite H1. apply IH, H2.
Qed.

Lemma lines_loop_recognised (source : string) (raw_lines : list string) :
  forall jobs current,
    Main.lines_loop source (filter recognised raw_lines) jobs current
    = Main.lines_loop source raw_lines jobs current.
Proof.
  induction raw_lines as [|raw rest IH]; intros jobs current;
    [reflexivity|].
  cbn [filter]. unfold recognised at 1. cbv zeta.
  destruct (Main.is_job_line (PyStr.rstrip_newline raw)) eqn:Ej;
    cbn [orb].
  - cbn [Main.lines_loop]. rewrite Ej. apply IH.
  - destruct (existsb _ Main.LABELS) eqn:El.
    + cbn [Main.lines_loop]. rewrite Ej.
      destruct current as [c|]; [|apply IH].
      rewrite field_line_update. cbn [rbind]. apply IH.
    + rewrite IH. cbn [Main.lines_loop]. rewrite Ej.
      destruct current as [c|]; [|reflexivity].
      rewrite (field_line_unmatched _ _ _ El). reflexivity.
Qed.

End MoreParsing.

Section FileConcatenation.

Lemma readlines_from_app (a : string) :
  a <> EmptyString ->
  ends_with_newline a = true ->
  forall cur b,
    Main.readlines_from cur (a ++ b)
    = Main.readlines_from cur a ++ Main.readlines b.
Proof.
  induction a as [|c rest IH]; intros Hne Hend cur b; [contradiction|].
  cbn [append Main.readlines_from]. cbn [ends_with_newline] in Hend.
  destruct rest as [|c' rest'].
  - rewrite Hend. reflexivity.
  - assert (Hrest : String c' rest' <> EmptyString) by discriminate.
    destruct (Ascii.eqb c PyStr.newline).
    + rewrite (IH Hrest Hend). reflexivity.
    + apply (IH Hrest Hend).
Qed.

Lemma readlines_app (a b : string) :
  ends_with_newline a = true ->
  Main.readlines (a ++ b) = Main.readlines a ++ Main.readlines b.
Proof.
  intros H. destruct a as [|c rest]; [reflexivity|].
  apply readlines_from_app; [discriminate|exact H].
Qed.

End FileConcatenation.

(** X16: parsing distributes over the concatenation of files.  When a
    text A is empty or ends with a line terminator and a text B is empty or
    begins with a "Job #" line, the records of the file A followed by B are
    the records of A followed by the records of B. *)
Theorem parse_jobs_file_of_concatenation (a b source : string) :
  ends_with_newline a = true ->
  starts_with_job (Main.readlines b) = true ->
  exists jobs_a jobs_b,
    Main.parse_jobs_file (Some a) source = Ok jobs_a
    /\ Main.parse_jobs_file (Some b) source = Ok jobs_b
    /\ Main.parse_jobs_file (Some (a ++ b)%string) source
       = Ok (jobs_a ++ jobs_b).
Proof.
  intros Hend Hjob.
  rewrite !parse_jobs_file_blocks, (readlines_app a b Hend).
  eexists. eexists.
  split; [reflexivity|]. split; [reflexivity|].
  unfold ParseSpec.blocks. rewrite map_app, blocks_app, <- map_app;
    [reflexivity|].
  apply split_blocks_starts_with_job, Hjob.
Qed.

Lemma parse_jobs_file_of_concatenation_witness :
  exists jobs_a jobs_b,
    Main.parse_jobs_file (Some MoreFixtures.file_a) "TimesJobs" = Ok jobs_a
    /\ Main.parse_jobs_file (Some MoreFixtures.file_b) "TimesJobs" = Ok jobs_b
    /\ Main.parse_jobs_file
         (Some (MoreFixtures.file_a ++ MoreFixtures.file_b)%string)
         "TimesJobs"
       = Ok (jobs_a ++ jobs_b).
Proof.
  apply (parse_jobs_file_of_concatenation
           MoreFixtures.file_a MoreFixtures.file_b "TimesJobs").
  - vm_compute. reflexivity.
  - vm_compute. reflexivity.
Defined.

(** X17: lines that the parser does not know are ignored.  A file and the
    file left when every line that is neither a "Job #" line nor starts
    with one of the fifteen labels is removed give the same records: blank
    lines, separators and the further lines of a long description change
    nothing. *)
Theorem parse_jobs_file_ignores_unknown_lines
  (content content' source : string) :
  Main.readlines content' = filter recognised (Main.readlines content) ->
  Main.parse_jobs_file (Some content') source
  = Main.parse_jobs_file (Some content) source.
Proof.
  intros H. unfold Main.parse_jobs_file.
  rewrite H, lines_loop_recognised. reflexivity.
Qed.

Lemma parse_jobs_file_ignores_unknown_lines_witness :
  Main.parse_jobs_file (Some MoreFixtures.file_b) "TimesJobs"
  = Main.parse_jobs_file (Some MoreFixtures.file_b_noisy) "TimesJobs".
Proof.
  apply (parse_jobs_file_ignores_unknown_lines MoreFixtures.file_b_noisy
           MoreFixtures.file_b "TimesJobs").
  vm_compute. reflexivity.
Defined.

(* ------------------------------------------------------------------ *)
(** ** The combined run *)

Section CombinedRun.

Lemma timesjobs_detail_pass_of_source (site : nat -> string -> Response)
  (jobs : list JobStub) :
  forall n,
    Forall (record_of_source "TimesJobs")
           (timesjobs_detail_pass site n jobs).
Proof.
  induction jobs as [|job rest IH]; intros n; cbn [timesjobs_detail_pass];
    [constructor|].
  apply Forall_app. split; [|apply IH].
  unfold timesjobs_job_outcome.
  destruct (site n (url job)) as [soup|e]; [|constructor].
  destruct (Timejobs_scraper.job_record job soup) as [r|e] eqn:E;
    [|constructor].
  constructor; [|constructor]. split.
  - eapply job_record_fully_keyed, E.
  - eapply job_record_fields, E.
Qed.

Lemma talent_detail_pass_of_source (site : nat -> string -> Response)
  (jobs : list JobStub) :
  forall n,
    Forall (record_of_source "Talent.com") (talent_detail_pass site n jobs).
Proof.
  induction jobs as [|job rest IH]; intros n; cbn [talent_detail_pass];
    [constructor|].
  apply Forall_app. split; [|apply IH].
  destruct (site n (url job)) as [soup|e]; [|constructor].
  constructor; [|constructor]. split; reflexivity.
Qed.

Lemma scrape_all_jobs_of_source (w : World)
  (keyword location : option string) (max_pages experience : option Z) :
  match fst (Timejobs_scraper.scrape_all_jobs w keyword location max_pages
               experience) with
  | Ok recs => Forall (record_of_source "TimesJobs") recs
  | Raise e => chrome w = Some e
  end.
Proof.
  destruct (chrome w) as [e|] eqn:Hc.
  - unfold Timejobs_scraper.scrape_all_jobs, Timejobs_scraper.get_driver,
      start_chrome. rewrite Hc. reflexivity.
  - destruct (scrape_all_jobs_by_passes w keyword location max_pages
                experience Hc) as [n [jobs [evs [E _]]]].
    rewrite E. apply timesjobs_detail_pass_of_source.
Qed.

Lemma scrape_talent_com_of_source (w : World) (location : string)
  (keyword : option string) (radius : option Z) (date_posted : option string)
  (remote promoted : option bool) (job_type company : option string)
  (page : Z) :
  match fst (Talent_scraper.scrape_talent_com w location keyword radius
               date_posted remote promoted job_type company page) with
  | Ok recs => Forall (record_of_source "Talent.com") recs
  | Raise e => chrome w = Some e
  end.
Proof.
  unfold Talent_scraper.scrape_talent_com, Talent_scraper.get_driver,
    start_chrome.
  destruct (chrome w) as [e|]; [reflexivity|].
  unfold finally, catch, Talent_scraper.crawl, bind, request.
  cbn [site requests log].
  destruct (web w 0 _) as [soup|e]; [|constructor].
  rewrite talent_jobs_loop_pass_eq. cbn [fst app].
  apply talent_detail_pass_of_source.
Qed.

End CombinedRun.

(** X18: the combined run of the dashboard.  Whatever the two sites
    answer, the handler ends in one of three ways.  It completes: then the
    session state holds the Talent.com records, the TimesJobs records and
    the former followed by the latter as the merged list, every record
    carrying all schema keys and the tag of its source, and that merged
    list is what was dumped into [output/merged_jobs_<timestamp>.json],
    the path the session state remembers.  Or Chrome could not be started
    for one of the two scrapers: then the handler raises that error and
    leaves the session state as it was.  Or writing the JSON file raises:
    then the handler raises that error, no file is written in full, and
    the session state already holds the merged lists. *)
Theorem run_combined_merges_tagged_records
  (talent_world timesjobs_world : World) (host : MainRun.Host)
  (designation city : string) (experience_years : Z)
  (st : MainRun.SessionState) :
  let run := MainRun.run_combined talent_world timesjobs_world host
               designation city experience_years st in
  let path := ("output/merged_jobs_" ++ MainRun.now host ++ ".json")%string in
  let stored (talent timesjobs : list JobRecord) :=
    MainRun.talent_jobs (MainRun.state run) = Some talent
    /\ MainRun.timesjobs_jobs (MainRun.state run) = Some timesjobs
    /\ MainRun.merged_jobs (MainRun.state run) = Some (talent ++ timesjobs)
    /\ MainRun.show_filter (MainRun.state run) = Some "all"
    /\ Forall (record_of_source "Talent.com") talent
    /\ Forall (record_of_source "TimesJobs") timesjobs in
  match MainRun.ended run with
  | Ok _ =>
      MainRun.save host path = None
      /\ exists talent timesjobs,
           stored talent timesjobs
           /\ MainRun.files run = [(path, talent ++ timesjobs)]
           /\ MainRun.merged_json_path (MainRun.state run) = Some path
  | Raise e =>
      MainRun.files run = []
      /\ (((chrome talent_world = Some e \/ chrome timesjobs_world = Some e)
           /\ MainRun.state run = st)
          \/ (MainRun.save host path = Some e
              /\ MainRun.merged_json_path (MainRun.state run)
                 = MainRun.merged_json_path st
              /\ exists talent timesjobs, stored talent timesjobs))
  end.
Proof.
  intros run path stored. subst run stored.
  unfold MainRun.run_combined. cbv zeta.
  match goal with
  | |- context [Talent_scraper.scrape_talent_com ?w ?l ?k ?r ?dp ?rm ?pr ?jt
                  ?co ?pg] =>
      pose proof (scrape_talent_com_of_source w l k r dp rm pr jt co pg) as Ht;
      destruct (fst (Talent_scraper.scrape_talent_com w l k r dp rm pr jt
                       co pg)) as [talent|e]
  end;
    [|cbn [MainRun.ended MainRun.files MainRun.state];
      split; [reflexivity|left; split; [left; exact Ht|reflexivity]]].
  match goal with
  | |- context [Timejobs_scraper.scrape_all_jobs ?w ?k ?l ?mp ?ex] =>
      pose proof (scrape_all_jobs_of_source w k l mp ex) as Hj;
      destruct (fst (Timejobs_scraper.scrape_all_jobs w k l mp ex))
        as [timesjobs|e]
  end;
    [|cbn [MainRun.ended MainRun.files MainRun.state];
      split; [reflexivity|left; split; [right; exact Hj|reflexivity]]].
  fold path.
  destruct (MainRun.save host path) as [e|] eqn:Es;
    cbn [MainRun.ended MainRun.files MainRun.state MainRun.talent_jobs
         MainRun.timesjobs_jobs MainRun.merged_jobs MainRun.show_filter
         MainRun.merged_json_path].
  - split; [reflexivity|]. right. split; [reflexivity|].
    split; [reflexivity|].
    exists talent, timesjobs. repeat split; assumption.
  - split; [reflexivity|].
    exists talent, timesjobs. repeat split; assumption.
Qed.

(** A run on a machine without the [output] directory: both scrapers
    return, the merged list reaches the session state, and the handler
    raises the error of [open]. *)
Example run_combined_without_output_directory :
  let run := MainRun.run_combined Fixtures.talent_world_no_results
               Fixtures.tj_world_no_results
               (MainRun.mkHost "20240101_120000" (fun _ => Some OSError))
               " Python " "Pune" 0%Z
               (MainRun.mkSessionState None None None None None) in
  MainRun.ended run = Raise OSError
  /\ MainRun.files run = []
  /\ option_map (@length JobRecord) (MainRun.merged_jobs (MainRun.state run))
     = Some 1.
Proof.
  vm_compute. repeat split; reflexivity.
Qed.

(* ------------------------------------------------------------------ *)
(** ** When a TimesJobs job gives a record *)

(** X19: the extraction of a TimesJobs job succeeds exactly when its
    detail page has at least two spans of class
    "mr-2 inline flex items-center".  With two or more, [job_record]
    returns a record whatever else the page holds; with fewer, it raises
    [IndexError], the only exception the extraction can raise, and the job
    is dropped by the detail loop. *)
Theorem job_record_needs_two_spans (job : JobStub) (detail_soup : Bs4.Soup) :
  match Timejobs_scraper.job_record job detail_soup with
  | Ok _ => 2 <= length (Timejobs_scraper.experience_spans detail_soup)
  | Raise e =>
      e = IndexError
      /\ length (Timejobs_scraper.experience_spans detail_soup) < 2
  end.
Proof.
  destruct (guarded_extractors_total detail_soup)
    as [[c Hc] [[de Hd] [[sk Hs] [[sa Ha] Hl]]]].
  unfold Timejobs_scraper.job_record.
  rewrite Hc, Hd, Hs. cbn [rbind].
  unfold Timejobs_scraper.extract_experience_from_detail, index.
  destruct (nth_error (Timejobs_scraper.experience_spans detail_soup) 1)
    as [span|] eqn:E; cbn [rbind].
  - assert (Hlen : 1 < length (Timejobs_scraper.experience_spans detail_soup)).
    { apply nth_error_Some. rewrite E. discriminate. }
    rewrite Ha. cbn [rbind].
    repeat match goal with
           | |- context [Timejobs_scraper.extract_label_value detail_soup ?l] =>
               let v := fresh "v" in
               let Hv := fresh "Hv" in
               destruct (Hl l) as [v Hv]; rewrite Hv; cbn [rbind]
           end.
    exact Hlen.
  - apply nth_error_None in E. split; [reflexivity|lia].
Qed.

(* ------------------------------------------------------------------ *)
(** ** The whole TimesJobs crawl *)

(** X20: a started TimesJobs crawl whose first page is accepted is two
    passes.  With [total] the detected page count and [pages] the range
    from 1 to the capped total, [scrape_all_jobs] loads page 1, walks the
    pages up to the first one that shows a no-results phrase, visits once
    each stub that the walk collected, in order, releases the session, and
    returns one record for each stub whose page rendered and whose
    extraction succeeded. *)
Theorem scrape_all_jobs_is_two_passes (w : World)
  (keyword location : option string) (max_pages experience : option Z)
  (soup : Bs4.Soup) (total : Z) :
  chrome w = None ->
  web w 0 (Timejobs_scraper.build_timesjobs_url keyword location experience 1)
    = Rendered soup ->
  Timejobs_scraper.check_for_no_results soup = false ->
  Timejobs_scraper.get_total_pages soup = Ok total ->
  let url_of := Timejobs_scraper.build_timesjobs_url keyword location
                  experience in
  let pages := py_range 1 (Timejobs_scraper.capped_total max_pages total + 1) in
  let loaded := timesjobs_pages_loaded keyword location experience (web w) 1
                  pages in
  let stubs := timesjobs_walk keyword location experience (web w) 1 pages in
  Timejobs_scraper.scrape_all_jobs w keyword location max_pages experience
  = (Ok (timesjobs_detail_pass (web w) (1 + loaded) stubs),
     LoadListing 1 (url_of 1%Z)
     :: listing_events url_of (firstn loaded pages)
     ++ detail_events stubs ++ [Quit]).
Proof.
  intros Hc Hw Hn Ht url_of pages loaded stubs.
  rewrite scrape_all_jobs_started by assumption.
  unfold finally, catch. rewrite crawl_cases. cbn [site requests log].
  rewrite Hw, Hn.
  unfold Timejobs_scraper.collect_links, bind, lift. rewrite Ht.
  fold pages. rewrite page_loop_pass_eq. cbn [site requests log app].
  fold loaded. fold stubs. fold url_of.
  destruct stubs as [|job rest] eqn:Es; cbn [length Nat.eqb].
  - unfold ret, quit. cbn [log timesjobs_detail_pass detail_events map app].
    reflexivity.
  - rewrite jobs_loop_pass_eq. unfold quit. cbn [site requests log app].
    rewrite <- ?app_assoc. reflexivity.
Qed.

Lemma scrape_all_jobs_is_two_passes_witness :
  detail_visits
    (snd (Timejobs_scraper.scrape_all_jobs Fixtures.tj_world_ends_early
            (Some "Python") (Some "Pune") None None))
  = ["https://www.timesjobs.com/job-detail/dev-1"].
Proof.
  rewrite (scrape_all_jobs_is_two_passes Fixtures.tj_world_ends_early
             (Some "Python") (Some "Pune") None None
             Fixtures.tj_page_of_three 3%Z).
  - vm_compute. reflexivity.
  - reflexivity.
  - vm_compute. reflexivity.
  - vm_compute. reflexivity.
  - vm_compute. reflexivity.
Defined.
